(** * maven_downloader: a shallow embedding of [maven.py] and [__main__.py]

    The development follows the layout of the Python sources.  Python
    strings are modelled as Rocq strings of 8-bit characters (the ASCII
    fragment of [str]); a [bytes] value is a string of bytes, and the
    text that valid UTF-8 bytes decode to is kept as these bytes, which
    the program only stores, measures against the empty text and hands
    to the parser; Python integers as [Z]; dictionaries as [gmap];
    the objects the program mutates (package metadata, packages, the
    visited sets) live in an explicit heap, and every method that touches
    the heap, the file system, the network or the standard output is a
    computation in a state-and-exception monad. *)

From Stdlib Require Import ZArith Ascii String List Lia Bool.
From stdpp Require Import base option gmap strings list.

Local Open Scope string_scope.
Local Open Scope Z_scope.

(** ** Python string operations used by the program *)

Module PyStr.

Fixpoint drop (n : nat) (s : string) : string :=
  match n, s with
  | O, _ => s
  | S _, EmptyString => EmptyString
  | S k, String _ s' => drop k s'
  end.

Fixpoint take (n : nat) (s : string) : string :=
  match n, s with
  | O, _ => EmptyString
  | S _, EmptyString => EmptyString
  | S k, String c s' => String c (take k s')
  end.

Definition len (s : string) : Z := Z.of_nat (String.length s).

(** [s.startswith(p)] and [s.endswith(p)]. *)
Definition startswith (s p : string) : bool := String.prefix p s.

Definition endswith (s p : string) : bool :=
  (String.length p <=? String.length s)%nat
  && String.eqb (drop (String.length s - String.length p) s) p.

(** [s.find(sub)]: the lowest index at which [sub] occurs, or [-1]. *)
Fixpoint find_nat (sub s : string) : option nat :=
  if String.prefix sub s then Some O
  else match s with
       | EmptyString => None
       | String _ s' => option_map S (find_nat sub s')
       end.

Definition find (s sub : string) : Z :=
  match find_nat sub s with
  | Some i => Z.of_nat i
  | None => -1
  end.

(** Index normalisation of a slice bound: a negative bound counts from
    the end, and the result is clamped to [0 .. len]. *)
Definition norm_index (n i : Z) : Z :=
  let j := if i <? 0 then i + n else i in
  Z.max 0 (Z.min n j).

(** [s[lo:hi]] *)
Definition slice (s : string) (lo hi : Z) : string :=
  let a := norm_index (len s) lo in
  let b := norm_index (len s) hi in
  take (Z.to_nat (b - a)) (drop (Z.to_nat a) s).

(** [s[lo:]] *)
Definition slice_from (s : string) (lo : Z) : string :=
  drop (Z.to_nat (norm_index (len s) lo)) s.

(** [s.replace(old, new)]: every non-overlapping occurrence of [old],
    scanning from the left.  [skip] counts the characters of a match
    that remain to be consumed. *)
Fixpoint replace_aux (old new s : string) (skip : nat) : string :=
  match s with
  | EmptyString => EmptyString
  | String c s' =>
      match skip with
      | S k => replace_aux old new s' k
      | O =>
          if String.prefix old s
          then new ++ replace_aux old new s' (String.length old - 1)
          else String c (replace_aux old new s' O)
      end
  end.

Fixpoint interleave (new s : string) : string :=
  match s with
  | EmptyString => new
  | String c s' => new ++ String c (interleave new s')
  end.

Definition replace (s old new : string) : string :=
  match old with
  | EmptyString => interleave new s
  | _ => replace_aux old new s O
  end.

(** [s.lower()] on the ASCII fragment. *)
Definition lower_char (c : ascii) : ascii :=
  let n := nat_of_ascii c in
  if ((65 <=? n) && (n <=? 90))%nat then ascii_of_nat (n + 32) else c.

Fixpoint lower (s : string) : string :=
  match s with
  | EmptyString => EmptyString
  | String c s' => String (lower_char c) (lower s')
  end.

(** [s.strip()]: the whitespace characters of [str] below 128. *)
Definition is_space (c : ascii) : bool :=
  let n := nat_of_ascii c in
  (((9 <=? n) && (n <=? 13)) || ((28 <=? n) && (n <=? 32)))%nat.

Fixpoint lstrip (s : string) : string :=
  match s with
  | EmptyString => EmptyString
  | String c s' => if is_space c then lstrip s' else s
  end.

Fixpoint rstrip (s : string) : string :=
  match s with
  | EmptyString => EmptyString
  | String c s' =>
      let r := rstrip s' in
      if is_space c && String.eqb r EmptyString then EmptyString
      else String c r
  end.

Definition strip (s : string) : string := rstrip (lstrip s).

(** [s.split(sep)] for a one-character separator. *)
Fixpoint split_char (sep : ascii) (s : string) : list string :=
  match s with
  | EmptyString => [EmptyString]
  | String c s' =>
      if Ascii.eqb c sep then EmptyString :: split_char sep s'
      else match split_char sep s' with
           | h :: t => String c h :: t
           | [] => [String c EmptyString]
           end
  end.

(** [urllib.parse.quote(s)] with its default [safe='/']: every
    character outside [A-Za-z0-9_.-~/] becomes [%XX]. *)
Definition is_unreserved (c : ascii) : bool :=
  let n := nat_of_ascii c in
  (((65 <=? n) && (n <=? 90)) || ((97 <=? n) && (n <=? 122))
   || ((48 <=? n) && (n <=? 57))
   || (n =? 95) || (n =? 46) || (n =? 45) || (n =? 126))%nat.

Definition hex_digit (n : nat) : ascii :=
  if (n <? 10)%nat then ascii_of_nat (48 + n) else ascii_of_nat (55 + n).

Definition percent_encode (c : ascii) : string :=
  let n := nat_of_ascii c in
  String "%" (String (hex_digit (n / 16)) (String (hex_digit (n mod 16)) EmptyString)).

Fixpoint quote (s : string) : string :=
  match s with
  | EmptyString => EmptyString
  | String c s' =>
      (if is_unreserved c || Ascii.eqb c "/" then String c EmptyString
       else percent_encode c) ++ quote s'
  end.

(** [sub in s] *)
Definition contains (s sub : string) : bool := 0 <=? find s sub.

(** [data.decode("utf-8")] succeeds: [data] is well-formed UTF-8, without
    overlong forms, surrogates or code points above U+10FFFF.  [need]
    counts the continuation bytes that the current character still
    lacks, [lo] and [hi] bound the next one. *)
Fixpoint utf8_tail (need lo hi : nat) (s : string) : bool :=
  match s with
  | EmptyString => (need =? 0)%nat
  | String c s' =>
      let n := nat_of_ascii c in
      match need with
      | O =>
          if (n <? 128)%nat then utf8_tail 0 128 191 s'
          else if ((194 <=? n) && (n <=? 223))%nat then utf8_tail 1 128 191 s'
          else if (n =? 224)%nat then utf8_tail 2 160 191 s'
          else if (((225 <=? n) && (n <=? 236)) || ((238 <=? n) && (n <=? 239)))%nat
               then utf8_tail 2 128 191 s'
          else if (n =? 237)%nat then utf8_tail 2 128 159 s'
          else if (n =? 240)%nat then utf8_tail 3 144 191 s'
          else if ((241 <=? n) && (n <=? 243))%nat then utf8_tail 3 128 191 s'
          else if (n =? 244)%nat then utf8_tail 3 128 143 s'
          else false
      | S k =>
          if ((lo <=? n) && (n <=? hi))%nat then utf8_tail k 128 191 s' else false
      end
  end.

Definition valid_utf8 (data : string) : bool := utf8_tail 0 128 191 data.

(** What a file opened in text mode ([newline=None]) gives for its
    decoded content: [\r\n] and [\r] become [\n]. *)
Definition cr : string := String (ascii_of_nat 13) EmptyString.
Definition lf : string := String (ascii_of_nat 10) EmptyString.
Definition universal_newlines (s : string) : string :=
  replace (replace s (cr ++ lf) lf) cr lf.

End PyStr.

(** ** Module constants and path helpers ([maven.py], lines 7-61) *)

Definition DEFAULT_REPO_BASE : string := "https://repo1.maven.org/maven2".
Definition DEFAULT_VERSION : string := "release".
Definition DEFAULT_SCOPE : string := "compile".
Definition DEFAULT_OPTIONAL : bool := false.

(** [os.path] is [posixpath]: the separator is a slash. *)
Definition os_path_sep : string := "/".

Definition os_path_join2 (path b : string) : string :=
  if PyStr.startswith b os_path_sep then b
  else if String.eqb path "" || PyStr.endswith path os_path_sep then path ++ b
  else path ++ os_path_sep ++ b.

Definition os_path_join (a : string) (p : list string) : string :=
  fold_left os_path_join2 p a.

Definition get_package_page_url (repo_base groupId artifactId : string) : string :=
  let groupId := PyStr.replace groupId "." "/" in
  let groupId := PyStr.quote groupId in
  let artifactId := PyStr.quote artifactId in
  repo_base ++ "/" ++ groupId ++ "/" ++ artifactId.

Definition _quote_groupId_path (groupId : string) : string :=
  let groupId := PyStr.replace groupId ".." "" in
  let groupId := PyStr.replace groupId "." os_path_sep in
  let groupId := PyStr.replace (PyStr.replace (PyStr.replace groupId ":" "") "?" "") "=" "" in
  groupId.

Definition _quote_artifactId_path (artifactId : string) : string :=
  let artifactId := PyStr.replace artifactId ".." "" in
  let artifactId := PyStr.replace (PyStr.replace artifactId "/" "") "\" "" in
  let artifactId := PyStr.replace (PyStr.replace (PyStr.replace artifactId ":" "") "?" "") "=" "" in
  artifactId.

Definition _quote_version_path (version : string) : string :=
  let version := PyStr.replace (PyStr.replace (PyStr.replace version ".." "") "/" "") "\" "" in
  let version := PyStr.replace (PyStr.replace (PyStr.replace version ":" "") "?" "") "=" "" in
  version.

(** [posixpath.dirname] *)
Fixpoint rfind_char (c : ascii) (s : string) : option nat :=
  match s with
  | EmptyString => None
  | String d s' =>
      match rfind_char c s' with
      | Some i => Some (S i)
      | None => if Ascii.eqb d c then Some O else None
      end
  end.

Fixpoint rstrip_char (c : ascii) (s : string) : string :=
  match s with
  | EmptyString => EmptyString
  | String d s' =>
      let r := rstrip_char c s' in
      if Ascii.eqb d c && String.eqb r EmptyString then EmptyString else String d r
  end.

Definition os_path_dirname (p : string) : string :=
  let head := match rfind_char "/" p with
              | Some i => PyStr.take (S i) p
              | None => EmptyString
              end in
  if String.eqb (rstrip_char "/" head) EmptyString then head else rstrip_char "/" head.

Section CachePaths.
(** [os.getcwd()] at import time. *)
Variable cwd : string.

Definition CACHE_DIR : string := os_path_join cwd [".mvn_cache"].
Definition CACHE_METADATA_DIR : string := os_path_join CACHE_DIR ["metadata"].
Definition CACHE_POM_DIR : string := os_path_join CACHE_DIR ["pom"].
Definition CACHE_JAR_DIR : string := os_path_join CACHE_DIR ["jar"].

Definition get_metadata_cache_path (groupId artifactId : string) : string :=
  let groupId := _quote_groupId_path groupId in
  let artifactId := _quote_artifactId_path artifactId in
  os_path_join CACHE_METADATA_DIR [groupId; artifactId; "maven-metadata.xml"].

Definition get_pom_cache_path (groupId artifactId version : string) : string :=
  let groupId := _quote_groupId_path groupId in
  let artifactId := _quote_artifactId_path artifactId in
  let version := _quote_version_path version in
  os_path_join CACHE_POM_DIR [groupId; artifactId; artifactId ++ "-" ++ version ++ ".pom"].

Definition get_jar_cache_path (groupId artifactId version postfix : string) : string :=
  let groupId := _quote_groupId_path groupId in
  let artifactId := _quote_artifactId_path artifactId in
  let version := _quote_version_path version in
  os_path_join CACHE_JAR_DIR [artifactId ++ "-" ++ version ++ postfix ++ ".jar"].
End CachePaths.

(** ** Outcomes of a call *)

Inductive exn : Type :=
| AttributeError      (* an attribute or method of [None] *)
| IndexError
| TypeError
| ParseError          (* [ET.fromstring] on text that is not a document *)
| HTTPError (code : nat)
| URLError            (* a transport failure that is not an HTTP status *)
| UnicodeDecodeError  (* bytes that are not valid UTF-8 *)
| FileNotFoundError
| FileExistsError
| NotADirectoryError
| IsADirectoryError
| ReferenceError.     (* a reference to an object that is not in the heap *)

Inductive outcome (A : Type) : Type :=
| Ret (a : A)
| Raise (e : exn)
| Diverge.            (* the iteration / recursion bound was reached *)
Arguments Ret {A} a.
Arguments Raise {A} e.
Arguments Diverge {A}.

(** ** Placeholder substitution ([parse_property_value], lines 82-93) *)

(** One pass through the body of the [while] loop, for the current value
    [idx] of [text.find("${")].  A table built by [get_dependencies] can
    hold [None] (it stores [self._version]); concatenating [None] to a
    string raises [TypeError]. *)
Definition substitute_once (properties : gmap string (option string))
    (text : string) (idx : Z) : outcome string :=
  let end_ := PyStr.find text "}" in
  let name := PyStr.slice text (idx + 2) end_ in
  let replacement := default (Some "") (properties !! name) in
  let text_head := PyStr.slice text 0 idx in
  let text_tail := PyStr.slice_from text (end_ + 1) in
  match replacement with
  | Some r => Ret (text_head ++ r ++ text_tail)
  | None => Raise TypeError
  end.

(** The loop, with a bound on the number of iterations: [Diverge] says
    that the bound was reached before the loop condition failed. *)
Fixpoint parse_property_loop (fuel : nat) (properties : gmap string (option string))
    (text : string) (idx : Z) {struct fuel} : outcome string :=
  if 0 <=? idx then
    match fuel with
    | O => Diverge
    | S fuel' =>
        match substitute_once properties text idx with
        | Ret text' =>
            parse_property_loop fuel' properties text' (PyStr.find text' "${")
        | Raise e => Raise e
        | Diverge => Diverge
        end
    end
  else Ret text.

Definition parse_property_value (fuel : nat) (properties : gmap string (option string))
    (text : string) : outcome string :=
  parse_property_loop fuel properties text (PyStr.find text "${").

(** What section 4.5 of the specification asks of one pass: the closing
    brace is the first one found from the placeholder on. *)
Definition spec_substitute_once (properties : gmap string (option string))
    (text : string) (idx : Z) : outcome string :=
  let rest := PyStr.slice_from text idx in
  let end_ := if 0 <=? PyStr.find rest "}" then idx + PyStr.find rest "}" else -1 in
  let name := PyStr.slice text (idx + 2) end_ in
  let replacement := default (Some "") (properties !! name) in
  let text_head := PyStr.slice text 0 idx in
  let text_tail := PyStr.slice_from text (end_ + 1) in
  match replacement with
  | Some r => Ret (text_head ++ r ++ text_tail)
  | None => Raise TypeError
  end.

(** *** Well-formed texts

    A text made of literal pieces and placeholders, used to state when
    the substitution loop ends. *)

Definition placeholder (name : string) : string := "${" ++ name ++ "}".

(** [properties.get(name, "")] *)
Definition lookup_value (properties : gmap string (option string)) (name : string)
    : option string :=
  default (Some "") (properties !! name).

Inductive item : Type :=
| Lit (s : string)
| Ref (name : string).

Definition render_item (i : item) : string :=
  match i with
  | Lit s => s
  | Ref name => placeholder name
  end.

Fixpoint render (items : list item) : string :=
  match items with
  | [] => ""
  | i :: rest => render_item i ++ render rest
  end.

(** Literal pieces hold neither a dollar sign nor a closing brace, names
    hold no closing brace. *)
Definition item_clean (i : item) : Prop :=
  match i with
  | Lit s => PyStr.contains s "$" = false /\ PyStr.contains s "}" = false
  | Ref name => PyStr.contains name "}" = false
  end.

(** The sum of the weights of the names a text refers to. *)
Fixpoint weight (w : string -> nat) (items : list item) : nat :=
  match items with
  | [] => O
  | Lit _ :: rest => weight w rest
  | Ref name :: rest => (w name + weight w rest)%nat
  end.

(** ** The parsed documents ([xml.etree.ElementTree]) *)

#[warnings="-register-all"]
Inductive Element : Type :=
| Elem (tag : string) (text : option string) (children : list Element).

Definition elem_tag (e : Element) : string := let 'Elem t _ _ := e in t.
Definition elem_text (e : Element) : option string := let 'Elem _ t _ := e in t.
Definition elem_children (e : Element) : list Element := let 'Elem _ _ c := e in c.

(** [e.iter()]: the element and its descendants, in document order. *)
Fixpoint elem_iter (e : Element) : list Element :=
  match e with
  | Elem _ _ cs => e :: concat (map elem_iter cs)
  end.

(** The selector [{*}name]: the tag is [name] or ends with [}name]. *)
Definition tag_matches (name el_tag : string) : bool :=
  String.eqb el_tag name || PyStr.endswith el_tag ("}" ++ name).

(** [e.iterfind(".//{*}name")]: proper descendants only. *)
Definition iterfind_descendants (name : string) (e : Element) : list Element :=
  List.filter (fun d => tag_matches name (elem_tag d)) (tail (elem_iter e)).

(** [e.iterfind("./{*}name")] *)
Definition iterfind_children (name : string) (e : Element) : list Element :=
  List.filter (fun d => tag_matches name (elem_tag d)) (elem_children e).

(** [e.find(".//{*}name")] and [e.find("./{*}name")] *)
Definition find_descendant (name : string) (e : Element) : option Element :=
  head (iterfind_descendants name e).
Definition find_child (name : string) (e : Element) : option Element :=
  head (iterfind_children name e).

(** [root.iterfind(".//{*}dependencies/{*}dependency")] *)
Definition iterfind_dependency_entries (root : Element) : list Element :=
  concat (map (iterfind_children "dependency") (iterfind_descendants "dependencies" root)).

(** [tag_strip_namespace], lines 76-79: [tag.split("}")[1]]. *)
Definition tag_strip_namespace (tag : string) : outcome string :=
  if PyStr.startswith tag "{" then
    match PyStr.split_char "}" tag with
    | _ :: t :: _ => Ret t
    | _ => Raise IndexError
    end
  else Ret tag.

(** ** The heap, the file system and the network *)

(** What the remote repository answers to a GET; a body is a string of
    bytes. *)
Inductive response : Type :=
| Body (content : string)
| HttpStatus (code : nat)     (* [urlopen] raises [HTTPError] *)
| Unreachable.                (* [urlopen] raises another [URLError] *)

(** A [MavenPackageMeta] instance. *)
Record MetaObj : Type := mkMeta {
  groupId : string;
  artifactId : string;
  repo : string;
  _base_url : string;
  _metadata_cache : string
}.

(** A [MavenPackage] instance; [dep_attrs] holds [_scope] and [_optional]
    and is present exactly on instances of [MavenDependencyPackage]. *)
Record PkgObj : Type := mkPkg {
  _version : option string;
  meta : nat;
  _pom_cache : string;
  _version_is_unsure : bool;
  dep_attrs : option (option string * bool)
}.

(** A [set] of packages: the entries with their stored hashes, in
    insertion order. *)
Definition SetObj : Type := list (Z * nat).

Record state : Type := mkState {
  files : gmap string string;      (* regular files and their contents *)
  dirs : gset string;              (* directories *)
  requests : list string;          (* URLs fetched so far, oldest first *)
  stdout : list string;            (* what [print] wrote, oldest first *)
  metas : gmap nat MetaObj;
  pkgs : gmap nat PkgObj;
  sets : gmap nat SetObj;
  next_loc : nat
}.

Definition with_files (f : gmap string string) (st : state) : state :=
  mkState f (dirs st) (requests st) (stdout st) (metas st) (pkgs st) (sets st) (next_loc st).
Definition with_dirs (d : gset string) (st : state) : state :=
  mkState (files st) d (requests st) (stdout st) (metas st) (pkgs st) (sets st) (next_loc st).
Definition with_requests (r : list string) (st : state) : state :=
  mkState (files st) (dirs st) r (stdout st) (metas st) (pkgs st) (sets st) (next_loc st).
Definition with_stdout (o : list string) (st : state) : state :=
  mkState (files st) (dirs st) (requests st) o (metas st) (pkgs st) (sets st) (next_loc st).
Definition with_metas (m : gmap nat MetaObj) (st : state) : state :=
  mkState (files st) (dirs st) (requests st) (stdout st) m (pkgs st) (sets st) (next_loc st).
Definition with_pkgs (p : gmap nat PkgObj) (st : state) : state :=
  mkState (files st) (dirs st) (requests st) (stdout st) (metas st) p (sets st) (next_loc st).
Definition with_sets (s : gmap nat SetObj) (st : state) : state :=
  mkState (files st) (dirs st) (requests st) (stdout st) (metas st) (pkgs st) s (next_loc st).
Definition with_next_loc (n : nat) (st : state) : state :=
  mkState (files st) (dirs st) (requests st) (stdout st) (metas st) (pkgs st) (sets st) n.

(** Computations: a state transformer that returns, raises or diverges.
    The state reached when an exception is raised is kept: what was
    fetched or written before the exception stays fetched or written. *)
Definition M (A : Type) : Type := state -> outcome A * state.

Definition ret {A} (a : A) : M A := fun st => (Ret a, st).
Definition raise {A} (e : exn) : M A := fun st => (Raise e, st).
Definition diverge {A} : M A := fun st => (Diverge, st).
Definition bind {A B} (c : M A) (k : A -> M B) : M B :=
  fun st => match c st with
            | (Ret a, st') => k a st'
            | (Raise e, st') => (Raise e, st')
            | (Diverge, st') => (Diverge, st')
            end.
Definition lift {A} (o : outcome A) : M A := fun st => (o, st).
Definition gets {A} (f : state -> A) : M A := fun st => (Ret (f st), st).
Definition modify (f : state -> state) : M unit := fun st => (Ret tt, f st).

Declare Scope py_scope.
Delimit Scope py_scope with py.
Notation "x <- c ;; k" := (bind c (fun x => k))
  (at level 100, c at next level, right associativity) : py_scope.
Notation "c ;; k" := (bind c (fun _ => k))
  (at level 100, right associativity) : py_scope.
Local Open Scope py_scope.

(** [for x in xs: body x] *)
Fixpoint for_each {A} (xs : list A) (body : A -> M unit) : M unit :=
  match xs with
  | [] => ret tt
  | x :: xs' => body x ;; for_each xs' body
  end.

(** Heap access. *)
Definition get_meta (l : nat) : M MetaObj :=
  fun st => match metas st !! l with
            | Some o => (Ret o, st)
            | None => (Raise ReferenceError, st)
            end.
Definition get_pkg (l : nat) : M PkgObj :=
  fun st => match pkgs st !! l with
            | Some o => (Ret o, st)
            | None => (Raise ReferenceError, st)
            end.
Definition get_set (l : nat) : M SetObj :=
  fun st => match sets st !! l with
            | Some o => (Ret o, st)
            | None => (Raise ReferenceError, st)
            end.
Definition put_meta (l : nat) (o : MetaObj) : M unit :=
  modify (fun st => with_metas (<[l := o]> (metas st)) st).
Definition put_pkg (l : nat) (o : PkgObj) : M unit :=
  modify (fun st => with_pkgs (<[l := o]> (pkgs st)) st).
Definition put_set (l : nat) (o : SetObj) : M unit :=
  modify (fun st => with_sets (<[l := o]> (sets st)) st).
Definition fresh_loc : M nat :=
  fun st => (Ret (next_loc st), with_next_loc (S (next_loc st)) st).

(** The file system: [os.path.exists], reading and writing a whole file,
    [os.makedirs(d, exist_ok=True)].  The state holds the whole tree,
    paths are compared as they are spelled, and the process may create
    any directory and write any file: what fails is what the tree
    forbids, a regular file where a directory is needed, a directory
    where a file is to be written, a missing parent. *)
Definition is_file (st : state) (p : string) : bool :=
  bool_decide (is_Some (files st !! p)).
Definition is_dir (st : state) (p : string) : bool :=
  bool_decide (p ∈ dirs st).

Definition os_path_exists (p : string) : M bool :=
  gets (fun st => bool_decide (is_Some (files st !! p)) || bool_decide (p ∈ dirs st)).

(** [bytes.decode("utf-8")]: a [str] is kept as the bytes that encode it. *)
Definition decode_utf8 (data : string) : M string :=
  if PyStr.valid_utf8 data then ret data else raise UnicodeDecodeError.

(** [with open(p, "rt", encoding="utf-8") as f: f.read()] *)
Definition read_file (p : string) : M string :=
  fun st => match files st !! p with
            | Some data =>
                (text <- decode_utf8 data ;; ret (PyStr.universal_newlines text)) st
            | None =>
                if is_dir st p then (Raise IsADirectoryError, st)
                else (Raise FileNotFoundError, st)
            end.

(** [with open(p, "wt", encoding="utf-8") as f: f.write(content)], and
    the same in mode ["wb"], for a path [p] that does not end in a
    slash.  On POSIX the text mode writes the characters as they are. *)
Definition write_file (p content : string) : M unit :=
  fun st =>
    let parent := os_path_dirname p in
    if String.eqb p "" then (Raise FileNotFoundError, st)
    else if is_dir st p then (Raise IsADirectoryError, st)
    else if is_file st parent then (Raise NotADirectoryError, st)
    else if negb (String.eqb parent "") && negb (is_dir st parent)
    then (Raise FileNotFoundError, st)
    else (Ret tt, with_files (<[p := content]> (files st)) st).

(** [d] and the directories above it, [d] first. *)
Fixpoint ancestors (n : nat) (d : string) : list string :=
  match n with
  | O => []
  | S n' => if String.eqb d "" then [] else d :: ancestors n' (os_path_dirname d)
  end.

(** [os.makedirs(d, exist_ok=True)]: [FileExistsError] when [d] is a
    regular file, [NotADirectoryError] when a directory above it is one;
    otherwise [d] and every directory above it exist afterwards. *)
Definition makedirs (d : string) : M unit :=
  fun st =>
    if String.eqb d "" then (Raise FileNotFoundError, st)
    else if is_file st d then (Raise FileExistsError, st)
    else if existsb (is_file st) (ancestors (String.length d) d)
    then (Raise NotADirectoryError, st)
    else (Ret tt, with_dirs (list_to_set (ancestors (String.length d) d) ∪ dirs st) st).

Definition print (s : string) : M unit :=
  modify (fun st => with_stdout (stdout st ++ [s]) st).

(** References to the values that reach [__eq__] and that methods return. *)
Inductive pyobject : Type :=
| PyNone
| PyMeta (l : nat)      (* a [MavenPackageMeta] *)
| PyPkg (l : nat)       (* a [MavenPackage] or a [MavenDependencyPackage] *)
| PyStr (s : string).

(** The environment of a run: the working directory, the remote
    repository, the XML parser ([None] for text it rejects) and Python's
    hash of strings and of [None]. *)
Record Env : Type := mkEnv {
  env_cwd : string;
  remote : string -> response;
  ET_fromstring : string -> option Element;
  str_hash : string -> Z;
  None_hash : Z
}.

(** [str(v)] for a value that is a string or [None]. *)
Definition str_of (v : option string) : string :=
  match v with Some s => s | None => "None" end.

(** [hash(obj)] for the integer [x] that [obj.__hash__()] returns, on a
    64-bit build: [x] itself when it fits in a signed 64-bit word,
    otherwise the hash of the integer, its reduction modulo [2^61 - 1]
    with the sign kept; and [-1] replaced by [-2]. *)
Definition hash_modulus : Z := 2 ^ 61 - 1.
Definition int_hash (x : Z) : Z :=
  let h := if (- 2 ^ 63 <=? x) && (x <? 2 ^ 63) then x
           else Z.sgn x * (Z.abs x mod hash_modulus) in
  if h =? -1 then -2 else h.

(** *** [MavenPackageMeta]: the methods that only read the fields *)

(** [__eq__] (lines 104-107) on an argument that is a [MavenPackageMeta]. *)
Definition MavenPackageMeta__eq__ (self value : MetaObj) : bool :=
  String.eqb (groupId self) (groupId value) && String.eqb (artifactId self) (groupId value).

Definition MavenPackageMeta__repr__ (self : MetaObj) : string :=
  if String.eqb (repo self) DEFAULT_REPO_BASE
  then "MavenPackageMeta('" ++ groupId self ++ "', '" ++ artifactId self ++ "')"
  else "MavenPackageMeta('" ++ groupId self ++ "', '" ++ artifactId self ++ "', '" ++ repo self ++ "')".

Section Program.
Variable env : Env.

(** [fetch_url], lines 64-67: the body is decoded. *)
Definition fetch_url (url : string) : M string :=
  modify (fun st => with_requests (requests st ++ [url]) st) ;;
  match remote env url with
  | Body data => decode_utf8 data
  | HttpStatus code => raise (HTTPError code)
  | Unreachable => raise URLError
  end.

(** [fetch_file], lines 70-73: the body as it is. *)
Definition fetch_file (url : string) : M string :=
  modify (fun st => with_requests (requests st ++ [url]) st) ;;
  match remote env url with
  | Body content => ret content
  | HttpStatus code => raise (HTTPError code)
  | Unreachable => raise URLError
  end.

Definition parse_document (content : string) : M Element :=
  match ET_fromstring env content with
  | Some root => ret root
  | None => raise ParseError
  end.

Definition hash_of_str (v : option string) : Z :=
  match v with Some s => str_hash env s | None => None_hash env end.

(** [__hash__] (lines 109-110), as [hash(meta)] sees it. *)
Definition MavenPackageMeta__hash__ (self : MetaObj) : Z :=
  int_hash (str_hash env (groupId self) + str_hash env (artifactId self)).

(** *** [MavenPackageMeta]: construction and the metadata document *)

Definition MavenPackageMeta__init__ (groupId artifactId repo : string) : M nat :=
  l <- fresh_loc ;;
  put_meta l (mkMeta groupId artifactId repo
                (get_package_page_url repo groupId artifactId) "") ;;
  ret l.

(** [self == value] for a [MavenPackageMeta] receiver. *)
Definition meta_equals (self : nat) (value : pyobject) : M bool :=
  match value with
  | PyMeta v =>
      s <- get_meta self ;;
      o <- get_meta v ;;
      ret (MavenPackageMeta__eq__ s o)
  | _ => ret false
  end.

Definition set_metadata_cache (self : nat) (content : string) : M unit :=
  m <- get_meta self ;;
  put_meta self (mkMeta (groupId m) (artifactId m) (repo m) (_base_url m) content).

Definition _get_metadata (self : nat) : M Element :=
  m <- get_meta self ;;
  let cache_path := get_metadata_cache_path (env_cwd env) (groupId m) (artifactId m) in
  (if 0 <? PyStr.len (_metadata_cache m) then ret tt
   else
     cached <- os_path_exists cache_path ;;
     if cached then
       content <- read_file cache_path ;;
       set_metadata_cache self content
     else
       let url := _base_url m ++ "/maven-metadata.xml" in
       content <- fetch_url url ;;
       if 0 <? PyStr.len content then
         set_metadata_cache self content ;;
         makedirs (os_path_dirname cache_path) ;;
         write_file cache_path content
       else ret tt) ;;
  m' <- get_meta self ;;
  parse_document (_metadata_cache m').

(** [for elem in root.iterfind(...): return elem.text], and [None] when
    the loop body never runs. *)
Definition first_text (es : list Element) : option string :=
  match es with
  | e :: _ => elem_text e
  | [] => None
  end.

Definition get_latest_version (self : nat) : M (option string) :=
  root <- _get_metadata self ;;
  ret (first_text (iterfind_descendants "latest" root)).

Definition get_release_version (self : nat) : M (option string) :=
  root <- _get_metadata self ;;
  ret (first_text (iterfind_descendants "release" root)).

Definition get_versions (self : nat) : M (list (option string)) :=
  root <- _get_metadata self ;;
  ret (map elem_text (iterfind_descendants "version" root)).

(** *** [MavenPackage] *)

Definition version_is_symbolic (version : option string) : bool :=
  match version with
  | None => true
  | Some v =>
      let w := PyStr.strip (PyStr.lower v) in
      String.eqb w "latest" || String.eqb w "release"
      || String.eqb w DEFAULT_VERSION || String.eqb w ""
  end.

Definition MavenPackage__init__ (meta : nat) (version : option string) : M nat :=
  l <- fresh_loc ;;
  put_pkg l (mkPkg version meta "" (version_is_symbolic version) None) ;;
  ret l.

Definition get_package (self : nat) (version : option string) : M nat :=
  MavenPackage__init__ self version.

Definition set_version (self : nat) (v : option string) : M unit :=
  p <- get_pkg self ;;
  put_pkg self (mkPkg v (meta p) (_pom_cache p) (_version_is_unsure p) (dep_attrs p)).

Definition set_pom_cache (self : nat) (content : string) : M unit :=
  p <- get_pkg self ;;
  put_pkg self (mkPkg (_version p) (meta p) content (_version_is_unsure p) (dep_attrs p)).

Definition set_dep_attrs (self : nat) (a : option (option string * bool)) : M unit :=
  p <- get_pkg self ;;
  put_pkg self (mkPkg (_version p) (meta p) (_pom_cache p) (_version_is_unsure p) a).

(** [_get_version], lines 186-193. *)
Definition _get_version (self : nat) : M (option string) :=
  p <- get_pkg self ;;
  (match _version p with
   | None => set_version self (Some DEFAULT_VERSION)
   | Some v =>
       if PyStr.len (PyStr.strip v) <=? 0 then set_version self (Some DEFAULT_VERSION)
       else ret tt
   end) ;;
  p <- get_pkg self ;;
  (match _version p with
   | Some v =>
       if String.eqb v "latest" then
         r <- get_latest_version (meta p) ;; set_version self r
       else if String.eqb v "release" then
         r <- get_release_version (meta p) ;; set_version self r
       else ret tt
   | None => ret tt
   end) ;;
  p <- get_pkg self ;;
  ret (_version p).

Definition MavenPackage__repr__ (self : nat) : M string :=
  p <- get_pkg self ;;
  m <- get_meta (meta p) ;;
  ret ("MavenPackage(" ++ MavenPackageMeta__repr__ m ++ ", '" ++ str_of (_version p) ++ "')").

(** [__eq__], lines 178-181; [and] evaluates its right operand only
    when the left one is true. *)
Definition MavenPackage__eq__ (self : nat) (value : pyobject) : M bool :=
  match value with
  | PyPkg v =>
      p <- get_pkg self ;;
      q <- get_pkg v ;;
      same_meta <- meta_equals (meta p) (PyMeta (meta q)) ;;
      if same_meta then
        a <- _get_version self ;;
        b <- _get_version v ;;
        ret (bool_decide (a = b))
      else ret false
  | _ => ret false
  end.

(** [__hash__], lines 183-184, as [hash(pkg)] sees it. *)
Definition MavenPackage__hash__ (self : nat) : M Z :=
  p <- get_pkg self ;;
  m <- get_meta (meta p) ;;
  v <- _get_version self ;;
  ret (int_hash (MavenPackageMeta__hash__ m + hash_of_str v)).

(** [_get_package_file_url], lines 195-197. *)
Definition _get_package_file_url (self : nat) (postfix : string) : M string :=
  version <- _get_version self ;;
  p <- get_pkg self ;;
  m <- get_meta (meta p) ;;
  ret (_base_url m ++ "/" ++ str_of version ++ "/" ++ artifactId m ++ "-" ++ str_of version ++ postfix).

(** A string argument that may be [None]: the callee calls a [str]
    method on it. *)
Definition require_str (v : option string) : M string :=
  match v with
  | Some s => ret s
  | None => raise AttributeError
  end.

(** [_get_pom], lines 199-218. *)
Definition _get_pom (self : nat) : M Element :=
  p <- get_pkg self ;;
  m <- get_meta (meta p) ;;
  v <- _get_version self ;;
  version <- require_str v ;;
  let cache_path := get_pom_cache_path (env_cwd env) (groupId m) (artifactId m) version in
  p <- get_pkg self ;;
  (if 0 <? PyStr.len (_pom_cache p) then ret tt
   else
     cached <- os_path_exists cache_path ;;
     if cached then
       content <- read_file cache_path ;;
       set_pom_cache self content
     else
       url <- _get_package_file_url self ".pom" ;;
       content <- fetch_url url ;;
       if 0 <? PyStr.len content then
         set_pom_cache self content ;;
         makedirs (os_path_dirname cache_path) ;;
         write_file cache_path content
       else ret tt) ;;
  p' <- get_pkg self ;;
  parse_document (_pom_cache p').

(** [cache_jar], lines 270-281. *)
Definition cache_jar (self : nat) (postfix : string) : M bool :=
  p <- get_pkg self ;;
  m <- get_meta (meta p) ;;
  v <- _get_version self ;;
  version <- require_str v ;;
  let cache_path := get_jar_cache_path (env_cwd env) (groupId m) (artifactId m) version postfix in
  cached <- os_path_exists cache_path ;;
  if negb cached then
    url <- _get_package_file_url self (postfix ++ ".jar") ;;
    fun st =>
      match fetch_file url st with
      | (Raise (HTTPError _), st') => (Ret false, st')
      | (Ret data, st') =>
          (makedirs (os_path_dirname cache_path) ;;
           write_file cache_path data ;;
           ret true) st'
      | (Raise e, st') => (Raise e, st')
      | (Diverge, st') => (Diverge, st')
      end
  else ret true.

(** *** [MavenDependencyPackage] *)

Definition MavenDependencyPackage__init__ (meta : nat) (version : option string) : M nat :=
  l <- MavenPackage__init__ meta version ;;
  set_dep_attrs l (Some (Some DEFAULT_SCOPE, DEFAULT_OPTIONAL)) ;;
  ret l.

(** [pkg._scope = s] and [pkg._optional = b] *)
Definition set_scope (pkg : nat) (s : option string) : M unit :=
  p <- get_pkg pkg ;;
  set_dep_attrs pkg (Some (s, match dep_attrs p with
                              | Some (_, o) => o
                              | None => DEFAULT_OPTIONAL
                              end)).

Definition set_optional (pkg : nat) (b : bool) : M unit :=
  p <- get_pkg pkg ;;
  set_dep_attrs pkg (Some (match dep_attrs p with
                           | Some (s, _) => s
                           | None => Some DEFAULT_SCOPE
                           end, b)).

(** The properties [scope] and [optional], lines 290-296. *)
Definition scope (pkg : nat) : M (option string) :=
  p <- get_pkg pkg ;;
  match dep_attrs p with
  | Some (s, _) => ret s
  | None => raise AttributeError
  end.

Definition optional (pkg : nat) : M bool :=
  p <- get_pkg pkg ;;
  match dep_attrs p with
  | Some (_, o) => ret o
  | None => raise AttributeError
  end.

(** [asDependencyPackage], lines 262-268: the body ends after the two
    assignments, so the call evaluates to [None]. *)
Definition asDependencyPackage (self : nat) (optional : bool) (scope : string) : M pyobject :=
  p <- get_pkg self ;;
  pkg <- MavenDependencyPackage__init__ (meta p) (_version p) ;;
  set_scope pkg (Some scope) ;;
  set_optional pkg optional ;;
  ret PyNone.

(** *** [get_dependencies], lines 220-260 *)

(** The loop over [root.find(".//{*}properties").iter()]. *)
Fixpoint collect_properties (props : list Element)
    (properties : gmap string (option string)) : outcome (gmap string (option string)) :=
  match props with
  | [] => Ret properties
  | prop :: rest =>
      match tag_strip_namespace (elem_tag prop) with
      | Ret tag =>
          let value := match elem_text prop with
                       | Some t => if String.eqb t "" then "" else PyStr.strip t
                       | None => ""
                       end in
          collect_properties rest (<[tag := Some value]> properties)
      | Raise e => Raise e
      | Diverge => Diverge
      end
  end.

(** [parse_property_value(properties, text)] on a text that may be
    [None]. *)
Definition substitute (fuel : nat) (properties : gmap string (option string))
    (text : option string) : M string :=
  t <- require_str text ;;
  lift (parse_property_value fuel properties t).

(** [dep.find("./{*}name").text] *)
Definition child_text (name : string) (dep : Element) : M (option string) :=
  match find_child name dep with
  | Some el => ret (elem_text el)
  | None => raise AttributeError
  end.

(** The body of the loop over the dependency entries.  [parent_group],
    [parent_version] and [parent_repo] are [self.meta.groupId],
    [self._version] and [self.meta.repo]; nothing in the loop assigns
    them, they are read once before it. *)
Definition make_dependency (fuel : nat) (properties : gmap string (option string))
    (parent_group : string) (parent_version : option string) (parent_repo : string)
    (dep : Element) : M nat :=
  g <- child_text "groupId" dep ;;
  groupId <- substitute fuel properties g ;;
  a <- child_text "artifactId" dep ;;
  artifactId <- substitute fuel properties a ;;
  version <- (match find_child "version" dep with
              | Some el =>
                  v <- substitute fuel properties (elem_text el) ;;
                  ret (Some v)
              | None =>
                  if String.eqb groupId parent_group then ret parent_version
                  else ret (Some DEFAULT_VERSION)
              end) ;;
  m <- MavenPackageMeta__init__ groupId artifactId parent_repo ;;
  pkg <- MavenDependencyPackage__init__ m version ;;
  set_scope pkg (Some DEFAULT_SCOPE) ;;
  (match find_child "scope" dep with
   | Some el => set_scope pkg (elem_text el)
   | None => ret tt
   end) ;;
  (match find_child "optional" dep with
   | Some el =>
       t <- require_str (elem_text el) ;;
       set_optional pkg (String.eqb (PyStr.lower t) "true")
   | None => ret tt
   end) ;;
  ret pkg.

Fixpoint make_dependencies (fuel : nat) (properties : gmap string (option string))
    (parent_group : string) (parent_version : option string) (parent_repo : string)
    (entries : list Element) : M (list nat) :=
  match entries with
  | [] => ret []
  | dep :: rest =>
      pkg <- make_dependency fuel properties parent_group parent_version parent_repo dep ;;
      lst <- make_dependencies fuel properties parent_group parent_version parent_repo rest ;;
      ret (pkg :: lst)
  end.

(** The property table of lines 224-232. *)
Definition implicit_properties (p : PkgObj) (m : MetaObj) : gmap string (option string) :=
  <["project.artifactId" := Some (artifactId m)]>
    (<["project.groupId" := Some (groupId m)]>
       (<["project.version" := _version p]> ∅)).

Definition property_table (p : PkgObj) (m : MetaObj) (root : Element)
    : outcome (gmap string (option string)) :=
  match find_descendant "properties" root with
  | Some props => collect_properties (elem_iter props) (implicit_properties p m)
  | None => Ret (implicit_properties p m)
  end.

Definition get_dependencies (fuel : nat) (self : nat) : M (list nat) :=
  root <- _get_pom self ;;
  p <- get_pkg self ;;
  m <- get_meta (meta p) ;;
  properties <- lift (property_table p m root) ;;
  make_dependencies fuel properties (groupId m) (_version p) (repo m)
    (iterfind_dependency_entries root).

(** *** The visited set ([set] of packages) *)

Definition is_dependency_package (l : nat) : M bool :=
  p <- get_pkg l ;;
  ret (bool_decide (is_Some (dep_attrs p))).

(** [v == w] between two packages: when [w]'s class is a proper
    subclass of [v]'s, [w.__eq__(v)] is tried first. *)
Definition pkg_equals (v w : nat) : M bool :=
  cv <- is_dependency_package v ;;
  cw <- is_dependency_package w ;;
  if negb cv && cw then MavenPackage__eq__ w (PyPkg v)
  else MavenPackage__eq__ v (PyPkg w).

(** The lookup of [key] with hash [h]: an entry matches when its stored
    hash is [h] and it is the same object as [key] or equal to it. *)
Fixpoint set_lookup (entries : SetObj) (h : Z) (key : nat) : M bool :=
  match entries with
  | [] => ret false
  | (h', k') :: rest =>
      if h' =? h then
        if (k' =? key)%nat then ret true
        else
          b <- pkg_equals k' key ;;
          if b then ret true else set_lookup rest h key
      else set_lookup rest h key
  end.

(** [key in s] *)
Definition set_contains (s key : nat) : M bool :=
  h <- MavenPackage__hash__ key ;;
  entries <- get_set s ;;
  set_lookup entries h key.

(** [s.add(key)] *)
Definition set_add (s key : nat) : M unit :=
  h <- MavenPackage__hash__ key ;;
  entries <- get_set s ;;
  found <- set_lookup entries h key ;;
  if found then ret tt else put_set s (entries ++ [(h, key)])%list.

(** [set()] *)
Definition new_set : M nat :=
  l <- fresh_loc ;;
  put_set l [] ;;
  ret l.

(** ** [__main__.py] *)

(** The default value of [processed] is evaluated once, when the [def]
    statement runs: every call that omits the argument receives the
    same set object. *)
Definition dump_dependencies_default_processed : nat := 0%nat.
Definition walk_dependencies_default_processed : nat := 1%nat.

Definition newline : string := String (ascii_of_nat 10) EmptyString.

Fixpoint str_repeat (s : string) (n : nat) : string :=
  match n with
  | O => EmptyString
  | S n' => s ++ str_repeat s n'
  end.

(** [dump_dependencies], lines 4-10.  [fuel] bounds the depth of the
    recursion (and the iterations of each substitution loop). *)
Fixpoint dump_dependencies (fuel : nat) (pkg : nat) (indent : Z) (processed : nat)
    {struct fuel} : M unit :=
  match fuel with
  | O => diverge
  | S fuel' =>
      deps <- get_dependencies fuel' pkg ;;
      for_each deps (fun dep =>
        sc <- scope dep ;;
        sc <- require_str sc ;;
        if String.eqb (PyStr.lower sc) "compile" then
          opt <- optional dep ;;
          if negb opt then
            seen <- set_contains processed dep ;;
            if negb seen then
              print (str_repeat "    " (Z.to_nat indent)) ;;
              r <- MavenPackage__repr__ dep ;;
              print (r ++ newline) ;;
              set_add processed dep ;;
              dump_dependencies fuel' dep (indent + 1) dump_dependencies_default_processed
            else ret tt
          else ret tt
        else ret tt)
  end.

(** [walk_dependencies], lines 12-16. *)
Fixpoint walk_dependencies (fuel : nat) (pkg : nat) (indent : Z) (processed : nat)
    {struct fuel} : M unit :=
  match fuel with
  | O => diverge
  | S fuel' =>
      deps <- get_dependencies fuel' pkg ;;
      for_each deps (fun dep =>
        sc <- scope dep ;;
        sc <- require_str sc ;;
        if String.eqb (PyStr.lower sc) "compile" then
          opt <- optional dep ;;
          if negb opt then
            seen <- set_contains processed dep ;;
            if negb seen then
              set_add processed dep ;;
              walk_dependencies fuel' dep (indent + 1) walk_dependencies_default_processed
            else ret tt
          else ret tt
        else ret tt)
  end.

End Program.


(** A version that [_get_version] returns as it is: not blank, and
    neither of the two markers that it resolves. *)
Definition is_concrete_version (v : string) : bool :=
  negb (PyStr.len (PyStr.strip v) <=? 0)
  && negb (String.eqb v "latest") && negb (String.eqb v "release").

(** The descriptor URL as section 4.4 of the specification writes it:
    [<repositoryBaseURL>/<group>/<version>/<artifact>-<version>.pom],
    the dots of the group turned into slashes. *)
Definition spec_descriptor_url (base group artifact version : string) : string :=
  base ++ "/" ++ PyStr.replace group "." "/" ++ "/" ++ version ++ "/"
       ++ artifact ++ "-" ++ version ++ ".pom".

(** The state once both modules are imported: nothing cached, nothing
    fetched, and the two default sets allocated and empty. *)
Definition initial_state : state :=
  mkState ∅ ∅ [] [] ∅ ∅
    (<[walk_dependencies_default_processed := []]>
       (<[dump_dependencies_default_processed := []]> ∅))
    2.

(** ** Plain coordinates

    [sep.join(parts)], and the texts all of whose characters satisfy a
    test: a group segment is made of letters, digits, [_], [-] and [~]. *)
Fixpoint join_with (sep : string) (parts : list string) : string :=
  match parts with
  | [] => ""
  | x :: rest =>
      match rest with
      | [] => x
      | _ :: _ => x ++ sep ++ join_with sep rest
      end
  end.

Fixpoint all_chars (f : ascii -> bool) (s : string) : bool :=
  match s with
  | EmptyString => true
  | String c s' => f c && all_chars f s'
  end.

Definition is_segment_char (c : ascii) : bool :=
  PyStr.is_unreserved c && negb (Ascii.eqb c ".").

(** ** What a dependency entry declares

    The scope and the optional flag that [get_dependencies] (lines
    251-258) stores for an entry: the defaults, unless the entry has the
    child element. *)
Definition entry_scope (entry : Element) : option string :=
  match find_child "scope" entry with
  | Some el => elem_text el
  | None => Some DEFAULT_SCOPE
  end.

Definition entry_optional (entry : Element) : bool :=
  match find_child "optional" entry with
  | Some el => match elem_text el with
               | Some t => String.eqb (PyStr.lower t) "true"
               | None => DEFAULT_OPTIONAL
               end
  | None => DEFAULT_OPTIONAL
  end.

(** The test of lines 6 and 14 of [__main__.py] fails on the scope or
    on the optional flag. *)
Definition entry_skipped (entry : Element) : bool :=
  match entry_scope entry with
  | Some s => negb (String.eqb (PyStr.lower s) "compile") || entry_optional entry
  | None => false
  end.

(** The package [d], with metadata object [md], is the one that the
    loop body of [get_dependencies] builds from [entry]. *)
Definition built_from (fuel : nat) (properties : gmap string (option string))
    (parent_repo : string) (entry : Element) (d : PkgObj) (md : MetaObj) : Prop :=
  (exists gtext, elem_text <$> find_child "groupId" entry = Some (Some gtext) /\
                 parse_property_value fuel properties gtext = Ret (groupId md)) /\
  (exists atext, elem_text <$> find_child "artifactId" entry = Some (Some atext) /\
                 parse_property_value fuel properties atext = Ret (artifactId md)) /\
  repo md = parent_repo /\
  _base_url md = get_package_page_url parent_repo (groupId md) (artifactId md) /\
  _metadata_cache md = "" /\
  (forall el, find_child "version" entry = Some el ->
     exists vtext v, elem_text el = Some vtext /\
                     parse_property_value fuel properties vtext = Ret v /\
                     _version d = Some v) /\
  _pom_cache d = "" /\
  _version_is_unsure d = version_is_symbolic (_version d) /\
  dep_attrs d = Some (entry_scope entry, entry_optional entry) /\
  (forall el, find_child "optional" entry = Some el -> is_Some (elem_text el)).

(** ** Packages on the heap *)

(** The package at [k] has metadata object [m] and the version [v],
    which [_get_version] returns as it is. *)
Definition settled (st : state) (k : nat) (m : MetaObj) (v : string) : Prop :=
  exists p, pkgs st !! k = Some p /\ metas st !! meta p = Some m /\
            _version p = Some v /\ is_concrete_version v = true.

(** The dependency at [dep] has a scope other than compile, or is
    optional. *)
Definition ineligible (st : state) (dep : nat) : Prop :=
  exists d s o, pkgs st !! dep = Some d /\ dep_attrs d = Some (Some s, o) /\
                (String.eqb (PyStr.lower s) "compile" = false \/ o = true).

(** ** Concrete repositories used to run the program *)

Module Fixtures.

Definition ns (name : string) : string :=
  "{http://maven.apache.org/POM/4.0.0}" ++ name.

Definition leaf (name text : string) : Element := Elem (ns name) (Some text) [].

(** A [<dependency>] entry with the given children. *)
Definition dependency (fields : list (string * string)) : Element :=
  Elem (ns "dependency") None (map (fun f => leaf f.1 f.2) fields).

(** A descriptor with a [<properties>] block and a [<dependencies>]
    block. *)
Definition pom (props : list (string * string)) (deps : list Element) : Element :=
  Elem (ns "project") None
    [Elem (ns "properties") None (map (fun f => leaf f.1 f.2) props);
     Elem (ns "dependencies") None deps].

(** A metadata document with a [<release>] element. *)
Definition metadata (release : string) : Element :=
  Elem "metadata" None
    [Elem "versioning" None [leaf "release" release]].

(** A repository given by a table from URLs to documents: the text
    served at a URL is the URL itself, and the parser looks the text up
    in the same table. *)
Definition table_remote (docs : list (string * Element)) (url : string) : response :=
  match list_find (fun d => d.1 = url) docs with
  | Some _ => Body url
  | None => HttpStatus 404
  end.

Definition table_parser (docs : list (string * Element)) (content : string) : option Element :=
  match list_find (fun d => d.1 = content) docs with
  | Some (_, d) => Some d.2
  | None => None
  end.

(** A hash of strings: the sum of the character codes. *)
Fixpoint code_sum (s : string) : Z :=
  match s with
  | EmptyString => 0
  | String c s' => Z.of_nat (nat_of_ascii c) + code_sum s'
  end.

Definition table_env (docs : list (string * Element)) : Env :=
  mkEnv "/home/user" (table_remote docs) (table_parser docs) code_sum 7.

Definition repo_url : string := "https://repo.example".

(** A package allocated at the next free location, its metadata
    object right after it. *)
Definition with_package (groupId artifactId : string) (version : option string)
    (is_dep : bool) (st : state) : state :=
  let l := next_loc st in
  with_next_loc (S (S l))
    (with_pkgs (<[l := mkPkg version (S l) "" (version_is_symbolic version)
                         (if is_dep then Some (Some DEFAULT_SCOPE, DEFAULT_OPTIONAL) else None)]>
                  (pkgs st))
       (with_metas (<[S l := mkMeta groupId artifactId repo_url
                                (get_package_page_url repo_url groupId artifactId) ""]>
                      (metas st)) st)).

End Fixtures.

Module Scenarios.
Import Fixtures.

(** *** Two metadata objects of one group *)
Definition poi_ooxml : MetaObj :=
  mkMeta "org.apache.poi" "poi-ooxml" DEFAULT_REPO_BASE
    (get_package_page_url DEFAULT_REPO_BASE "org.apache.poi" "poi-ooxml") "".
Definition poi_examples : MetaObj :=
  mkMeta "org.apache.poi" "poi-examples" DEFAULT_REPO_BASE
    (get_package_page_url DEFAULT_REPO_BASE "org.apache.poi" "poi-examples") "".

(** *** A group that is its own artifact, and another artifact of it *)
Definition junit_junit : MetaObj :=
  mkMeta "junit" "junit" DEFAULT_REPO_BASE
    (get_package_page_url DEFAULT_REPO_BASE "junit" "junit") "".
Definition junit_dep : MetaObj :=
  mkMeta "junit" "junit-dep" DEFAULT_REPO_BASE
    (get_package_page_url DEFAULT_REPO_BASE "junit" "junit-dep") "".

(** *** The same coordinate built twice *)
Definition two_equal_packages : state :=
  with_package "org.apache.poi" "poi-ooxml" (Some "5.2.3") true
    (with_package "org.apache.poi" "poi-ooxml" (Some "5.2.3") true initial_state).

(** [s = set(); s.add(p); q in s] for the packages at [2] and [4]. *)
Definition add_then_lookup (env : Env) : M (Z * Z * bool) :=
  bind new_set (fun s =>
  bind (set_add env s 2%nat) (fun _ =>
  bind (MavenPackage__hash__ env 2%nat) (fun hp =>
  bind (MavenPackage__hash__ env 4%nat) (fun hq =>
  bind (set_contains env s 4%nat) (fun found =>
  ret (hp, hq, found)))))).

(** *** A property that refers to itself *)
Definition cyclic_table : gmap string (option string) :=
  <["a" := Some "${a}"]> ∅.

(** *** A table whose values refer to other properties *)
Definition nested_table : gmap string (option string) :=
  <["a" := Some "x${b}"]> (<["b" := Some "1"]> ∅).
Definition nested_shape (name : string) : list item :=
  if String.eqb name "a" then [Lit "x"; Ref "b"]
  else if String.eqb name "b" then [Lit "1"]
  else [].
Definition nested_weight (name : string) : nat :=
  if String.eqb name "a" then 2%nat else 1%nat.

(** *** One package with a concrete version, nothing cached *)
Definition core_state : state :=
  with_package "org.example" "core" (Some "1.0.0") false initial_state.
Definition core_pkg : PkgObj := mkPkg (Some "1.0.0") 3 "" false None.
Definition core_meta : MetaObj :=
  mkMeta "org.example" "core" repo_url "https://repo.example/org/example/core" "".

(** *** A repository that serves the jar of [org.example:core:1.0.0] *)
Definition core_jar_url : string :=
  "https://repo.example/org/example/core/1.0.0/core-1.0.0.jar".
Definition jar_env : Env := table_env [(core_jar_url, Elem "jar" None [])].


(** *** The scenario of section 8 of the specification

    [org.example:core], requested at the release, whose metadata
    names 1.0.0 and whose descriptor declares three dependencies. *)
Definition example_docs : list (string * Element) :=
  [ ("https://repo.example/org/example/core/maven-metadata.xml", metadata "1.0.0");
    ("https://repo.example/org/example/core/1.0.0/core-1.0.0.pom",
     pom [("lib.version", "2.5")]
       [dependency [("groupId", "org.example");
                    ("artifactId", "${project.groupId}.utils")];
        dependency [("groupId", "junit"); ("artifactId", "junit"); ("scope", "test")];
        dependency [("groupId", "org.other"); ("artifactId", "lib");
                    ("version", "${lib.version}")]]) ].
Definition example_env : Env := table_env example_docs.
Definition release_state : state :=
  with_package "org.example" "core" (Some "release") false initial_state.

(** The coordinates of the packages at the given locations. *)
Fixpoint coordinates (ls : list nat) : M (list (string * string * option string)) :=
  match ls with
  | [] => ret []
  | l :: rest =>
      bind (get_pkg l) (fun d =>
      bind (get_meta (meta d)) (fun m =>
      bind (coordinates rest) (fun cs =>
      ret ((groupId m, artifactId m, _version d) :: cs))))
  end.

(** *** A coordinate reached along two paths

    [app] depends on [liba] and [libx], [liba] depends on [libx].
    Group and artifact coincide in each coordinate. *)
Definition shared_docs : list (string * Element) :=
  [ ("https://repo.example/app/app/1/app-1.pom",
     pom [] [dependency [("groupId", "liba"); ("artifactId", "liba"); ("version", "1")];
             dependency [("groupId", "libx"); ("artifactId", "libx"); ("version", "1")]]);
    ("https://repo.example/liba/liba/1/liba-1.pom",
     pom [] [dependency [("groupId", "libx"); ("artifactId", "libx"); ("version", "1")]]);
    ("https://repo.example/libx/libx/1/libx-1.pom", pom [] []) ].
Definition shared_env : Env := table_env shared_docs.
Definition app_state : state := with_package "app" "app" (Some "1") false initial_state.

(** *** Two packages that depend on each other *)
Definition cycle_docs : list (string * Element) :=
  [ ("https://repo.example/org/example/core/1.0.0/core-1.0.0.pom",
     pom [] [dependency [("groupId", "org.example"); ("artifactId", "utils")]]);
    ("https://repo.example/org/example/utils/1.0.0/utils-1.0.0.pom",
     pom [] [dependency [("groupId", "org.example"); ("artifactId", "core")]]) ].
Definition cycle_env : Env := table_env cycle_docs.

(** [depset = set(); depset.add(root); walker(root, 0, depset)], as
    [main] calls the walker. *)
Definition seeded (env : Env) (walker : nat -> Z -> nat -> M unit) (root : nat) : M nat :=
  bind new_set (fun depset =>
  bind (set_add env depset root) (fun _ =>
  bind (walker root 0%Z depset) (fun _ =>
  ret depset))).

(** The coordinates of the members of a set, in insertion order. *)
Definition set_coordinates (s : nat) : M (list (string * string * option string)) :=
  bind (get_set s) (fun entries => coordinates (map snd entries)).

(** What [dump_dependencies] prints for one package. *)
Definition printed (indent : nat) (group artifact version : string) : list string :=
  [str_repeat "    " indent;
   "MavenPackage(MavenPackageMeta('" ++ group ++ "', '" ++ artifact
     ++ "', 'https://repo.example'), '" ++ version ++ "')" ++ newline].

End Scenarios.

(** ** The walk over two packages that depend on each other

    What stays true of the heap, the visited sets and the disk cache
    while the walk descends through [Scenarios.cycle_docs]. *)

Module Cycle.
Import Fixtures Scenarios.

(** The two artifacts of the cycle, and the one each depends on. *)
Definition is_member (a : string) : Prop := a = "core" \/ a = "utils".
Definition other (a : string) : string := if String.eqb a "core" then "utils" else "core".

(** The metadata object, the cache path, the URL, the dependency entry
    and the descriptor of [org.example:a:1.0.0]. *)
Definition cyc_meta (a : string) : MetaObj :=
  mkMeta "org.example" a repo_url (get_package_page_url repo_url "org.example" a) "".
Definition cyc_path (a : string) : string :=
  get_pom_cache_path "/home/user" "org.example" a "1.0.0".
Definition cyc_url (a : string) : string :=
  "https://repo.example/org/example/" ++ a ++ "/1.0.0/" ++ a ++ "-1.0.0.pom".
Definition cyc_entry (a : string) : Element :=
  dependency [("groupId", "org.example"); ("artifactId", a)].
Definition cyc_root (a : string) : Element := pom [] [cyc_entry (other a)].

(** A package of the cycle, resolved, with its metadata object. *)
Definition pkg_ok (st : state) (k : nat) : Prop :=
  (k < next_loc st)%nat /\
  (exists pk b, pkgs st !! k = Some pk /\ _version pk = Some "1.0.0" /\
               (meta pk < next_loc st)%nat /\
               metas st !! meta pk = Some (cyc_meta b) /\ is_member b).

(** A visited set whose members are packages of the cycle. *)
Definition set_ok (st : state) (s : nat) : Prop :=
  exists entries, sets st !! s = Some entries /\ Forall (fun e => pkg_ok st e.2) entries.

(** The regular files are descriptors of the cycle, cached as served,
    and no directory stands at the cache path of one. *)
Definition files_ok (st : state) : Prop :=
  (forall q c, files st !! q = Some c ->
     exists a, is_member a /\ q = cyc_path a /\ c = cyc_url a) /\
  (forall a, is_member a -> cyc_path a ∉ dirs st).

(** The state in which [main] calls the walker: the root is in a new set. *)
Definition seeded_state : state :=
  (bind new_set (fun depset => set_add cycle_env depset 2%nat) core_state).2.

End Cycle.

(** ** More repositories and heaps used to run the program *)

Module Examples.
Import Fixtures Scenarios.

(** *** A repository that cannot be reached *)
Definition offline_env : Env :=
  mkEnv "/home/user" (fun _ => Unreachable) (fun _ => None) code_sum 7.


(** *** A repository that answers every request with an empty body *)
Definition blank_env : Env :=
  mkEnv "/home/user" (fun _ => Body "") (fun _ => None) code_sum 7.

(** *** Metadata of [org.example:core] without a [<release>] element *)
Definition unreleased_docs : list (string * Element) :=
  [ ("https://repo.example/org/example/core/maven-metadata.xml",
     Elem "metadata" None [Elem "versioning" None []]) ].
Definition unreleased_env : Env := table_env unreleased_docs.

(** *** Two artifacts named [core], in two groups *)
Definition two_groups_state : state :=
  with_package "com.other" "core" (Some "1.0.0") false core_state.
Definition other_core_pkg : PkgObj := mkPkg (Some "1.0.0") 5 "" false None.
Definition other_core_meta : MetaObj :=
  mkMeta "com.other" "core" repo_url "https://repo.example/com/other/core" "".

(** *** A descriptor whose dependencies are test-scoped, optional or
    provided *)
Definition skipped_root : Element :=
  pom [] [dependency [("groupId", "junit"); ("artifactId", "junit"); ("scope", "Test")];
          dependency [("groupId", "org.example"); ("artifactId", "extras");
                      ("optional", "TRUE")];
          dependency [("groupId", "javax"); ("artifactId", "servlet");
                      ("scope", "provided")]].
Definition skipped_docs : list (string * Element) :=
  [ ("https://repo.example/org/example/core/1.0.0/core-1.0.0.pom", skipped_root) ].
Definition skipped_env : Env := table_env skipped_docs.

(** *** A descriptor whose dependency has an empty [<scope/>] element *)
Definition empty_scope : Element := Elem (ns "scope") None [].
Definition empty_scope_entry : Element :=
  Elem (ns "dependency") None
    [leaf "groupId" "org.example"; leaf "artifactId" "utils"; empty_scope].
Definition empty_scope_root : Element := pom [] [empty_scope_entry].
Definition empty_scope_docs : list (string * Element) :=
  [ ("https://repo.example/org/example/core/1.0.0/core-1.0.0.pom", empty_scope_root) ].
Definition empty_scope_env : Env := table_env empty_scope_docs.

(** *** A descriptor that declares one property twice *)
Definition first_declaration : Element := leaf "lib.version" " 2.5 ".
Definition second_declaration : Element := leaf "lib.version" " 3.0 ".
Definition properties_block : Element :=
  Elem (ns "properties") None [first_declaration; second_declaration].
Definition redeclared_root : Element :=
  Elem (ns "project") None [properties_block; Elem (ns "dependencies") None []].
Definition redeclared_table : gmap string (option string) :=
  <["lib.version" := Some "3.0"]>
    (<["properties" := Some ""]> (implicit_properties core_pkg core_meta)).


(** *** A repository that serves a jar and a jar below its name *)
Definition nested_jar_env : Env :=
  table_env [ (core_jar_url, Elem "jar" None []);
              ("https://repo.example/org/example/core/1.0.0/core-1.0.0.jar/y.jar",
               Elem "jar" None []) ].

(** *** A table with one property *)
Definition one_property : gmap string (option string) := <["a" := Some "1"]> ∅.

(** *** Visited sets

    [s = set(); s.add(p)] for the first of two packages built from one
    coordinate, and an empty set beside one package. *)
Definition one_member_state : state :=
  (bind new_set (fun s => set_add (table_env []) s 2%nat) two_equal_packages).2.
Definition poi_pkg (meta : nat) : PkgObj :=
  mkPkg (Some "5.2.3") meta "" false (Some (Some DEFAULT_SCOPE, DEFAULT_OPTIONAL)).
Definition poi_meta : MetaObj :=
  mkMeta "org.apache.poi" "poi-ooxml" repo_url
    "https://repo.example/org/apache/poi/poi-ooxml" "".
Definition empty_set_state : state := (new_set core_state).2.

End Examples.

(** * Properties *)

(** ** Equality and hashing of [MavenPackageMeta] *)

Lemma String_eqb_true (a b : string) : String.eqb a b = true <-> a = b.
Proof. apply String.eqb_eq. Qed.

(** C4 (as amended): the second conjunct of [__eq__] compares the
    receiver's artifact with the argument's group, so [a == b] holds
    exactly when [a.groupId = b.groupId] and [a.artifactId = b.groupId];
    the two artifacts are never compared with each other. *)
Theorem meta_eq_characterisation (a b : MetaObj) :
  MavenPackageMeta__eq__ a b = true <->
  groupId a = groupId b /\ artifactId a = groupId b.
Proof.
  unfold MavenPackageMeta__eq__.
  rewrite andb_true_iff, !String_eqb_true.
  reflexivity.
Qed.

(** C4, counterexample to the claim as stated: two metadata objects of
    the same group that [__eq__] does not hold equal. *)
Lemma meta_eq_same_group_unequal :
  groupId Scenarios.poi_ooxml = groupId Scenarios.poi_examples /\
  MavenPackageMeta__eq__ Scenarios.poi_ooxml Scenarios.poi_examples = false.
Proof. split; reflexivity. Qed.

(** C5, evaluated on the code: [junit:junit == junit:junit-dep] holds
    while the two hashes differ, and a package whose coordinate is
    already in a set is not found in it, although its hash is the stored
    one. *)
Theorem eq_and_hash_disagree :
  MavenPackageMeta__eq__ Scenarios.junit_junit Scenarios.junit_dep = true /\
  MavenPackageMeta__hash__ (Fixtures.table_env []) Scenarios.junit_junit
    <> MavenPackageMeta__hash__ (Fixtures.table_env []) Scenarios.junit_dep /\
  exists h st,
    Scenarios.add_then_lookup (Fixtures.table_env []) Scenarios.two_equal_packages
    = (Ret (h, h, false), st).
Proof.
  split; [reflexivity|]. split; [vm_compute; discriminate|].
  eexists _, _. vm_compute. reflexivity.
Qed.

(** ** Facts about the string operations *)

Lemma str_app_cons x (a b : string) : String x a ++ b = String x (a ++ b).
Proof. reflexivity. Qed.

Lemma str_app_nil_l (a : string) : "" ++ a = a.
Proof. reflexivity. Qed.

Lemma str_app_assoc (a b c : string) : (a ++ b) ++ c = a ++ (b ++ c).
Proof.
  induction a as [|x a IH]; [reflexivity|].
  rewrite !str_app_cons, IH. reflexivity.
Qed.

Lemma str_app_nil_r (a : string) : a ++ "" = a.
Proof. induction a as [|x a IH]; [reflexivity|]. by rewrite str_app_cons, IH. Qed.

Lemma str_length_app (a b : string) :
  String.length (a ++ b) = (String.length a + String.length b)%nat.
Proof.
  induction a as [|x a IH]; [reflexivity|].
  rewrite str_app_cons. simpl. by rewrite IH.
Qed.

Lemma drop_app (a b : string) : PyStr.drop (String.length a) (a ++ b) = b.
Proof.
  induction a as [|x a IH]; [by destruct b|].
  rewrite str_app_cons. simpl. exact IH.
Qed.

Lemma take_app (a b : string) : PyStr.take (String.length a) (a ++ b) = a.
Proof.
  induction a as [|x a IH]; [by destruct b|].
  rewrite str_app_cons. simpl. by rewrite IH.
Qed.

Lemma norm_index_in_range n i : 0 <= i <= n -> PyStr.norm_index n i = i.
Proof. intros H. unfold PyStr.norm_index. destruct (Z.ltb_spec i 0); lia. Qed.

Lemma contains_false s sub : PyStr.contains s sub = false <-> PyStr.find_nat sub s = None.
Proof.
  unfold PyStr.contains, PyStr.find. destruct (PyStr.find_nat sub s) as [i|].
  - split; [|discriminate]. intros H. apply Z.leb_gt in H. lia.
  - split; [reflexivity|]. intros _. reflexivity.
Qed.

Lemma find_of_nat s sub i : PyStr.find_nat sub s = Some i -> PyStr.find s sub = Z.of_nat i.
Proof. unfold PyStr.find. by intros ->. Qed.

Lemma find_nat_cons sub x s :
  PyStr.find_nat sub (String x s) =
  if String.prefix sub (String x s) then Some O else option_map S (PyStr.find_nat sub s).
Proof. reflexivity. Qed.

Lemma prefix_cons a s1 b s2 :
  String.prefix (String a s1) (String b s2)
  = if ascii_dec a b then String.prefix s1 s2 else false.
Proof. reflexivity. Qed.

Lemma prefix_nil s : String.prefix "" s = true.
Proof. by destruct s. Qed.

(** Occurrences of a single character. *)
Lemma prefix_char c d s : String.prefix (String c "") (String d s) = Ascii.eqb c d.
Proof.
  rewrite prefix_cons, prefix_nil. destruct (ascii_dec c d) as [->|Hne].
  - by rewrite Ascii.eqb_refl.
  - symmetry. by apply Ascii.eqb_neq.
Qed.

Lemma find_char_app_absent c a b :
  PyStr.find_nat (String c "") a = None ->
  PyStr.find_nat (String c "") (a ++ String c b) = Some (String.length a).
Proof.
  induction a as [|x a IH]; intros H.
  - rewrite str_app_nil_l, find_nat_cons, prefix_char, Ascii.eqb_refl. reflexivity.
  - rewrite str_app_cons, find_nat_cons, prefix_char.
    rewrite find_nat_cons, prefix_char in H.
    destruct (Ascii.eqb c x); [discriminate|].
    destruct (PyStr.find_nat (String c "") a); [discriminate|].
    rewrite IH by reflexivity. reflexivity.
Qed.

Lemma find_char_app_none c a b :
  PyStr.find_nat (String c "") a = None ->
  PyStr.find_nat (String c "") b = None ->
  PyStr.find_nat (String c "") (a ++ b) = None.
Proof.
  induction a as [|x a IH]; intros Ha Hb; [exact Hb|].
  rewrite str_app_cons, find_nat_cons, prefix_char.
  rewrite find_nat_cons, prefix_char in Ha.
  destruct (Ascii.eqb c x); [discriminate|].
  destruct (PyStr.find_nat (String c "") a); [discriminate|].
  rewrite IH by done. reflexivity.
Qed.

(** Occurrences of the two characters that open a placeholder. *)
Lemma prefix_open s : String.prefix "${" s = true <-> exists t, s = "${" ++ t.
Proof.
  split.
  - destruct s as [|x [|y s]]; [done| |].
    + rewrite prefix_cons. by destruct (ascii_dec "$" x).
    + rewrite !prefix_cons.
      destruct (ascii_dec "$" x) as [<-|]; [|done].
      destruct (ascii_dec "{" y) as [<-|]; [|done].
      intros _. by exists s.
  - intros [t ->]. change ("${" ++ t) with (String "$" (String "{" t)).
    rewrite !prefix_cons, prefix_nil.
    destruct (ascii_dec "$" "$"); [|done]. by destruct (ascii_dec "{" "{").
Qed.

Lemma find_open_app_absent a b :
  PyStr.find_nat "${" a = None ->
  PyStr.find_nat "${" (a ++ "${" ++ b) = Some (String.length a).
Proof.
  induction a as [|x a IH]; intros H.
  - rewrite str_app_nil_l.
    assert (String.prefix "${" ("${" ++ b) = true) as Hp by (apply prefix_open; eauto).
    change ("${" ++ b) with (String "$" (String "{" b)) in *.
    rewrite find_nat_cons, Hp. reflexivity.
  - rewrite find_nat_cons in H.
    destruct (String.prefix "${" (String x a)) eqn:Hp; [discriminate|].
    destruct (PyStr.find_nat "${" a) eqn:Ha; [discriminate|].
    rewrite str_app_cons, find_nat_cons.
    destruct (String.prefix "${" (String x (a ++ "${" ++ b))) eqn:Hq.
    + exfalso. apply prefix_open in Hq as [t Ht].
      change ("${" ++ t) with (String "$" (String "{" t)) in Ht.
      destruct a as [|y a].
      * rewrite str_app_nil_l in Ht.
        change ("${" ++ b) with (String "$" (String "{" b)) in Ht.
        inversion Ht.
      * rewrite str_app_cons in Ht. inversion Ht; subst.
        assert (String.prefix "${" (String "$" (String "{" a)) = true) as Hp'
          by (apply prefix_open; by exists a).
        congruence.
    + rewrite IH by reflexivity. reflexivity.
Qed.

Lemma find_open_app_prefix a b :
  PyStr.find_nat "${" (a ++ b) = None -> PyStr.find_nat "${" a = None.
Proof.
  induction a as [|x a IH]; intros H; [reflexivity|].
  rewrite str_app_cons, find_nat_cons in H.
  destruct (String.prefix "${" (String x (a ++ b))) eqn:Hq; [discriminate|].
  destruct (PyStr.find_nat "${" (a ++ b)) eqn:Hf; [discriminate|].
  rewrite find_nat_cons, IH by reflexivity.
  destruct (String.prefix "${" (String x a)) eqn:Hp; [|reflexivity].
  apply prefix_open in Hp as [t Ht].
  assert (String.prefix "${" (String x (a ++ b)) = true) as Hq'.
  { apply prefix_open. exists (t ++ b). rewrite <- str_app_cons, Ht.
    apply str_app_assoc. }
  congruence.
Qed.

Lemma find_negative s sub : PyStr.find_nat sub s = None -> PyStr.find s sub = -1.
Proof. unfold PyStr.find. by intros ->. Qed.

Lemma len_app a b : PyStr.len (a ++ b) = PyStr.len a + PyStr.len b.
Proof. unfold PyStr.len. rewrite str_length_app. lia. Qed.

Lemma len_nonneg a : 0 <= PyStr.len a.
Proof. unfold PyStr.len. lia. Qed.

Lemma slice_middle a b c :
  PyStr.slice (a ++ b ++ c) (PyStr.len a) (PyStr.len a + PyStr.len b) = b.
Proof.
  unfold PyStr.slice. rewrite !len_app.
  pose proof (len_nonneg a). pose proof (len_nonneg b). pose proof (len_nonneg c).
  rewrite !norm_index_in_range by lia.
  replace (Z.to_nat (PyStr.len a + PyStr.len b - PyStr.len a)) with (String.length b)
    by (unfold PyStr.len; lia).
  replace (Z.to_nat (PyStr.len a)) with (String.length a) by (unfold PyStr.len; lia).
  rewrite drop_app. apply take_app.
Qed.

Lemma slice_front a b : PyStr.slice (a ++ b) 0 (PyStr.len a) = a.
Proof.
  unfold PyStr.slice. rewrite !len_app.
  pose proof (len_nonneg a). pose proof (len_nonneg b).
  rewrite !norm_index_in_range by lia.
  replace (Z.to_nat (PyStr.len a - 0)) with (String.length a) by (unfold PyStr.len; lia).
  change (Z.to_nat 0) with O. apply take_app.
Qed.

Lemma slice_from_back a b : PyStr.slice_from (a ++ b) (PyStr.len a) = b.
Proof.
  unfold PyStr.slice_from. rewrite !len_app.
  pose proof (len_nonneg a). pose proof (len_nonneg b).
  rewrite norm_index_in_range by lia.
  replace (Z.to_nat (PyStr.len a)) with (String.length a) by (unfold PyStr.len; lia).
  apply drop_app.
Qed.

(** ** The path sanitizers *)

Lemma replace_char_cons c new x s :
  PyStr.replace (String x s) (String c "") new
  = if Ascii.eqb c x then new ++ PyStr.replace s (String c "") new
    else String x (PyStr.replace s (String c "") new).
Proof.
  unfold PyStr.replace. cbn [PyStr.replace_aux]. rewrite prefix_char.
  destruct (Ascii.eqb c x); reflexivity.
Qed.

Lemma replace_char_nil c new : PyStr.replace "" (String c "") new = "".
Proof. reflexivity. Qed.

(** Replacing a character by a text without [d] leaves no new [d]. *)
Lemma replace_char_keeps_absent c d new s :
  PyStr.find_nat (String d "") new = None ->
  PyStr.find_nat (String d "") s = None ->
  PyStr.find_nat (String d "") (PyStr.replace s (String c "") new) = None.
Proof.
  intros Hnew. induction s as [|x s IH]; intros Hs; [reflexivity|].
  rewrite replace_char_cons. rewrite find_nat_cons, prefix_char in Hs.
  destruct (Ascii.eqb d x) eqn:Hdx; [discriminate|].
  destruct (PyStr.find_nat (String d "") s); [discriminate|].
  destruct (Ascii.eqb c x).
  - apply find_char_app_none; [exact Hnew | by apply IH].
  - rewrite find_nat_cons, prefix_char, Hdx, IH by reflexivity. reflexivity.
Qed.

(** Replacing a character by a text without it removes the character. *)
Lemma replace_char_removes c new s :
  PyStr.find_nat (String c "") new = None ->
  PyStr.find_nat (String c "") (PyStr.replace s (String c "") new) = None.
Proof.
  intros Hnew. induction s as [|x s IH]; [reflexivity|].
  rewrite replace_char_cons. destruct (Ascii.eqb c x) eqn:Hcx.
  - by apply find_char_app_none.
  - rewrite find_nat_cons, prefix_char, Hcx, IH. reflexivity.
Qed.

Lemma find_dots_of_dot s :
  PyStr.find_nat "." s = None -> PyStr.find_nat ".." s = None.
Proof.
  induction s as [|x s IH]; [reflexivity|].
  rewrite !find_nat_cons, prefix_char, prefix_cons.
  destruct (ascii_dec "." x) as [<-|Hne].
  - rewrite Ascii.eqb_refl. discriminate.
  - apply Ascii.eqb_neq in Hne. rewrite Hne.
    destruct (PyStr.find_nat "." s); [discriminate|].
    intros _. by rewrite IH.
Qed.

Lemma artifact_path_clean s :
  Forall (fun c => PyStr.contains (_quote_artifactId_path s) c = false)
    ["/"; "\"; ":"; "?"; "="].
Proof.
  unfold _quote_artifactId_path.
  repeat constructor; apply contains_false;
    repeat first [ by apply replace_char_removes
                 | apply replace_char_keeps_absent; [reflexivity|] ].
Qed.

Lemma version_path_clean s :
  Forall (fun c => PyStr.contains (_quote_version_path s) c = false)
    ["/"; "\"; ":"; "?"; "="].
Proof.
  unfold _quote_version_path.
  repeat constructor; apply contains_false;
    repeat first [ by apply replace_char_removes
                 | apply replace_char_keeps_absent; [reflexivity|] ].
Qed.

Lemma group_path_clean s :
  Forall (fun c => PyStr.contains (_quote_groupId_path s) c = false)
    [".."; ":"; "?"; "="].
Proof.
  unfold _quote_groupId_path.
  repeat constructor; apply contains_false;
    try (apply find_dots_of_dot);
    repeat first [ by apply replace_char_removes
                 | apply replace_char_keeps_absent; [reflexivity|] ].
Qed.

(** C7, evaluated on the code: the input [./...] contains [..]; removing
    [..] first leaves [./.], and removing the slash afterwards joins the
    two dots again.  Both the artifact and the version sanitizer return
    [..].  The rest of the claim holds on every input: the artifact and
    version sanitizers leave none of [/ \ : ? =], and the group
    sanitizer leaves none of [.. : ? =]. *)
Theorem sanitizer_rebuilds_parent_segment :
  (PyStr.contains "./..." ".." = true /\
   _quote_artifactId_path "./..." = ".." /\
   _quote_version_path "./..." = ".." /\
   _quote_artifactId_path ".:..." = "..") /\
  (forall s, Forall (fun c => PyStr.contains (_quote_artifactId_path s) c = false)
               ["/"; "\"; ":"; "?"; "="]) /\
  (forall s, Forall (fun c => PyStr.contains (_quote_version_path s) c = false)
               ["/"; "\"; ":"; "?"; "="]) /\
  (forall s, Forall (fun c => PyStr.contains (_quote_groupId_path s) c = false)
               [".."; ":"; "?"; "="]).
Proof.
  split; [repeat split; reflexivity|].
  split; [exact artifact_path_clean|].
  split; [exact version_path_clean | exact group_path_clean].
Qed.

(** ** Placeholder substitution *)

(** A pass that leaves the text as it was repeats for ever. *)
Lemma parse_property_loop_stuck properties text idx :
  0 <= idx ->
  PyStr.find text "${" = idx ->
  substitute_once properties text idx = Ret text ->
  forall fuel, parse_property_loop fuel properties text idx = Diverge.
Proof.
  intros Hidx Hfind Hsub fuel.
  induction fuel as [|fuel IH]; cbn [parse_property_loop];
    destruct (Z.leb_spec 0 idx) as [_|Hlt]; try lia.
  - reflexivity.
  - rewrite Hsub, Hfind. exact IH.
Qed.

(** The loop only exits on a text without [${]. *)
Lemma parse_property_loop_result fuel : forall properties text idx r,
  PyStr.find text "${" = idx ->
  parse_property_loop fuel properties text idx = Ret r ->
  PyStr.find r "${" < 0.
Proof.
  induction fuel as [|fuel IH]; intros properties text idx r Hidx;
    cbn [parse_property_loop]; destruct (Z.leb_spec 0 idx) as [Hge|Hlt].
  - discriminate.
  - intros [= <-]. rewrite Hidx. exact Hlt.
  - destruct (substitute_once properties text idx) as [text'| |]; try discriminate.
    apply IH. reflexivity.
  - intros [= <-]. rewrite Hidx. exact Hlt.
Qed.

(** C2, evaluated on the code: in [}${x}] the placeholder starts at index
    1 and the brace that [text.find("}")] returns is the one at index 0,
    before it.  The pass takes the empty name, keeps the whole text from
    index 1 on as the tail and so rebuilds the text it started from: the
    call makes no progress, where pairing the placeholder with the brace
    after it gives [}]. *)
Theorem closing_brace_before_placeholder :
  PyStr.find "}${x}" "${" = 1 /\
  PyStr.find "}${x}" "}" = 0 /\
  substitute_once ∅ "}${x}" 1 = Ret "}${x}" /\
  spec_substitute_once ∅ "}${x}" 1 = Ret "}" /\
  forall fuel, parse_property_value fuel ∅ "}${x}" = Diverge.
Proof.
  split; [reflexivity|]. split; [reflexivity|].
  split; [reflexivity|]. split; [reflexivity|].
  intros fuel. unfold parse_property_value.
  apply parse_property_loop_stuck; [vm_compute; discriminate | reflexivity | reflexivity].
Qed.

(** C3, counterexample to the claim as stated: with the table
    [{"a": "${a}"}] the text [${a}] is replaced by itself, and no number
    of iterations ends the loop. *)
Lemma substitution_cycle_never_returns :
  ~ exists fuel, parse_property_value fuel Scenarios.cyclic_table "${a}" <> Diverge.
Proof.
  intros [fuel H]. apply H. unfold parse_property_value.
  apply parse_property_loop_stuck; [vm_compute; discriminate | reflexivity | reflexivity].
Qed.

(** One pass on a text that starts with literal text and a placeholder. *)
Lemma substitute_once_flat properties lit0 name v rest :
  PyStr.find_nat "}" lit0 = None ->
  PyStr.find_nat "}" name = None ->
  lookup_value properties name = Some v ->
  substitute_once properties (lit0 ++ placeholder name ++ rest) (PyStr.len lit0)
  = Ret (lit0 ++ v ++ rest).
Proof.
  intros Hlit Hname Hv. unfold substitute_once, placeholder.
  assert (PyStr.find (lit0 ++ ("${" ++ name ++ "}") ++ rest) "}"
          = PyStr.len lit0 + 2 + PyStr.len name) as ->.
  { replace (lit0 ++ ("${" ++ name ++ "}") ++ rest)
      with ((lit0 ++ "${" ++ name) ++ String "}" rest)
      by (rewrite !str_app_assoc; reflexivity).
    erewrite find_of_nat; [|apply find_char_app_absent].
    - rewrite !str_length_app. unfold PyStr.len. simpl String.length. lia.
    - apply find_char_app_none; [exact Hlit|].
      apply find_char_app_none; [reflexivity | exact Hname]. }
  replace (PyStr.slice (lit0 ++ ("${" ++ name ++ "}") ++ rest) (PyStr.len lit0 + 2)
             (PyStr.len lit0 + 2 + PyStr.len name)) with name.
  2:{ replace (lit0 ++ ("${" ++ name ++ "}") ++ rest)
        with ((lit0 ++ "${") ++ name ++ "}" ++ rest)
        by (rewrite !str_app_assoc; reflexivity).
      replace (PyStr.len lit0 + 2) with (PyStr.len (lit0 ++ "${"))
        by (rewrite len_app; reflexivity).
      symmetry. apply slice_middle. }
  fold (lookup_value properties name). rewrite Hv.
  rewrite slice_front.
  replace (lit0 ++ ("${" ++ name ++ "}") ++ rest)
    with ((lit0 ++ "${" ++ name ++ "}") ++ rest)
    by (rewrite !str_app_assoc; reflexivity).
  replace (PyStr.len lit0 + 2 + PyStr.len name + 1)
    with (PyStr.len (lit0 ++ "${" ++ name ++ "}")).
  2:{ rewrite !len_app. unfold PyStr.len at 2 4. simpl String.length. lia. }
  rewrite slice_from_back. reflexivity.
Qed.

(** The pass that the specification describes, on the same text. *)
Lemma spec_substitute_once_flat properties lit0 name v rest :
  PyStr.find_nat "}" name = None ->
  lookup_value properties name = Some v ->
  spec_substitute_once properties (lit0 ++ placeholder name ++ rest) (PyStr.len lit0)
  = Ret (lit0 ++ v ++ rest).
Proof.
  intros Hname Hv. unfold spec_substitute_once, placeholder.
  rewrite slice_from_back.
  assert (PyStr.find (("${" ++ name ++ "}") ++ rest) "}" = 2 + PyStr.len name) as ->.
  { replace (("${" ++ name ++ "}") ++ rest) with (("${" ++ name) ++ String "}" rest)
      by (rewrite !str_app_assoc; reflexivity).
    erewrite find_of_nat; [|apply find_char_app_absent].
    - rewrite str_length_app. unfold PyStr.len. simpl String.length. lia.
    - apply find_char_app_none; [reflexivity | exact Hname]. }
  pose proof (len_nonneg name) as Hn.
  destruct (Z.leb_spec 0 (2 + PyStr.len name)) as [_|]; [|lia].
  replace (PyStr.slice (lit0 ++ ("${" ++ name ++ "}") ++ rest) (PyStr.len lit0 + 2)
             (PyStr.len lit0 + (2 + PyStr.len name))) with name.
  2:{ replace (lit0 ++ ("${" ++ name ++ "}") ++ rest)
        with ((lit0 ++ "${") ++ name ++ "}" ++ rest)
        by (rewrite !str_app_assoc; reflexivity).
      replace (PyStr.len lit0 + 2) with (PyStr.len (lit0 ++ "${"))
        by (rewrite len_app; reflexivity).
      replace (PyStr.len lit0 + (2 + PyStr.len name))
        with (PyStr.len lit0 + 2 + PyStr.len name) by lia.
      replace (PyStr.len lit0 + 2) with (PyStr.len (lit0 ++ "${"))
        by (rewrite len_app; reflexivity).
      symmetry. apply slice_middle. }
  fold (lookup_value properties name). rewrite Hv.
  rewrite slice_front.
  replace (lit0 ++ ("${" ++ name ++ "}") ++ rest)
    with ((lit0 ++ "${" ++ name ++ "}") ++ rest)
    by (rewrite !str_app_assoc; reflexivity).
  replace (PyStr.len lit0 + (2 + PyStr.len name) + 1)
    with (PyStr.len (lit0 ++ "${" ++ name ++ "}")).
  2:{ rewrite !len_app. unfold PyStr.len at 2 4. simpl String.length. lia. }
  rewrite slice_from_back. reflexivity.
Qed.

(** When no closing brace precedes the placeholder, the code and the
    specification agree on the pass. *)
Lemma substitute_once_agrees properties lit0 name v rest :
  PyStr.find_nat "}" lit0 = None ->
  PyStr.find_nat "}" name = None ->
  lookup_value properties name = Some v ->
  substitute_once properties (lit0 ++ placeholder name ++ rest) (PyStr.len lit0)
  = spec_substitute_once properties (lit0 ++ placeholder name ++ rest) (PyStr.len lit0).
Proof.
  intros Hlit Hname Hv.
  rewrite (substitute_once_flat _ _ _ v), (spec_substitute_once_flat _ _ _ v); done.
Qed.

Lemma parse_property_loop_exit fuel properties text idx :
  idx < 0 -> parse_property_loop fuel properties text idx = Ret text.
Proof.
  intros H. destruct fuel; cbn [parse_property_loop];
    destruct (Z.leb_spec 0 idx); (lia || reflexivity).
Qed.


Lemma render_app a b : render (a ++ b)%list = render a ++ render b.
Proof.
  induction a as [|i a IH]; [reflexivity|].
  cbn [render app]. rewrite IH, str_app_assoc. reflexivity.
Qed.

Lemma weight_app w a b : weight w (a ++ b)%list = (weight w a + weight w b)%nat.
Proof.
  induction a as [|[s|name] a IH]; cbn [weight app]; lia.
Qed.

Lemma find_open_of_dollar s :
  PyStr.find_nat "$" s = None -> PyStr.find_nat "${" s = None.
Proof.
  induction s as [|x s IH]; [reflexivity|].
  rewrite !find_nat_cons, prefix_char, prefix_cons.
  destruct (ascii_dec "$" x) as [<-|Hne].
  - rewrite Ascii.eqb_refl. discriminate.
  - apply Ascii.eqb_neq in Hne. rewrite Hne.
    destruct (PyStr.find_nat "$" s); [discriminate|].
    intros _. by rewrite IH.
Qed.

Section Ranked.
Variable properties : gmap string (option string).
Variable shape : string -> list item.
Variable w : string -> nat.
Hypothesis shape_value : forall name, lookup_value properties name = Some (render (shape name)).
Hypothesis shape_clean : forall name, Forall item_clean (shape name).
Hypothesis shape_rank : forall name, (weight w (shape name) < w name)%nat.

Lemma parse_ranked fuel : forall items lit0,
  PyStr.find_nat "$" lit0 = None ->
  PyStr.find_nat "}" lit0 = None ->
  Forall item_clean items ->
  (weight w items <= fuel)%nat ->
  exists r, parse_property_value fuel properties (lit0 ++ render items) = Ret r
            /\ PyStr.contains r "${" = false.
Proof.
  induction fuel as [fuel IHfuel] using lt_wf_ind.
  induction items as [|[s|name] items IH]; intros lit0 Hd Hb Hitems Hw.
  - cbn [render]. rewrite str_app_nil_r. exists lit0.
    split; [|apply contains_false; by apply find_open_of_dollar].
    unfold parse_property_value. apply parse_property_loop_exit.
    rewrite (find_negative lit0 "${"); [lia | by apply find_open_of_dollar].
  - apply Forall_cons in Hitems as [[Hs1 Hs2] Hitems].
    apply contains_false in Hs1, Hs2.
    cbn [render render_item weight] in *. rewrite <- str_app_assoc.
    apply IH; [by apply find_char_app_none | by apply find_char_app_none | done | done].
  - apply Forall_cons in Hitems as [Hn Hitems].
    apply contains_false in Hn.
    cbn [render render_item weight] in *.
    pose proof (shape_rank name) as Hrank.
    destruct fuel as [|fuel]; [lia|].
    destruct (IHfuel fuel ltac:(lia) (shape name ++ items)%list lit0 Hd Hb) as (r & Hr & Hclean).
    { apply Forall_app. split; [apply shape_clean | exact Hitems]. }
    { rewrite weight_app. lia. }
    exists r. split; [|exact Hclean].
    unfold parse_property_value in *.
    assert (PyStr.find (lit0 ++ placeholder name ++ render items) "${" = PyStr.len lit0) as ->.
    { unfold placeholder. rewrite !str_app_assoc.
      erewrite find_of_nat; [reflexivity|].
      apply find_open_app_absent. by apply find_open_of_dollar. }
    cbn [parse_property_loop].
    destruct (Z.leb_spec 0 (PyStr.len lit0)) as [_|Hneg];
      [|pose proof (len_nonneg lit0); lia].
    rewrite (substitute_once_flat _ _ _ (render (shape name))) by done.
    rewrite render_app in Hr. exact Hr.
Qed.
End Ranked.

(** C3 (as amended): for every table and every text, a call that
    returns gives a text without [${]; and the call does return, within
    as many iterations as the weight of the text, when the text and
    every value of the table are made of clean literal pieces and
    placeholders and the references of the table are well founded: each
    name weighs more than the names its value refers to.  (A table that
    refers to itself has no such weights, and the loop has no guard
    against it.) *)
Theorem substitution_returns_when_well_founded :
  (forall (properties : gmap string (option string)) (fuel : nat) (text r : string),
     parse_property_value fuel properties text = Ret r ->
     PyStr.contains r "${" = false) /\
  (forall (properties : gmap string (option string)) (shape : string -> list item)
          (w : string -> nat) (items : list item) (fuel : nat),
     (forall name, lookup_value properties name = Some (render (shape name))) ->
     (forall name, Forall item_clean (shape name)) ->
     (forall name, (weight w (shape name) < w name)%nat) ->
     Forall item_clean items ->
     (weight w items <= fuel)%nat ->
     exists r, parse_property_value fuel properties (render items) = Ret r
               /\ PyStr.contains r "${" = false).
Proof.
  split.
  - intros properties fuel text r Hr. unfold PyStr.contains.
    apply Z.leb_gt. eapply parse_property_loop_result; [reflexivity | exact Hr].
  - intros properties shape w items fuel Hvalue Hclean Hrank Hitems Hfuel.
    destruct (parse_ranked properties shape w Hvalue Hclean Hrank fuel items "")
      as (r & Hr & Hno); try done.
    exists r. by rewrite str_app_nil_l in Hr.
Qed.

Lemma substitution_returns_nested_example :
  exists r, parse_property_value 2 Scenarios.nested_table "p${a}q" = Ret r
            /\ PyStr.contains r "${" = false.
Proof.
  apply (proj2 substitution_returns_when_well_founded Scenarios.nested_table
           Scenarios.nested_shape Scenarios.nested_weight
           [Lit "p"; Ref "a"; Lit "q"] 2%nat).
  - intros name. unfold Scenarios.nested_shape.
    destruct (String.eqb_spec name "a") as [->|Ha]; [reflexivity|].
    destruct (String.eqb_spec name "b") as [->|Hb]; [reflexivity|].
    unfold lookup_value, Scenarios.nested_table.
    rewrite !lookup_insert_ne by congruence. reflexivity.
  - intros name. unfold Scenarios.nested_shape.
    destruct (String.eqb name "a"); [repeat constructor|].
    destruct (String.eqb name "b"); repeat constructor.
  - intros name. unfold Scenarios.nested_shape, Scenarios.nested_weight.
    destruct (String.eqb_spec name "a") as [->|Ha]; [cbn; lia|].
    destruct (String.eqb name "b"); cbn; lia.
  - repeat constructor.
  - cbn. lia.
Defined.

(** ** Running the monadic code *)

Lemma bind_Ret {A B} (c : M A) (k : A -> M B) st a st' :
  c st = (Ret a, st') -> bind c k st = k a st'.
Proof. unfold bind. by intros ->. Qed.


Lemma bind_inv {A B} (c : M A) (k : A -> M B) st b st' :
  bind c k st = (Ret b, st') ->
  exists a st1, c st = (Ret a, st1) /\ k a st1 = (Ret b, st').
Proof.
  unfold bind. destruct (c st) as [[a| |] st1]; try discriminate.
  intros H. by exists a, st1.
Qed.

Lemma parse_document_inv env content st root st1 :
  parse_document env content st = (Ret root, st1) ->
  st1 = st /\ ET_fromstring env content = Some root.
Proof.
  unfold parse_document. destruct (ET_fromstring env content); [|discriminate].
  unfold ret. by intros [= <- <-].
Qed.

Lemma get_pkg_run st l p : pkgs st !! l = Some p -> get_pkg l st = (Ret p, st).
Proof. unfold get_pkg. by intros ->. Qed.

Lemma get_meta_run st l m : metas st !! l = Some m -> get_meta l st = (Ret m, st).
Proof. unfold get_meta. by intros ->. Qed.

Lemma _get_version_concrete env st self p v :
  pkgs st !! self = Some p ->
  _version p = Some v ->
  is_concrete_version v = true ->
  _get_version env self st = (Ret (Some v), st).
Proof.
  intros Hp Hv Hc. unfold is_concrete_version in Hc.
  apply andb_true_iff in Hc as [Hc Hrel]. apply andb_true_iff in Hc as [Hblank Hlat].
  apply negb_true_iff in Hblank, Hlat, Hrel.
  unfold _get_version.
  rewrite (bind_Ret _ _ _ _ _ (get_pkg_run _ _ _ Hp)).
  rewrite Hv, Hblank.
  rewrite (bind_Ret _ _ st tt st) by reflexivity.
  rewrite (bind_Ret _ _ _ _ _ (get_pkg_run _ _ _ Hp)).
  rewrite Hv, Hlat, Hrel.
  rewrite (bind_Ret _ _ st tt st) by reflexivity.
  rewrite (bind_Ret _ _ _ _ _ (get_pkg_run _ _ _ Hp)).
  rewrite Hv. reflexivity.
Qed.

Lemma _get_package_file_url_concrete env st self p m v postfix :
  pkgs st !! self = Some p ->
  metas st !! meta p = Some m ->
  _version p = Some v ->
  is_concrete_version v = true ->
  _get_package_file_url env self postfix st
  = (Ret (_base_url m ++ "/" ++ v ++ "/" ++ artifactId m ++ "-" ++ v ++ postfix), st).
Proof.
  intros Hp Hm Hv Hc. unfold _get_package_file_url.
  rewrite (bind_Ret _ _ _ _ _ (_get_version_concrete env _ _ _ _ Hp Hv Hc)).
  rewrite (bind_Ret _ _ _ _ _ (get_pkg_run _ _ _ Hp)).
  rewrite (bind_Ret _ _ _ _ _ (get_meta_run _ _ _ Hm)).
  reflexivity.
Qed.

Lemma os_path_exists_state p st : (os_path_exists p st).2 = st.
Proof. reflexivity. Qed.

Lemma descriptor_fetch env st self p m v :
  pkgs st !! self = Some p ->
  metas st !! meta p = Some m ->
  _version p = Some v ->
  is_concrete_version v = true ->
  _pom_cache p = "" ->
  os_path_exists (get_pom_cache_path (env_cwd env) (groupId m) (artifactId m) v) st
    = (Ret false, st) ->
  requests (_get_pom env self st).2
  = (requests st
     ++ [(_base_url m ++ "/" ++ v ++ "/" ++ artifactId m ++ "-" ++ v ++ ".pom")%string])%list.
Proof.
  intros Hp Hm Hv Hc Hcache Hex. unfold _get_pom.
  rewrite (bind_Ret _ _ _ _ _ (get_pkg_run _ _ _ Hp)).
  rewrite (bind_Ret _ _ _ _ _ (get_meta_run _ _ _ Hm)).
  rewrite (bind_Ret _ _ _ _ _ (_get_version_concrete env _ _ _ _ Hp Hv Hc)).
  rewrite (bind_Ret _ _ st v st) by reflexivity.
  rewrite (bind_Ret _ _ _ _ _ (get_pkg_run _ _ _ Hp)).
  rewrite Hcache. change (0 <? PyStr.len "") with false. cbv iota.
  unfold bind at 1. unfold bind at 1. rewrite Hex.
  cbn [negb]. cbv iota.
  unfold bind at 1.
  rewrite (_get_package_file_url_concrete env _ _ _ _ _ _ Hp Hm Hv Hc).
  set (url := _base_url m ++ "/" ++ v ++ "/" ++ artifactId m ++ "-" ++ v ++ ".pom").
  unfold bind at 1. unfold fetch_url. unfold bind at 1. unfold modify.
  destruct (remote env url) as [content|code|]; [|reflexivity..].
  unfold decode_utf8. destruct (PyStr.valid_utf8 content); [|reflexivity].
  unfold ret at 1.
  destruct (0 <? PyStr.len content).
  - unfold set_pom_cache, put_pkg, modify, get_pkg, parse_document, bind, ret, raise.
    cbn [pkgs with_requests with_pkgs]. rewrite Hp.
    unfold makedirs, write_file.
    repeat match goal with
           | |- context [if ?b then _ else _] => destruct b
           end;
      cbn [pkgs with_requests with_pkgs with_dirs with_files requests snd];
      try reflexivity;
      rewrite lookup_insert_eq; destruct (ET_fromstring env _); reflexivity.
  - unfold get_pkg, parse_document, bind, ret, raise.
    cbn [pkgs with_requests]. rewrite Hp.
    destruct (ET_fromstring env _); reflexivity.
Qed.

(** ** The descriptor URL *)

(** C9 (as amended): for a package with a concrete version the
    descriptor URL is
    [<repo>/<group, dots as slashes>/<artifact>/<version>/<artifact>-<version>.pom],
    group and artifact directory percent-encoded: the version directory
    lies under the artifact directory.  That URL is the one requested
    when the descriptor is in neither cache. *)
Theorem descriptor_url_has_artifact_directory env st self p m v :
  pkgs st !! self = Some p ->
  metas st !! meta p = Some m ->
  _version p = Some v ->
  is_concrete_version v = true ->
  _base_url m = get_package_page_url (repo m) (groupId m) (artifactId m) ->
  _get_package_file_url env self ".pom" st
  = (Ret (repo m ++ "/" ++ PyStr.quote (PyStr.replace (groupId m) "." "/")
            ++ "/" ++ PyStr.quote (artifactId m)
            ++ "/" ++ v ++ "/" ++ artifactId m ++ "-" ++ v ++ ".pom"), st)
  /\ (_pom_cache p = "" ->
      os_path_exists (get_pom_cache_path (env_cwd env) (groupId m) (artifactId m) v) st
        = (Ret false, st) ->
      requests (_get_pom env self st).2
      = (requests st
         ++ [(repo m ++ "/" ++ PyStr.quote (PyStr.replace (groupId m) "." "/")
                ++ "/" ++ PyStr.quote (artifactId m)
                ++ "/" ++ v ++ "/" ++ artifactId m ++ "-" ++ v ++ ".pom")%string])%list).
Proof.
  intros Hp Hm Hv Hc Hbase.
  assert (forall x, (repo m ++ "/" ++ PyStr.quote (PyStr.replace (groupId m) "." "/")
                       ++ "/" ++ PyStr.quote (artifactId m) ++ x)%string
                    = (_base_url m ++ x)%string) as Hurl.
  { intros x. rewrite Hbase. unfold get_package_page_url.
    rewrite !str_app_assoc. reflexivity. }
  rewrite !Hurl. split.
  - exact (_get_package_file_url_concrete env st self p m v ".pom" Hp Hm Hv Hc).
  - intros Hcache Hex. exact (descriptor_fetch env st self p m v Hp Hm Hv Hc Hcache Hex).
Qed.

Lemma descriptor_url_of_core :
  _get_package_file_url (Fixtures.table_env []) 2 ".pom" Scenarios.core_state
  = (Ret "https://repo.example/org/example/core/1.0.0/core-1.0.0.pom", Scenarios.core_state)
  /\ requests (_get_pom (Fixtures.table_env []) 2 Scenarios.core_state).2
     = ["https://repo.example/org/example/core/1.0.0/core-1.0.0.pom"].
Proof.
  destruct (descriptor_url_has_artifact_directory (Fixtures.table_env [])
              Scenarios.core_state 2 Scenarios.core_pkg Scenarios.core_meta "1.0.0")
    as [Hurl Hfetch]; try reflexivity.
  split; [exact Hurl | apply Hfetch; reflexivity].
Defined.

(** C9, counterexample to the claim as stated: the descriptor of
    [org.example:core:1.0.0] is requested under [.../org/example/core/1.0.0/],
    not under [.../org/example/1.0.0/]. *)
Lemma descriptor_url_is_not_the_stated_one :
  requests (_get_pom (Fixtures.table_env []) 2 Scenarios.core_state).2
  = ["https://repo.example/org/example/core/1.0.0/core-1.0.0.pom"] /\
  spec_descriptor_url Fixtures.repo_url "org.example" "core" "1.0.0"
  = "https://repo.example/org/example/1.0.0/core-1.0.0.pom" /\
  "https://repo.example/org/example/core/1.0.0/core-1.0.0.pom"
  <> spec_descriptor_url Fixtures.repo_url "org.example" "core" "1.0.0".
Proof. split; [|split]; [vm_compute; reflexivity | reflexivity | vm_compute; discriminate]. Qed.

(** ** [asDependencyPackage] *)

(** C10: on every live receiver and for every [optional] and [scope],
    [asDependencyPackage] evaluates to [None]; the dependency package it
    built and populated stays behind in the heap, at a location that the
    caller is not given. *)
Theorem asDependencyPackage_returns_None st self optional scope p :
  pkgs st !! self = Some p ->
  exists st',
    asDependencyPackage self optional scope st = (Ret PyNone, st') /\
    pkgs st' !! next_loc st
    = Some (mkPkg (_version p) (meta p) "" (version_is_symbolic (_version p))
              (Some (Some scope, optional))).
Proof.
  intros Hp. eexists. unfold asDependencyPackage.
  rewrite (bind_Ret _ _ _ _ _ (get_pkg_run _ _ _ Hp)).
  unfold MavenDependencyPackage__init__, MavenPackage__init__, set_scope, set_optional,
    set_dep_attrs, fresh_loc, put_pkg, get_pkg, modify, bind, ret.
  cbn [pkgs with_pkgs with_next_loc next_loc].
  repeat (rewrite lookup_insert_eq; cbn [pkgs with_pkgs with_next_loc next_loc
            _version meta _pom_cache _version_is_unsure dep_attrs]).
  split; [reflexivity|].
  cbn [pkgs with_pkgs with_next_loc next_loc]. rewrite lookup_insert_eq. reflexivity.
Qed.

Lemma asDependencyPackage_of_core :
  exists st',
    asDependencyPackage 2 true "test" Scenarios.core_state
    = (Ret PyNone, st') /\
    pkgs st' !! 4%nat
    = Some (mkPkg (Some "1.0.0") 3 "" false (Some (Some "test", true))).
Proof.
  apply (asDependencyPackage_returns_None Scenarios.core_state 2 true "test"
           Scenarios.core_pkg).
  reflexivity.
Defined.

(** ** [cache_jar] *)

Lemma ancestors_head d :
  d <> "" -> exists rest, ancestors (String.length d) d = d :: rest.
Proof.
  intros Hd. destruct d as [|c d]; [done|].
  cbn [String.length ancestors]. destruct (String.eqb_spec (String c d) ""); [done|].
  by eexists.
Qed.

Lemma makedirs_run d st :
  d <> "" ->
  existsb (is_file st) (ancestors (String.length d) d) = false ->
  makedirs d st
  = (Ret tt, with_dirs (list_to_set (ancestors (String.length d) d) ∪ dirs st) st).
Proof.
  intros Hd Hfree. unfold makedirs. rewrite Hfree.
  destruct (String.eqb_spec d ""); [done|].
  destruct (ancestors_head d Hd) as [rest Hrest]. rewrite Hrest in Hfree.
  cbn [existsb] in Hfree. apply orb_false_iff in Hfree as [-> _]. reflexivity.
Qed.

Lemma makedirs_inv d st st' :
  makedirs d st = (Ret tt, st') ->
  st' = with_dirs (list_to_set (ancestors (String.length d) d) ∪ dirs st) st /\ d <> "" /\
  existsb (is_file st) (ancestors (String.length d) d) = false.
Proof.
  unfold makedirs. destruct (String.eqb_spec d ""); [discriminate|].
  destruct (is_file st d); [discriminate|].
  destruct (existsb _ _); [discriminate|]. by intros [= <-].
Qed.

Lemma makedirs_creates d st st' :
  makedirs d st = (Ret tt, st') -> is_dir st' d = true /\ is_file st' d = false.
Proof.
  intros H. apply makedirs_inv in H as (-> & Hd & Hfree).
  destruct (ancestors_head d Hd) as [rest Hrest]. rewrite Hrest in *.
  cbn [existsb] in Hfree. apply orb_false_iff in Hfree as [Hfile _].
  split; [|exact Hfile].
  unfold is_dir. cbn [dirs with_dirs]. apply bool_decide_eq_true_2. set_solver.
Qed.

Lemma write_file_run p content st :
  p <> "" ->
  is_dir st p = false ->
  is_file st (os_path_dirname p) = false ->
  os_path_dirname p = "" \/ is_dir st (os_path_dirname p) = true ->
  write_file p content st = (Ret tt, with_files (<[p := content]> (files st)) st).
Proof.
  intros Hp Hdir Hparent Hthere. unfold write_file. cbv zeta.
  destruct (String.eqb_spec p ""); [done|]. rewrite Hdir, Hparent.
  destruct Hthere as [-> | ->]; [reflexivity|].
  by rewrite andb_false_r.
Qed.

Lemma write_file_inv p content st st' :
  write_file p content st = (Ret tt, st') ->
  st' = with_files (<[p := content]> (files st)) st.
Proof.
  unfold write_file. cbv zeta.
  repeat match goal with
         | |- context [if ?b then _ else _] => destruct b
         end; try discriminate; by intros [= <-].
Qed.
























Section CacheJar.
Variable env : Env.
Variables (st : state) (self : nat) (p : PkgObj) (m : MetaObj) (v postfix : string).
Hypothesis Hp : pkgs st !! self = Some p.
Hypothesis Hm : metas st !! meta p = Some m.
Hypothesis Hv : _version p = Some v.
Hypothesis Hc : is_concrete_version v = true.

Let path := get_jar_cache_path (env_cwd env) (groupId m) (artifactId m) v postfix.
Let url := _base_url m ++ "/" ++ v ++ "/" ++ artifactId m ++ "-" ++ v ++ postfix ++ ".jar".
Let dir := os_path_dirname path.

Lemma cache_jar_steps (b : bool) :
  os_path_exists path st = (Ret b, st) ->
  cache_jar env self postfix st
  = if negb b then
      match fetch_file env url st with
      | (Raise (HTTPError _), st') => (Ret false, st')
      | (Ret data, st') =>
          (makedirs (os_path_dirname path) ;;
           write_file path data ;;
           ret true)%py st'
      | (Raise e, st') => (Raise e, st')
      | (Diverge, st') => (Diverge, st')
      end
    else (Ret true, st).
Proof.
  intros Hex. unfold cache_jar.
  rewrite (bind_Ret _ _ _ _ _ (get_pkg_run _ _ _ Hp)).
  rewrite (bind_Ret _ _ _ _ _ (get_meta_run _ _ _ Hm)).
  rewrite (bind_Ret _ _ _ _ _ (_get_version_concrete env _ _ _ _ Hp Hv Hc)).
  rewrite (bind_Ret _ _ st v st) by reflexivity.
  rewrite (bind_Ret _ _ _ _ _ Hex).
  destruct b; cbn [negb]; [reflexivity|].
  rewrite (bind_Ret _ _ _ _ _
             (_get_package_file_url_concrete env _ _ _ _ _ (postfix ++ ".jar") Hp Hm Hv Hc)).
  reflexivity.
Qed.

Lemma cache_jar_cached :
  os_path_exists path st = (Ret true, st) ->
  cache_jar env self postfix st = (Ret true, st).
Proof. intros Hex. by rewrite (cache_jar_steps true Hex). Qed.


End CacheJar.

Lemma os_path_exists_run path st :
  os_path_exists path st
  = (Ret (bool_decide (is_Some (files st !! path)) || bool_decide (path ∈ dirs st)), st).
Proof. reflexivity. Qed.

(** What a call that returned [True] leaves: the cache path exists, the
    heap is as it was. *)
Lemma cache_jar_true_cached env st self p m v postfix st1 :
  pkgs st !! self = Some p ->
  metas st !! meta p = Some m ->
  _version p = Some v ->
  is_concrete_version v = true ->
  cache_jar env self postfix st = (Ret true, st1) ->
  os_path_exists (get_jar_cache_path (env_cwd env) (groupId m) (artifactId m) v postfix) st1
    = (Ret true, st1) /\
  pkgs st1 = pkgs st /\ metas st1 = metas st.
Proof.
  intros Hp Hm Hv Hc Hfirst.
  set (path := get_jar_cache_path (env_cwd env) (groupId m) (artifactId m) v postfix) in *.
  pose proof (os_path_exists_run path st) as Hex.
  destruct (bool_decide (is_Some (files st !! path)) || bool_decide (path ∈ dirs st)).
  - rewrite (cache_jar_cached env st self p m v postfix Hp Hm Hv Hc Hex) in Hfirst.
    by injection Hfirst as <-.
  - rewrite (cache_jar_steps env st self p m v postfix Hp Hm Hv Hc false Hex) in Hfirst.
    cbn [negb] in Hfirst. unfold fetch_file, bind at 1, modify in Hfirst.
    destruct (remote env _) as [data|code|]; try discriminate.
    unfold ret at 1 in Hfirst.
    apply bind_inv in Hfirst as ([] & sa & Hmake & Hfirst).
    apply bind_inv in Hfirst as ([] & sb & Hwrite & Hfirst).
    unfold ret in Hfirst. injection Hfirst as <-.
    apply makedirs_inv in Hmake as (-> & _ & _).
    apply write_file_inv in Hwrite as ->.
    split; [|done]. rewrite os_path_exists_run.
    cbn [files with_files with_dirs with_requests]. fold path.
    by rewrite lookup_insert_eq.
Qed.




(** A cached jar in the place of a directory: after [cache_jar("")] the
    call [cache_jar(".jar/y")] needs the directory [.../core-1.0.0.jar],
    which is the file just written, and [makedirs] raises. *)
Example cache_jar_below_a_cached_jar :
  (bind (cache_jar Examples.nested_jar_env 2 "")
        (fun _ => cache_jar Examples.nested_jar_env 2 ".jar/y") Scenarios.core_state).1
  = Raise FileExistsError.
Proof. vm_compute. reflexivity. Qed.

(** ** [get_dependencies] *)

Lemma child_text_inv name dep st t st1 :
  child_text name dep st = (Ret t, st1) ->
  st1 = st /\ elem_text <$> find_child name dep = Some t.
Proof.
  unfold child_text. destruct (find_child name dep); [|discriminate].
  unfold ret. by intros [= <- <-].
Qed.

Lemma substitute_inv fuel properties t st s st1 :
  substitute fuel properties t st = (Ret s, st1) ->
  st1 = st /\ exists text, t = Some text /\ parse_property_value fuel properties text = Ret s.
Proof.
  unfold substitute, require_str. destruct t as [text|]; [|discriminate].
  unfold bind, ret, lift. destruct (parse_property_value fuel properties text) eqn:Hp;
    try discriminate.
  intros [= <- <-]. eauto.
Qed.








Lemma get_pkg_inv l st p st1 :
  get_pkg l st = (Ret p, st1) -> st1 = st /\ pkgs st !! l = Some p.
Proof. unfold get_pkg. destruct (pkgs st !! l); [|discriminate]. by intros [= <- <-]. Qed.

Lemma get_meta_inv l st m st1 :
  get_meta l st = (Ret m, st1) -> st1 = st /\ metas st !! l = Some m.
Proof. unfold get_meta. destruct (metas st !! l); [|discriminate]. by intros [= <- <-]. Qed.

Lemma lift_inv {A} (o : outcome A) st a st1 :
  lift o st = (Ret a, st1) -> st1 = st /\ o = Ret a.
Proof. unfold lift. by intros [= -> <-]. Qed.

Lemma _get_version_stored env self st v st1 :
  _get_version env self st = (Ret v, st1) ->
  exists p, pkgs st1 !! self = Some p /\ _version p = v.
Proof.
  unfold _get_version. intros H.
  apply bind_inv in H as (p0 & st2 & _ & H).
  apply bind_inv in H as ([] & st3 & _ & H).
  apply bind_inv in H as (p1 & st4 & _ & H).
  apply bind_inv in H as ([] & st5 & _ & H).
  apply bind_inv in H as (p & st6 & Hp & H).
  apply get_pkg_inv in Hp as [-> Hp]. unfold ret in H. injection H as <- <-.
  by exists p.
Qed.









(** The scenario of section 8: the parent is requested at ["release"] and
    resolved to 1.0.0; the dependency of its own group inherits 1.0.0,
    the one of another group gets ["release"], the explicit version is
    substituted. *)
Example core_dependency_coordinates :
  (bind (get_dependencies Scenarios.example_env 5 2) Scenarios.coordinates
     Scenarios.release_state).1
  = Ret [("org.example", "org.example.utils", Some "1.0.0");
         ("junit", "junit", Some "release");
         ("org.other", "lib", Some "2.5")].
Proof. vm_compute. reflexivity. Qed.

(** ** The dependency walk *)

Lemma bind_Diverge {A B} (c : M A) (k : A -> M B) st :
  (c st).1 = Diverge -> (bind c k st).1 = Diverge.
Proof. unfold bind. destruct (c st) as [[a| |] st']; cbn; congruence. Qed.

Lemma bind_assoc {A B C} (c : M A) (k1 : A -> M B) (k2 : B -> M C) st :
  bind (bind c k1) k2 st = bind c (fun a => bind (k1 a) k2) st.
Proof. unfold bind. destruct (c st) as [[a| |] st']; reflexivity. Qed.

Lemma substitute_plain fuel properties text st :
  PyStr.find text "${" < 0 ->
  substitute fuel properties (Some text) st = (Ret text, st).
Proof.
  intros H. unfold substitute, require_str.
  rewrite (bind_Ret _ _ st text st) by reflexivity.
  unfold lift, parse_property_value. by rewrite parse_property_loop_exit.
Qed.

Lemma get_set_run st l entries : sets st !! l = Some entries -> get_set l st = (Ret entries, st).
Proof. unfold get_set. by intros ->. Qed.

Section CycleWalk.
Import Fixtures Scenarios Cycle.

Lemma other_member a : is_member a -> is_member (other a).
Proof. intros [->| ->]; [right | left]; reflexivity. Qed.

Lemma cyc_remote a : is_member a -> remote cycle_env (cyc_url a) = Body (cyc_url a).
Proof. intros [->| ->]; reflexivity. Qed.

Lemma cyc_parse a : is_member a -> ET_fromstring cycle_env (cyc_url a) = Some (cyc_root a).
Proof. intros [->| ->]; reflexivity. Qed.

Lemma cyc_url_nonempty a : (0 <? PyStr.len (cyc_url a)) = true.
Proof.
  unfold cyc_url. rewrite len_app. pose proof (len_nonneg (a ++ "/1.0.0/" ++ a ++ "-1.0.0.pom")).
  apply Z.ltb_lt. unfold PyStr.len at 1. simpl String.length. lia.
Qed.

Lemma cyc_path_inj a b : is_member a -> is_member b -> cyc_path a = cyc_path b -> a = b.
Proof. intros [->| ->] [->| ->]; vm_compute; congruence. Qed.

Lemma cyc_path_not_ancestor a b :
  is_member a -> is_member b ->
  cyc_path b ∉ ancestors (String.length (os_path_dirname (cyc_path a)))
                 (os_path_dirname (cyc_path a)).
Proof.
  intros [->| ->] [->| ->]; vm_compute; intros H;
    repeat (apply elem_of_cons in H as [H|H]; [discriminate|]);
    by apply elem_of_nil in H.
Qed.

Lemma cyc_url_text a :
  is_member a ->
  PyStr.valid_utf8 (cyc_url a) = true /\ PyStr.universal_newlines (cyc_url a) = cyc_url a.
Proof. intros [->| ->]; split; reflexivity. Qed.

Lemma cyc_path_file a st :
  is_member a -> files_ok st ->
  files st !! cyc_path a = None \/ files st !! cyc_path a = Some (cyc_url a).
Proof.
  intros Ha [Hfiles _]. destruct (files st !! cyc_path a) as [c|] eqn:Hc; [right|by left].
  destruct (Hfiles _ _ Hc) as (b & Hb & Heq & ->).
  by rewrite (cyc_path_inj a b Ha Hb Heq).
Qed.

Lemma cyc_makedirs a st :
  is_member a -> files_ok st ->
  existsb (is_file st) (ancestors (String.length (os_path_dirname (cyc_path a)))
                          (os_path_dirname (cyc_path a))) = false.
Proof.
  intros Ha [Hfiles _]. apply not_true_is_false. intros Hex.
  apply existsb_exists in Hex as (q & Hin & Hq). apply list_elem_of_In in Hin.
  apply bool_decide_eq_true_1 in Hq as [c Hc].
  destruct (Hfiles _ _ Hc) as (b & Hb & -> & _).
  by apply (cyc_path_not_ancestor a b Ha Hb).
Qed.

Lemma cyc_get_pom a st pkg p :
  is_member a ->
  pkgs st !! pkg = Some p ->
  _version p = Some "1.0.0" ->
  _pom_cache p = "" ->
  metas st !! meta p = Some (cyc_meta a) ->
  files_ok st ->
  exists st1,
    _get_pom cycle_env pkg st = (Ret (cyc_root a), st1) /\
    pkgs st1 = <[pkg := mkPkg (_version p) (meta p) (cyc_url a) (_version_is_unsure p) (dep_attrs p)]> (pkgs st) /\
    metas st1 = metas st /\ sets st1 = sets st /\ next_loc st1 = next_loc st /\
    files_ok st1.
Proof.
  intros Ha Hp Hv Hcache Hm Hfiles. unfold _get_pom.
  rewrite (bind_Ret _ _ _ _ _ (get_pkg_run _ _ _ Hp)).
  rewrite (bind_Ret _ _ _ _ _ (get_meta_run _ _ _ Hm)).
  rewrite (bind_Ret _ _ _ _ _ (_get_version_concrete cycle_env _ _ _ "1.0.0" Hp Hv eq_refl)).
  rewrite (bind_Ret _ _ st "1.0.0" st) by reflexivity.
  rewrite (bind_Ret _ _ _ _ _ (get_pkg_run _ _ _ Hp)).
  rewrite Hcache. change (0 <? PyStr.len "") with false. cbv iota.
  change (get_pom_cache_path (env_cwd cycle_env) (groupId (cyc_meta a)) (artifactId (cyc_meta a)) "1.0.0")
    with (cyc_path a).
  pose proof (proj2 Hfiles a Ha) as Hdir.
  pose proof (cyc_path_file a st Ha Hfiles) as Hfile.
  destruct (cyc_url_text a Ha) as [Hvalid Hnewlines].
  rewrite bind_assoc.
  rewrite (bind_Ret _ _ _ _ _ (os_path_exists_run _ _)).
  rewrite (bool_decide_eq_false_2 _ Hdir), orb_false_r.
  destruct Hfile as [Hfile|Hfile]; rewrite Hfile.
  - (* fetched *)
    rewrite bool_decide_eq_false_2 by (intros [? ?]; discriminate).
    rewrite bind_assoc.
    rewrite (bind_Ret _ _ _ _ _
               (_get_package_file_url_concrete cycle_env _ _ _ _ "1.0.0" ".pom" Hp Hm Hv eq_refl)).
    change (_base_url (cyc_meta a) ++ "/" ++ "1.0.0" ++ "/" ++ artifactId (cyc_meta a) ++ "-" ++ "1.0.0" ++ ".pom")
      with (get_package_page_url repo_url "org.example" a ++ "/1.0.0/" ++ a ++ "-1.0.0.pom").
    assert (get_package_page_url repo_url "org.example" a ++ "/1.0.0/" ++ a ++ "-1.0.0.pom"
            = cyc_url a) as -> by (destruct Ha as [->| ->]; reflexivity).
    rewrite bind_assoc. unfold fetch_url at 1. rewrite bind_assoc.
    unfold bind at 1. unfold modify at 1. rewrite (cyc_remote a Ha).
    unfold decode_utf8. rewrite Hvalid.
    rewrite (bind_Ret _ _ _ (cyc_url a) _) by reflexivity.
    rewrite cyc_url_nonempty.
    set (st0 := with_requests (requests st ++ [cyc_url a]) st).
    rewrite !bind_assoc.
    assert (set_pom_cache pkg (cyc_url a) st0
            = (Ret tt, with_pkgs (<[pkg := mkPkg (_version p) (meta p) (cyc_url a)
                                            (_version_is_unsure p) (dep_attrs p)]> (pkgs st0))
                         st0)) as Hset.
    { unfold set_pom_cache, put_pkg, modify, get_pkg, bind. cbn [pkgs st0 with_requests].
      by rewrite Hp. }
    rewrite (bind_Ret _ _ _ _ _ Hset). clear Hset.
    set (st1 := with_pkgs _ st0).
    set (dir := os_path_dirname (cyc_path a)).
    assert (dir <> "") as Hdirne by (destruct Ha as [->| ->]; vm_compute; discriminate).
    pose proof (makedirs_run dir st1 Hdirne (cyc_makedirs a st Ha Hfiles)) as Hmake.
    rewrite !bind_assoc, (bind_Ret _ _ _ _ _ Hmake).
    destruct (makedirs_creates _ _ _ Hmake) as [Hisdir Hnofile].
    set (st2 := with_dirs _ st1) in *.
    assert (is_dir st2 (cyc_path a) = false) as Hnd.
    { apply bool_decide_eq_false_2. unfold st2. cbn [dirs with_dirs].
      intros Hin. apply elem_of_union in Hin as [Hin|Hin]; [|done].
      apply elem_of_list_to_set in Hin. by apply (cyc_path_not_ancestor a a). }
    assert (cyc_path a <> "") as Hpathne by (destruct Ha as [->| ->]; vm_compute; discriminate).
    rewrite (bind_Ret _ _ _ tt _
               (write_file_run (cyc_path a) (cyc_url a) st2 Hpathne Hnd Hnofile
                  (or_intror Hisdir))).
    unfold get_pkg, parse_document, bind, ret.
    cbn [pkgs st2 st1 with_requests with_pkgs with_dirs with_files].
    rewrite lookup_insert_eq. cbn [_pom_cache]. rewrite (cyc_parse a Ha).
    eexists. split; [reflexivity|]. do 4 (split; [reflexivity|]).
    split.
    + cbn [files with_files with_dirs with_pkgs with_requests]. intros q c Hq.
      destruct (decide (cyc_path a = q)) as [<-|Hne].
      * rewrite lookup_insert_eq in Hq. injection Hq as <-. by exists a.
      * rewrite lookup_insert_ne in Hq by done. by apply (proj1 Hfiles).
    + intros b Hb. cbn [dirs with_files with_dirs with_pkgs with_requests].
      intros Hin. apply elem_of_union in Hin as [Hin|Hin].
      * apply elem_of_list_to_set in Hin. by apply (cyc_path_not_ancestor a b).
      * by apply (proj2 Hfiles b).
  - (* read from the disk cache *)
    rewrite bool_decide_eq_true_2 by eauto. cbn [orb].
    unfold read_file, decode_utf8, set_pom_cache, put_pkg, modify, get_pkg, parse_document,
      bind, ret.
    rewrite Hfile, Hvalid, Hnewlines. rewrite Hp. cbn [pkgs with_pkgs _pom_cache].
    rewrite lookup_insert_eq. cbn [_pom_cache]. rewrite (cyc_parse a Ha).
    eexists. split; [reflexivity|]. do 4 (split; [reflexivity|]). exact Hfiles.
Qed.

Lemma cyc_make_dependency fuel properties b st :
  is_member b ->
  exists st',
    make_dependency fuel properties "org.example" (Some "1.0.0") repo_url (cyc_entry b) st
    = (Ret (S (next_loc st)), st') /\
    pkgs st' = <[S (next_loc st) := mkPkg (Some "1.0.0") (next_loc st) "" false
                                     (Some (Some "compile", false))]> (pkgs st) /\
    metas st' = <[next_loc st := cyc_meta b]> (metas st) /\
    sets st' = sets st /\ next_loc st' = S (S (next_loc st)) /\
    files st' = files st /\ dirs st' = dirs st.
Proof.
  intros Hb. unfold make_dependency.
  rewrite (bind_Ret _ _ st (Some "org.example") st) by reflexivity.
  rewrite (bind_Ret _ _ _ _ _ (substitute_plain fuel properties "org.example" st eq_refl)).
  rewrite (bind_Ret _ _ st (Some b) st) by reflexivity.
  rewrite (bind_Ret _ _ st b st)
    by (apply substitute_plain; destruct Hb as [->| ->]; reflexivity).
  change (find_child "version" (cyc_entry b)) with (@None Element).
  change (String.eqb "org.example" "org.example") with true. cbv iota.
  rewrite (bind_Ret _ _ st (Some "1.0.0") st) by reflexivity.
  change (find_child "scope" (cyc_entry b)) with (@None Element).
  change (find_child "optional" (cyc_entry b)) with (@None Element).
  unfold MavenPackageMeta__init__, MavenDependencyPackage__init__, MavenPackage__init__,
    set_scope, set_optional, set_dep_attrs, fresh_loc, put_pkg, put_meta, get_pkg, modify,
    bind, ret.
  cbn [pkgs metas with_pkgs with_metas with_next_loc next_loc].
  repeat (rewrite lookup_insert_eq;
          cbn [pkgs metas with_pkgs with_metas with_next_loc next_loc
                 _version meta _pom_cache _version_is_unsure dep_attrs]).
  eexists. split; [reflexivity|].
  cbn [pkgs metas sets files dirs with_pkgs with_metas with_next_loc next_loc].
  rewrite !insert_insert_eq.
  repeat split.
Qed.

Lemma cyc_get_dependencies fuel a st pkg p :
  is_member a ->
  pkgs st !! pkg = Some p ->
  _version p = Some "1.0.0" ->
  _pom_cache p = "" ->
  metas st !! meta p = Some (cyc_meta a) ->
  files_ok st ->
  exists st2,
    get_dependencies cycle_env fuel pkg st = (Ret [S (next_loc st)], st2) /\
    pkgs st2 = <[S (next_loc st) := mkPkg (Some "1.0.0") (next_loc st) "" false
                                     (Some (Some "compile", false))]>
                 (<[pkg := mkPkg (_version p) (meta p) (cyc_url a) (_version_is_unsure p)
                             (dep_attrs p)]> (pkgs st)) /\
    metas st2 = <[next_loc st := cyc_meta (other a)]> (metas st) /\
    sets st2 = sets st /\ next_loc st2 = S (S (next_loc st)) /\
    files_ok st2.
Proof.
  intros Ha Hp Hv Hcache Hm Hfiles.
  destruct (cyc_get_pom a st pkg p Ha Hp Hv Hcache Hm Hfiles)
    as (st1 & Hpom & Hpkgs1 & Hmetas1 & Hsets1 & Hnext1 & Hfiles1).
  unfold get_dependencies.
  rewrite (bind_Ret _ _ _ _ _ Hpom).
  erewrite (bind_Ret _ _ st1); [|apply get_pkg_run; rewrite Hpkgs1; apply lookup_insert_eq].
  cbn [meta _version].
  erewrite (bind_Ret _ _ st1); [|apply get_meta_run; rewrite Hmetas1; exact Hm].
  assert (exists properties,
            property_table (mkPkg (_version p) (meta p) (cyc_url a) (_version_is_unsure p)
                              (dep_attrs p)) (cyc_meta a) (cyc_root a) = Ret properties)
    as [properties Hprops] by (eexists; reflexivity).
  rewrite Hprops. rewrite (bind_Ret _ _ st1 properties st1) by reflexivity.
  change (iterfind_dependency_entries (cyc_root a)) with [cyc_entry (other a)].
  rewrite Hv. cbn [groupId repo cyc_meta make_dependencies].
  destruct (cyc_make_dependency fuel properties (other a) st1 (other_member a Ha))
    as (st2 & Hrun & Hpkgs2 & Hmetas2 & Hsets2 & Hnext2 & Hf2 & Hd2).
  rewrite (bind_Ret _ _ _ _ _ Hrun).
  rewrite (bind_Ret _ _ st2 [] st2) by reflexivity.
  exists st2. rewrite Hnext1 in *. split; [reflexivity|].
  split; [by rewrite Hpkgs2, Hpkgs1, Hv|]. split; [by rewrite Hmetas2, Hmetas1|].
  split; [by rewrite Hsets2|]. split; [exact Hnext2|].
  destruct Hfiles1 as [Hcached Hnodir]. split.
  - intros q c. rewrite Hf2. apply Hcached.
  - intros b Hb. rewrite Hd2. by apply Hnodir.
Qed.

Lemma cyc_hash st k :
  pkg_ok st k -> exists h, MavenPackage__hash__ cycle_env k st = (Ret h, st).
Proof.
  intros (_ & pk & b & Hpk & Hv & _ & Hm & _). unfold MavenPackage__hash__.
  rewrite (bind_Ret _ _ _ _ _ (get_pkg_run _ _ _ Hpk)).
  rewrite (bind_Ret _ _ _ _ _ (get_meta_run _ _ _ Hm)).
  rewrite (bind_Ret _ _ _ _ _ (_get_version_concrete cycle_env _ _ _ "1.0.0" Hpk Hv eq_refl)).
  eexists. reflexivity.
Qed.

Lemma cyc_eq_false st x y :
  pkg_ok st x -> pkg_ok st y -> MavenPackage__eq__ cycle_env x (PyPkg y) st = (Ret false, st).
Proof.
  intros (_ & px & bx & Hpx & _ & _ & Hmx & Hbx) (_ & py & by_ & Hpy & _ & _ & Hmy & _).
  unfold MavenPackage__eq__.
  rewrite (bind_Ret _ _ _ _ _ (get_pkg_run _ _ _ Hpx)).
  rewrite (bind_Ret _ _ _ _ _ (get_pkg_run _ _ _ Hpy)).
  unfold meta_equals.
  rewrite bind_assoc, (bind_Ret _ _ _ _ _ (get_meta_run _ _ _ Hmx)).
  rewrite bind_assoc, (bind_Ret _ _ _ _ _ (get_meta_run _ _ _ Hmy)).
  assert (MavenPackageMeta__eq__ (cyc_meta bx) (cyc_meta by_) = false) as ->
    by (destruct Hbx as [->| ->]; reflexivity).
  reflexivity.
Qed.

Lemma cyc_pkg_equals st x y :
  pkg_ok st x -> pkg_ok st y -> pkg_equals cycle_env x y st = (Ret false, st).
Proof.
  intros Hx Hy. unfold pkg_equals, is_dependency_package.
  destruct Hx as (Hx1 & px & bx & Hpx & Hx2). destruct Hy as (Hy1 & py & by_ & Hpy & Hy2).
  rewrite bind_assoc, (bind_Ret _ _ _ _ _ (get_pkg_run _ _ _ Hpx)).
  rewrite (bind_Ret _ _ st _ st) by reflexivity.
  rewrite bind_assoc, (bind_Ret _ _ _ _ _ (get_pkg_run _ _ _ Hpy)).
  rewrite (bind_Ret _ _ st _ st) by reflexivity.
  destruct (negb _ && _); apply cyc_eq_false; (split; [done|]); eauto.
Qed.

Lemma cyc_set_lookup st entries h key :
  pkg_ok st key ->
  Forall (fun e => e.2 <> key /\ pkg_ok st e.2) entries ->
  set_lookup cycle_env entries h key st = (Ret false, st).
Proof.
  intros Hkey. induction 1 as [|[h' k'] entries [Hne Hok] _ IH]; [reflexivity|].
  cbn [set_lookup]. cbn [snd] in *.
  destruct (h' =? h)%Z; [|exact IH].
  destruct (Nat.eqb_spec k' key) as [?|_]; [done|].
  rewrite (bind_Ret _ _ _ _ _ (cyc_pkg_equals _ _ _ Hok Hkey)). exact IH.
Qed.

Lemma cyc_set_contains st s entries key :
  pkg_ok st key ->
  sets st !! s = Some entries ->
  Forall (fun e => e.2 <> key /\ pkg_ok st e.2) entries ->
  set_contains cycle_env s key st = (Ret false, st).
Proof.
  intros Hkey Hs Hall. unfold set_contains.
  destruct (cyc_hash st key Hkey) as [h Hh].
  rewrite (bind_Ret _ _ _ _ _ Hh), (bind_Ret _ _ _ _ _ (get_set_run _ _ _ Hs)).
  by apply cyc_set_lookup.
Qed.

Lemma cyc_set_add st s entries key :
  pkg_ok st key ->
  sets st !! s = Some entries ->
  Forall (fun e => e.2 <> key /\ pkg_ok st e.2) entries ->
  exists h,
    set_add cycle_env s key st
    = (Ret tt, with_sets (<[s := (entries ++ [(h, key)])%list]> (sets st)) st).
Proof.
  intros Hkey Hs Hall. unfold set_add.
  destruct (cyc_hash st key Hkey) as [h Hh]. exists h.
  rewrite (bind_Ret _ _ _ _ _ Hh), (bind_Ret _ _ _ _ _ (get_set_run _ _ _ Hs)).
  rewrite (bind_Ret _ _ _ _ _ (cyc_set_lookup _ _ h _ Hkey Hall)).
  reflexivity.
Qed.

(** [pkg_ok] only looks at the packages, the metadata objects and the
    allocation counter. *)
Lemma pkg_ok_ext st st' k :
  pkgs st' = pkgs st -> metas st' = metas st -> next_loc st' = next_loc st ->
  pkg_ok st k -> pkg_ok st' k.
Proof. unfold pkg_ok. by intros -> -> ->. Qed.

Ltac step H := rewrite ?bind_assoc; rewrite (bind_Ret _ _ _ _ _ H).

Lemma dump_cycle_diverges fuel : forall st pkg p a indent processed,
  is_member a ->
  pkgs st !! pkg = Some p ->
  _version p = Some "1.0.0" ->
  _pom_cache p = "" ->
  (pkg < next_loc st)%nat ->
  (meta p < next_loc st)%nat ->
  metas st !! meta p = Some (cyc_meta a) ->
  files_ok st ->
  set_ok st processed ->
  set_ok st dump_dependencies_default_processed ->
  (dump_dependencies cycle_env fuel pkg indent processed st).1 = Diverge.
Proof.
  induction fuel as [|fuel IH];
    intros st pkg p a indent processed Ha Hp Hv Hcache Hlt Hmlt Hm Hfiles Hset Hdef;
    [reflexivity|].
  cbn [dump_dependencies].
  destruct (cyc_get_dependencies fuel a st pkg p Ha Hp Hv Hcache Hm Hfiles)
    as (st2 & Hdeps & Hpkgs2 & Hmetas2 & Hsets2 & Hnext2 & Hfiles2).
  rewrite (bind_Ret _ _ _ _ _ Hdeps). cbn [for_each].
  set (dep := S (next_loc st)) in *.
  set (d := mkPkg (Some "1.0.0") (next_loc st) "" false (Some (Some "compile", false))) in *.
  assert (pkgs st2 !! dep = Some d) as Hd by (rewrite Hpkgs2; apply lookup_insert_eq).
  assert (metas st2 !! next_loc st = Some (cyc_meta (other a))) as Hdm
    by (rewrite Hmetas2; apply lookup_insert_eq).
  assert (pkg_ok st2 dep) as Hdep_ok.
  { split; [rewrite Hnext2; unfold dep; lia|].
    exists d, (other a). split; [exact Hd|]. split; [reflexivity|].
    split; [rewrite Hnext2; cbn; lia|]. split; [exact Hdm | by apply other_member]. }
  assert (forall k, pkg_ok st k -> k <> dep /\ pkg_ok st2 k) as Hframe.
  { intros k (Hk & pk & b & Hpk & Hpv & Hpm & Hpmeta & Hb).
    split; [unfold dep; lia|]. split; [rewrite Hnext2; lia|].
    destruct (decide (k = pkg)) as [->|Hne].
    - rewrite Hp in Hpk. injection Hpk as <-.
      eexists _, b. split.
      { rewrite Hpkgs2, lookup_insert_ne by (unfold dep; lia). apply lookup_insert_eq. }
      cbn [_version meta]. split; [exact Hv|]. split; [rewrite Hnext2; lia|].
      split; [|exact Hb]. rewrite Hmetas2, lookup_insert_ne by lia. exact Hpmeta.
    - exists pk, b. split.
      { rewrite Hpkgs2, !lookup_insert_ne by (unfold dep; lia || done). exact Hpk. }
      split; [exact Hpv|]. split; [rewrite Hnext2; lia|].
      split; [|exact Hb]. rewrite Hmetas2, lookup_insert_ne by lia. exact Hpmeta. }
  assert (forall s, set_ok st s ->
            exists entries, sets st2 !! s = Some entries /\
                            Forall (fun e => e.2 <> dep /\ pkg_ok st2 e.2) entries) as Hsets.
  { intros s (entries & Hs & Hall). exists entries. split; [by rewrite Hsets2|].
    eapply Forall_impl; [exact Hall|]. intros e He. by apply Hframe. }
  destruct (Hsets processed Hset) as (entries & Hentries & Hall).
  (* the condition of the [if] *)
  assert (scope dep st2 = (Ret (Some "compile"), st2)) as Hscope
    by (unfold scope; rewrite (bind_Ret _ _ _ _ _ (get_pkg_run _ _ _ Hd)); reflexivity).
  step Hscope.
  rewrite bind_assoc, (bind_Ret _ _ st2 "compile" st2) by reflexivity.
  change (String.eqb (PyStr.lower "compile") "compile") with true. cbv iota.
  assert (optional dep st2 = (Ret false, st2)) as Hopt
    by (unfold optional; rewrite (bind_Ret _ _ _ _ _ (get_pkg_run _ _ _ Hd)); reflexivity).
  step Hopt. cbn [negb].
  step (cyc_set_contains st2 processed entries dep Hdep_ok Hentries Hall). cbn [negb].
  (* the two prints *)
  rewrite bind_assoc. unfold print at 1. unfold bind at 1. unfold modify at 1.
  set (st3 := with_stdout _ st2).
  assert (exists r, MavenPackage__repr__ dep st3 = (Ret r, st3)) as [r Hrepr].
  { unfold MavenPackage__repr__.
    rewrite (bind_Ret _ _ st3 d st3) by (apply get_pkg_run; exact Hd).
    rewrite (bind_Ret _ _ st3 (cyc_meta (other a)) st3) by (apply get_meta_run; exact Hdm).
    eexists. reflexivity. }
  step Hrepr.
  rewrite bind_assoc. unfold print at 1. unfold bind at 1. unfold modify at 1.
  set (st4 := with_stdout _ st3).
  (* the member is added, and the walk descends *)
  destruct (cyc_set_add st4 processed entries dep) as [h Hadd]; [done..|].
  step Hadd.
  set (st5 := with_sets _ st4).
  assert (set_ok st5 dump_dependencies_default_processed) as Hdef5.
  { destruct (decide (processed = dump_dependencies_default_processed)) as [<-|Hne].
    + eexists. split; [apply lookup_insert_eq|].
      apply Forall_app. split.
      * eapply Forall_impl; [exact Hall|]. by intros e [_ He].
      * constructor; [exact Hdep_ok|constructor].
    + destruct (Hsets _ Hdef) as (entries0 & Hentries0 & Hall0).
      exists entries0. split.
      * change (sets st5) with (<[processed := (entries ++ [(h, dep)])%list]> (sets st2)).
        rewrite lookup_insert_ne by done. exact Hentries0.
      * eapply Forall_impl; [exact Hall0|]. by intros e [_ He]. }
  apply bind_Diverge.
  apply (IH st5 dep d (other a)); try done.
  - by apply other_member.
  - change (next_loc st5) with (next_loc st2). rewrite Hnext2. unfold dep. lia.
  - change (next_loc st5) with (next_loc st2). rewrite Hnext2. cbn. lia.
Qed.

Lemma seeded_state_run (walker : nat -> Z -> nat -> M unit) :
  seeded cycle_env walker 2 core_state
  = bind (walker 2%nat 0 4%nat) (fun _ => ret 4%nat) seeded_state.
Proof.
  unfold seeded.
  rewrite (bind_Ret _ _ core_state 4%nat (new_set core_state).2) by reflexivity.
  rewrite (bind_Ret _ _ (new_set core_state).2 tt seeded_state) by (vm_compute; reflexivity).
  reflexivity.
Qed.

Lemma seeded_state_ok :
  pkgs seeded_state !! 2%nat = Some core_pkg /\
  metas seeded_state !! 3%nat = Some (cyc_meta "core") /\
  next_loc seeded_state = 5%nat /\
  files_ok seeded_state /\
  set_ok seeded_state 4 /\
  set_ok seeded_state dump_dependencies_default_processed.
Proof.
  assert (pkg_ok seeded_state 2) as Hroot.
  { split; [vm_compute; lia|]. exists core_pkg, "core".
    split; [reflexivity|]. split; [reflexivity|]. split; [vm_compute; lia|].
    split; [reflexivity | by left]. }
  split; [reflexivity|]. split; [reflexivity|]. split; [reflexivity|]. split; [|split].
  - split.
    + intros q c Hq. change (files seeded_state) with (∅ : gmap string string) in Hq.
      by rewrite lookup_empty in Hq.
    + intros a Ha. change (dirs seeded_state) with (∅ : gset string). set_solver.
  - eexists. split; [vm_compute; reflexivity|]. constructor; [exact Hroot | constructor].
  - exists []. split; [reflexivity | constructor].
Qed.

Lemma dump_never_returns_on_cycle fuel :
  (seeded cycle_env (dump_dependencies cycle_env fuel) 2 core_state).1 = Diverge.
Proof.
  rewrite seeded_state_run. apply bind_Diverge.
  destruct seeded_state_ok as (Hp & Hm & Hn & Hf & Hs & Hd).
  apply (dump_cycle_diverges fuel seeded_state 2 core_pkg "core"); try done.
  - by left.
  - rewrite Hn. lia.
  - rewrite Hn. cbn. lia.
Qed.

End CycleWalk.

(** C1, evaluated on the code.  The recursive call omits [processed], so
    below the first level the walk consults the default set of the
    function and not the set of the caller: [libx], a dependency of both
    [app] and [liba], is dumped under [liba] and again under [app], and
    [walk_dependencies] adds it to both sets.  And because no two
    objects of one coordinate are equal unless the group is also the
    artifact, the walk over [org.example:core] and [org.example:utils],
    which depend on each other, dumps [core] again below [utils] and
    does not return, however deep the recursion is allowed to go. *)
Theorem walk_expands_coordinate_twice :
  (exists depset st',
     Scenarios.seeded Scenarios.shared_env
       (dump_dependencies Scenarios.shared_env 10) 2 Scenarios.app_state
     = (Ret depset, st') /\
     stdout st' = (Scenarios.printed 0 "liba" "liba" "1"
                   ++ Scenarios.printed 1 "libx" "libx" "1"
                   ++ Scenarios.printed 0 "libx" "libx" "1")%list) /\
  (bind (Scenarios.seeded Scenarios.shared_env
           (walk_dependencies Scenarios.shared_env 10) 2) (fun depset =>
    bind (Scenarios.set_coordinates depset) (fun seen =>
    bind (Scenarios.set_coordinates walk_dependencies_default_processed) (fun seen' =>
    ret (seen, seen')))) Scenarios.app_state).1
  = Ret ([("app", "app", Some "1"); ("liba", "liba", Some "1"); ("libx", "libx", Some "1")],
         [("libx", "libx", Some "1")]) /\
  (exists st',
     Scenarios.seeded Scenarios.cycle_env
       (dump_dependencies Scenarios.cycle_env 40) 2 Scenarios.core_state
     = (Diverge, st') /\
     length (stdout st') = 80%nat /\
     firstn 6 (stdout st') = (Scenarios.printed 0 "org.example" "utils" "1.0.0"
                              ++ Scenarios.printed 1 "org.example" "core" "1.0.0"
                              ++ Scenarios.printed 2 "org.example" "utils" "1.0.0")%list) /\
  (forall fuel,
     (Scenarios.seeded Scenarios.cycle_env
        (dump_dependencies Scenarios.cycle_env fuel) 2 Scenarios.core_state).1 = Diverge).
Proof.
  split; [|split; [|split]].
  - eexists _, _. split; vm_compute; reflexivity.
  - vm_compute. reflexivity.
  - eexists. split; [vm_compute; reflexivity|]. split; vm_compute; reflexivity.
  - exact dump_never_returns_on_cycle.
Qed.

(** * Further properties *)

(** ** URLs and cache paths *)

Lemma find_char_cons_ne c x s :
  Ascii.eqb c x = false ->
  PyStr.find_nat (String c "") (String x s) = option_map S (PyStr.find_nat (String c "") s).
Proof. intros H. by rewrite find_nat_cons, prefix_char, H. Qed.

Lemma hex_digit_unreserved n : (n < 16)%nat -> PyStr.is_unreserved (PyStr.hex_digit n) = true.
Proof. intros H. do 16 (destruct n as [|n]; [reflexivity|]). lia. Qed.

Lemma unreserved_ne c x :
  PyStr.is_unreserved c = false -> PyStr.is_unreserved x = true -> Ascii.eqb c x = false.
Proof. intros Hc Hx. destruct (Ascii.eqb_spec c x) as [->|]; [congruence | done]. Qed.

Lemma quote_escapes c s :
  PyStr.is_unreserved c = false ->
  Ascii.eqb c "/" = false ->
  Ascii.eqb c "%" = false ->
  PyStr.find_nat (String c "") (PyStr.quote s) = None.
Proof.
  intros Hc Hslash Hpct. induction s as [|x s IH]; [done|].
  cbn [PyStr.quote]. apply find_char_app_none; [|exact IH].
  destruct (PyStr.is_unreserved x || Ascii.eqb x "/") eqn:Hx.
  - rewrite find_char_cons_ne; [done|].
    apply orb_true_iff in Hx as [Hx|Hx]; [by apply unreserved_ne|].
    apply Ascii.eqb_eq in Hx as ->. exact Hslash.
  - unfold PyStr.percent_encode.
    rewrite find_char_cons_ne by exact Hpct.
    rewrite find_char_cons_ne
      by (apply unreserved_ne; [done | apply hex_digit_unreserved, Nat.Div0.div_lt_upper_bound;
          pose proof (nat_ascii_bounded x); lia]).
    rewrite find_char_cons_ne
      by (apply unreserved_ne; [done | apply hex_digit_unreserved, Nat.mod_upper_bound; lia]).
    reflexivity.
Qed.

Lemma quote_keeps_dot_absent s :
  PyStr.find_nat "." s = None -> PyStr.find_nat "." (PyStr.quote s) = None.
Proof.
  induction s as [|x s IH]; [done|].
  rewrite find_nat_cons, prefix_char. intros H.
  destruct (Ascii.eqb "." x) eqn:Hx; [discriminate|].
  destruct (PyStr.find_nat "." s); [discriminate|].
  cbn [PyStr.quote]. apply find_char_app_none; [|by apply IH].
  destruct (PyStr.is_unreserved x || Ascii.eqb x "/").
  - by rewrite find_char_cons_ne.
  - unfold PyStr.percent_encode.
    assert (forall n, (n < 16)%nat -> Ascii.eqb "." (PyStr.hex_digit n) = false) as Hhex
      by (intros n Hn; do 16 (destruct n as [|n]; [reflexivity|]); lia).
    rewrite find_char_cons_ne by reflexivity.
    rewrite find_char_cons_ne
      by (apply Hhex, Nat.Div0.div_lt_upper_bound; pose proof (nat_ascii_bounded x); lia).
    rewrite find_char_cons_ne by (apply Hhex, Nat.mod_upper_bound; lia).
    reflexivity.
Qed.

Lemma replace_char_app c new a b :
  PyStr.replace (a ++ b) (String c "") new
  = PyStr.replace a (String c "") new ++ PyStr.replace b (String c "") new.
Proof.
  induction a as [|x a IH]; [by rewrite replace_char_nil, !str_app_nil_l|].
  rewrite str_app_cons, !replace_char_cons, IH.
  destruct (Ascii.eqb c x); [by rewrite str_app_assoc | by rewrite str_app_cons].
Qed.

Lemma replace_segment c new s :
  all_chars (fun x => negb (Ascii.eqb c x)) s = true ->
  PyStr.replace s (String c "") new = s.
Proof.
  induction s as [|x s IH]; [reflexivity|]. cbn [all_chars].
  intros [Hx Hs]%andb_true_iff. rewrite replace_char_cons.
  apply negb_true_iff in Hx. rewrite Hx. by rewrite IH.
Qed.

Lemma all_chars_impl (f g : ascii -> bool) s :
  (forall c, f c = true -> g c = true) -> all_chars f s = true -> all_chars g s = true.
Proof.
  intros Hfg. induction s as [|x s IH]; [done|]. cbn [all_chars].
  intros [Hx Hs]%andb_true_iff. by rewrite (Hfg _ Hx), IH.
Qed.

Lemma all_chars_app f a b :
  all_chars f (a ++ b) = all_chars f a && all_chars f b.
Proof.
  induction a as [|x a IH]; [by rewrite str_app_nil_l|].
  rewrite str_app_cons. cbn [all_chars]. by rewrite IH, andb_assoc.
Qed.

(** The dots that join the segments of a group become slashes. *)
Lemma replace_dots_of_segments segs :
  Forall (fun seg => all_chars is_segment_char seg = true) segs ->
  PyStr.replace (join_with "." segs) "." "/" = join_with "/" segs.
Proof.
  assert (forall seg, all_chars is_segment_char seg = true ->
                      PyStr.replace seg "." "/" = seg) as Hseg.
  { intros seg H. apply replace_segment. revert H. apply all_chars_impl.
    intros c [_ Hc]%andb_true_iff. by rewrite Ascii.eqb_sym. }
  induction 1 as [|seg segs Hs Hall IH]; [reflexivity|].
  cbn [join_with]. destruct segs as [|seg' segs]; [by apply Hseg|].
  rewrite replace_char_app, (Hseg _ Hs).
  change ("." ++ join_with "." (seg' :: segs)) with (String "." (join_with "." (seg' :: segs))).
  rewrite replace_char_cons, Ascii.eqb_refl, IH. reflexivity.
Qed.

Lemma segments_are_safe segs :
  Forall (fun seg => all_chars is_segment_char seg = true) segs ->
  all_chars (fun c => PyStr.is_unreserved c || Ascii.eqb c "/") (join_with "/" segs) = true.
Proof.
  assert (forall seg, all_chars is_segment_char seg = true ->
                      all_chars (fun c => PyStr.is_unreserved c || Ascii.eqb c "/") seg = true)
    as Hseg.
  { intros seg. apply all_chars_impl. intros c [-> _]%andb_true_iff. reflexivity. }
  induction 1 as [|seg segs Hs Hall IH]; [reflexivity|].
  cbn [join_with]. destruct segs as [|seg' segs]; [by apply Hseg|].
  rewrite all_chars_app, (Hseg _ Hs).
  change ("/" ++ join_with "/" (seg' :: segs)) with (String "/" (join_with "/" (seg' :: segs))).
  cbn [all_chars andb]. exact IH.
Qed.

(** [quote] leaves the characters of its safe set as they are. *)
Lemma quote_safe s :
  all_chars (fun c => PyStr.is_unreserved c || Ascii.eqb c "/") s = true ->
  PyStr.quote s = s.
Proof.
  induction s as [|x s IH]; [reflexivity|]. cbn [all_chars PyStr.quote].
  intros [-> Hs]%andb_true_iff. by rewrite IH.
Qed.

(** X1: the page URL that [get_package_page_url] builds is the repository base, a slash, the quoted group with its dots replaced by slashes, a slash and the quoted artifact; the group part holds no dot, and neither part holds a character that [quote] escapes, that is, a character other than the letters, the digits, [_], [.], [-], [~], the slash and the percent sign.  For a group made of segments of letters, digits, [_], [-] and [~] joined by dots, and an artifact of letters, digits, [_], [.], [-] and [~], the URL is the base, the segments and the artifact joined by slashes: every dot of the group became a slash and nothing else changed. *)
Theorem page_url_escapes_reserved repo g a :
  let group_path := PyStr.quote (PyStr.replace g "." "/") in
  let artifact_path := PyStr.quote a in
  get_package_page_url repo g a = repo ++ "/" ++ group_path ++ "/" ++ artifact_path /\
  PyStr.contains group_path "." = false /\
  (forall c,
     PyStr.is_unreserved c = false -> Ascii.eqb c "/" = false -> Ascii.eqb c "%" = false ->
     PyStr.contains group_path (String c "") = false /\
     PyStr.contains artifact_path (String c "") = false) /\
  (forall segs,
     g = join_with "." segs ->
     Forall (fun seg => all_chars is_segment_char seg = true) segs ->
     all_chars PyStr.is_unreserved a = true ->
     get_package_page_url repo g a = repo ++ "/" ++ join_with "/" segs ++ "/" ++ a).
Proof.
  intros group_path artifact_path. split; [reflexivity|]. split; [|split].
  - apply contains_false, quote_keeps_dot_absent. by apply replace_char_removes.
  - intros c Hc Hslash Hpct. split; apply contains_false; by apply quote_escapes.
  - intros segs -> Hsegs Ha. unfold get_package_page_url.
    rewrite (replace_dots_of_segments _ Hsegs), (quote_safe _ (segments_are_safe _ Hsegs)).
    rewrite (quote_safe a); [reflexivity|].
    revert Ha. apply all_chars_impl. by intros c ->.
Qed.

Lemma page_url_of_poi :
  get_package_page_url Fixtures.repo_url "org.apache.poi" "poi-ooxml"
  = "https://repo.example/org/apache/poi/poi-ooxml" /\
  PyStr.contains (PyStr.quote (PyStr.replace "org.ex ample" "." "/")) " " = false /\
  PyStr.contains (PyStr.quote "co re") " " = false.
Proof.
  destruct (page_url_escapes_reserved Fixtures.repo_url "org.apache.poi" "poi-ooxml")
    as (_ & _ & _ & Hplain).
  destruct (page_url_escapes_reserved Fixtures.repo_url "org.ex ample" "co re")
    as (_ & _ & Hescaped & _).
  split; [|apply (Hescaped " "%char); reflexivity].
  apply (Hplain ["org"; "apache"; "poi"]); [reflexivity | repeat constructor | reflexivity].
Defined.

Lemma join2_absolute path b :
  PyStr.startswith b "/" = true -> os_path_join2 path b = b.
Proof. unfold os_path_join2, os_path_sep. by intros ->. Qed.

Lemma startswith_cons c s : PyStr.startswith (String c s) (String c "") = true.
Proof.
  unfold PyStr.startswith. rewrite prefix_cons, prefix_nil.
  by destruct (ascii_dec c c).
Qed.

Lemma join2_keeps_absolute a b :
  PyStr.startswith a "/" = true -> PyStr.startswith (os_path_join2 a b) "/" = true.
Proof.
  intros Ha. unfold os_path_join2, os_path_sep.
  destruct (PyStr.startswith b "/") eqn:Hb; [exact Hb|].
  destruct a as [|x a]; [discriminate|].
  unfold PyStr.startswith in Ha. rewrite prefix_char in Ha.
  apply Ascii.eqb_eq in Ha as <-.
  destruct (_ || _); rewrite str_app_cons; apply startswith_cons.
Qed.

(** X2: when the sanitized group starts with a slash (a group id that starts with a slash or with a single dot), the metadata and descriptor cache paths are the sanitized group joined with the remaining segments, and they are absolute: [os.path.join] discards the cache directory, whatever the working directory is. *)
Theorem absolute_group_drops_cache_root cwd g a v :
  PyStr.startswith (_quote_groupId_path g) "/" = true ->
  (get_metadata_cache_path cwd g a
   = os_path_join (_quote_groupId_path g) [_quote_artifactId_path a; "maven-metadata.xml"] /\
   PyStr.startswith (get_metadata_cache_path cwd g a) "/" = true) /\
  (get_pom_cache_path cwd g a v
   = os_path_join (_quote_groupId_path g)
       [_quote_artifactId_path a;
        _quote_artifactId_path a ++ "-" ++ _quote_version_path v ++ ".pom"] /\
   PyStr.startswith (get_pom_cache_path cwd g a v) "/" = true).
Proof.
  intros H. unfold get_metadata_cache_path, get_pom_cache_path, os_path_join.
  cbv zeta. cbn [fold_left]. rewrite !(join2_absolute _ _ H).
  split; (split; [reflexivity|]); by do 2 apply join2_keeps_absolute.
Qed.

Lemma hidden_group_paths_are_absolute :
  get_metadata_cache_path "/home/user" ".ssh" "core" = "/ssh/core/maven-metadata.xml" /\
  get_pom_cache_path "/home/user" ".ssh" "core" "1.0.0" = "/ssh/core/core-1.0.0.pom".
Proof.
  destruct (absolute_group_drops_cache_root "/home/user" ".ssh" "core" "1.0.0")
    as [[Hm _] [Hp _]]; [reflexivity|].
  split; [rewrite Hm | rewrite Hp]; reflexivity.
Defined.

Lemma drop_drop n m s : PyStr.drop (n + m) s = PyStr.drop m (PyStr.drop n s).
Proof.
  revert s. induction n as [|n IH]; intros s; [done|].
  destruct s as [|c s]; [by destruct m | apply IH].
Qed.

Lemma endswith_slash_app y z c :
  Ascii.eqb c "/" = false ->
  PyStr.endswith (y ++ z ++ String c "") "/" = false.
Proof.
  intros Hc. unfold PyStr.endswith.
  rewrite <- str_app_assoc, str_length_app. cbn [String.length].
  replace (String.length (y ++ z) + 1 - 1)%nat with (String.length (y ++ z) + 0)%nat by lia.
  rewrite drop_drop, drop_app. cbn [PyStr.drop].
  apply andb_false_iff. right.
  destruct (String.eqb_spec (String c "") "/") as [Heq|]; [|done].
  injection Heq as ->. discriminate.
Qed.

Lemma join2_plain path b :
  PyStr.startswith b "/" = false ->
  String.eqb path "" = false ->
  PyStr.endswith path "/" = false ->
  os_path_join2 path b = path ++ "/" ++ b.
Proof. unfold os_path_join2, os_path_sep. by intros -> -> ->. Qed.

Lemma app_not_empty y c z : String.eqb (y ++ String c z) "" = false.
Proof. destruct y; reflexivity. Qed.

Lemma startswith_slash_absent s rest c :
  PyStr.find_nat "/" s = None ->
  Ascii.eqb "/" c = false ->
  PyStr.startswith (s ++ String c rest) "/" = false.
Proof.
  intros Hs Hc. unfold PyStr.startswith. destruct s as [|x s].
  - rewrite str_app_nil_l, prefix_char. exact Hc.
  - rewrite str_app_cons, prefix_char.
    rewrite find_nat_cons, prefix_char in Hs. by destruct (Ascii.eqb "/" x).
Qed.

(** X3: for every group, artifact, version and postfix, the jar cache path is the jar cache directory, a slash, and the file name made of the sanitized artifact, a dash, the sanitized version, the postfix as given and [.jar]; the group takes no part in it. *)
Theorem jar_path_is_under_jar_directory cwd g a v postfix :
  get_jar_cache_path cwd g a v postfix
  = CACHE_JAR_DIR cwd ++ "/"
      ++ _quote_artifactId_path a ++ "-" ++ _quote_version_path v ++ postfix ++ ".jar".
Proof.
  unfold get_jar_cache_path, os_path_join. cbv zeta. cbn [fold_left].
  apply join2_plain.
  - apply (startswith_slash_absent _ _ "-"); [|reflexivity].
    pose proof (artifact_path_clean a) as Hclean.
    apply Forall_cons in Hclean as [Hslash _]. by apply contains_false.
  - unfold CACHE_JAR_DIR, os_path_join. cbn [fold_left].
    unfold os_path_join2 at 1. change (PyStr.startswith "jar" os_path_sep) with false.
    cbv iota. destruct (_ || _).
    + exact (app_not_empty _ "j" "ar").
    + rewrite <- !str_app_assoc. exact (app_not_empty _ "j" "ar").
  - unfold CACHE_JAR_DIR, os_path_join. cbn [fold_left].
    unfold os_path_join2 at 1. change (PyStr.startswith "jar" os_path_sep) with false.
    cbv iota. destruct (_ || _).
    + exact (endswith_slash_app _ "ja" "r" eq_refl).
    + rewrite <- str_app_assoc. exact (endswith_slash_app _ "ja" "r" eq_refl).
Qed.

(** ** Tag names *)

Lemma split_char_absent c s :
  PyStr.find_nat (String c "") s = None -> PyStr.split_char c s = [s].
Proof.
  induction s as [|x s IH]; [done|].
  rewrite find_nat_cons, prefix_char. cbn [PyStr.split_char].
  rewrite (Ascii.eqb_sym x c).
  destruct (Ascii.eqb c x); [discriminate|].
  destruct (PyStr.find_nat (String c "") s); [discriminate|].
  intros _. by rewrite IH.
Qed.

Lemma split_char_app c a b :
  PyStr.find_nat (String c "") a = None ->
  PyStr.split_char c (a ++ String c b) = a :: PyStr.split_char c b.
Proof.
  induction a as [|x a IH].
  - intros _. rewrite str_app_nil_l. cbn [PyStr.split_char]. by rewrite Ascii.eqb_refl.
  - rewrite find_nat_cons, prefix_char, str_app_cons. cbn [PyStr.split_char].
    rewrite (Ascii.eqb_sym x c).
    destruct (Ascii.eqb c x); [discriminate|].
    destruct (PyStr.find_nat (String c "") a); [discriminate|].
    intros _. by rewrite IH.
Qed.

(** X4: on a tag [{ns}name], with no closing brace in [ns] or in [name], [tag_strip_namespace] returns [name]; on a tag that opens a brace and never closes it, it raises [IndexError]. *)
Theorem tag_strip_namespace_spec ns name :
  PyStr.contains ns "}" = false ->
  PyStr.contains name "}" = false ->
  tag_strip_namespace ("{" ++ ns ++ "}" ++ name) = Ret name /\
  tag_strip_namespace ("{" ++ ns) = Raise IndexError.
Proof.
  intros Hns Hname. apply contains_false in Hns, Hname.
  assert (PyStr.find_nat "}" ("{" ++ ns) = None) as Hhead
    by (apply find_char_app_none; [reflexivity | exact Hns]).
  unfold tag_strip_namespace. split.
  - change ("{" ++ ns ++ "}" ++ name) with (String "{" (ns ++ "}" ++ name)) at 1.
    rewrite startswith_cons.
    replace ("{" ++ ns ++ "}" ++ name) with (("{" ++ ns) ++ String "}" name)
      by (rewrite str_app_assoc; reflexivity).
    rewrite split_char_app by exact Hhead.
    by rewrite split_char_absent.
  - change ("{" ++ ns) with (String "{" ns) at 1. rewrite startswith_cons.
    by rewrite split_char_absent.
Qed.

Lemma tag_strip_namespace_of_pom_tag :
  tag_strip_namespace "{http://maven.apache.org/POM/4.0.0}groupId" = Ret "groupId" /\
  tag_strip_namespace "{http://maven.apache.org/POM/4.0.0" = Raise IndexError.
Proof.
  apply (tag_strip_namespace_spec "http://maven.apache.org/POM/4.0.0" "groupId"); reflexivity.
Defined.

(** ** Placeholder substitution, continued *)

(** X5: whenever [parse_property_value] returns a text, substituting again in that text, with the same table and any bound on the iterations, returns it unchanged. *)
Theorem substitution_is_idempotent fuel properties text r :
  parse_property_value fuel properties text = Ret r ->
  forall fuel', parse_property_value fuel' properties r = Ret r.
Proof.
  intros H fuel'. unfold parse_property_value in *.
  apply parse_property_loop_exit.
  eapply parse_property_loop_result; [reflexivity | exact H].
Qed.

Lemma substitution_of_nested_is_idempotent :
  parse_property_value 5 Scenarios.nested_table "v${a}" = Ret "vx1" /\
  forall fuel', parse_property_value fuel' Scenarios.nested_table "vx1" = Ret "vx1".
Proof.
  split; [vm_compute; reflexivity|].
  apply (substitution_is_idempotent 5 Scenarios.nested_table "v${a}" "vx1").
  vm_compute. reflexivity.
Defined.

Lemma find_nat_app_suffix sub a b :
  PyStr.find_nat sub (a ++ b) = None -> PyStr.find_nat sub b = None.
Proof.
  induction a as [|x a IH]; [done|].
  rewrite str_app_cons, find_nat_cons.
  destruct (String.prefix sub (String x (a ++ b))); [discriminate|].
  destruct (PyStr.find_nat sub (a ++ b)); [discriminate|]. intros _. by apply IH.
Qed.

Lemma find_char_drop c n : forall s,
  PyStr.find_nat (String c "") s = None -> PyStr.find_nat (String c "") (PyStr.drop n s) = None.
Proof.
  induction n as [|n IH]; intros [|x s] H; try done.
  cbn [PyStr.drop]. apply IH.
  rewrite find_nat_cons, prefix_char in H.
  destruct (Ascii.eqb c x); [discriminate|].
  by destruct (PyStr.find_nat (String c "") s).
Qed.

Lemma find_char_take c n : forall s,
  PyStr.find_nat (String c "") s = None -> PyStr.find_nat (String c "") (PyStr.take n s) = None.
Proof.
  induction n as [|n IH]; intros [|x s] H; try done.
  cbn [PyStr.take]. rewrite find_nat_cons, prefix_char in *.
  destruct (Ascii.eqb c x); [discriminate|].
  destruct (PyStr.find_nat (String c "") s) eqn:Hs; [discriminate|].
  by rewrite IH.
Qed.

Lemma contains_true s sub : PyStr.contains s sub = true <-> 0 <= PyStr.find s sub.
Proof. unfold PyStr.contains. apply Z.leb_le. Qed.

Lemma find_nonneg_iff s sub : 0 <= PyStr.find s sub <-> PyStr.find_nat sub s <> None.
Proof.
  unfold PyStr.find. destruct (PyStr.find_nat sub s); split; try done; try lia.
Qed.

(** One pass on a text without a closing brace: [text.find("}")] is
    [-1], the name is cut one character before the end and the tail is
    the whole text. *)
Lemma unterminated_pass properties text v :
  PyStr.contains text "}" = false ->
  lookup_value properties
    (PyStr.slice text (PyStr.find text "${" + 2) (-1)) = Some v ->
  substitute_once properties text (PyStr.find text "${")
  = Ret (PyStr.slice text 0 (PyStr.find text "${") ++ v ++ text).
Proof.
  intros Hbrace Hv. apply contains_false in Hbrace.
  unfold substitute_once. rewrite (find_negative _ _ Hbrace).
  fold (lookup_value properties (PyStr.slice text (PyStr.find text "${" + 2) (-1))).
  rewrite Hv. change (-1 + 1) with 0.
  assert (PyStr.slice_from text 0 = text) as ->; [|reflexivity].
  unfold PyStr.slice_from. rewrite norm_index_in_range by (pose proof (len_nonneg text); lia).
  reflexivity.
Qed.

(** X6: when the text holds a placeholder opening but no closing brace at all, and no value of the table is [None] or holds a closing brace, each pass of [parse_property_value] puts the replacement and then the whole text behind what precedes the placeholder, and the call does not return, whatever the bound on the iterations. *)
Theorem unterminated_placeholder_never_returns properties text :
  (forall name, exists v, lookup_value properties name = Some v /\ PyStr.contains v "}" = false) ->
  PyStr.contains text "}" = false ->
  PyStr.contains text "${" = true ->
  (exists v,
     substitute_once properties text (PyStr.find text "${")
     = Ret (PyStr.slice text 0 (PyStr.find text "${") ++ v ++ text)) /\
  forall fuel, parse_property_value fuel properties text = Diverge.
Proof.
  intros Hvalues Hbrace Hopen. split.
  { destruct (Hvalues (PyStr.slice text (PyStr.find text "${" + 2) (-1))) as (v & Hv & _).
    exists v. by apply unterminated_pass. }
  intros fuel. revert text Hbrace Hopen.
  induction fuel as [|fuel IH]; intros text Hbrace Hopen;
    unfold parse_property_value; cbn [parse_property_loop];
    apply contains_true in Hopen as Hidx;
    destruct (Z.leb_spec 0 (PyStr.find text "${")) as [_|]; try lia; [reflexivity|].
  destruct (Hvalues (PyStr.slice text (PyStr.find text "${" + 2) (-1))) as (v & Hv & Hclean).
  rewrite (unterminated_pass properties text v Hbrace Hv).
  apply contains_false in Hbrace, Hclean.
  apply IH.
  - apply contains_false. apply find_char_app_none; [|by apply find_char_app_none].
    unfold PyStr.slice. by apply find_char_take, find_char_drop.
  - apply contains_true, find_nonneg_iff. intros Hnone.
    apply find_nonneg_iff in Hidx. apply Hidx.
    rewrite <- str_app_assoc in Hnone. by apply find_nat_app_suffix in Hnone.
Qed.

Lemma unterminated_placeholder_example :
  substitute_once Examples.one_property "${a" 0 = Ret "${a" /\
  forall fuel, parse_property_value fuel Examples.one_property "${a" = Diverge.
Proof.
  split; [reflexivity|].
  apply (unterminated_placeholder_never_returns Examples.one_property "${a");
    [|reflexivity|reflexivity].
  intros name. unfold lookup_value, Examples.one_property.
  destruct (decide (name = "a")) as [->|Hne].
  - exists "1". rewrite lookup_insert_eq. split; reflexivity.
  - exists "". rewrite lookup_insert_ne, lookup_empty by done. split; reflexivity.
Defined.

(** ** The metadata document *)

Lemma nonempty_len (s : string) : s <> "" -> (0 <? PyStr.len s) = true.
Proof. intros H. destruct s; [done|]. reflexivity. Qed.



(** X8: when the metadata is neither in memory nor on disk and the repository answers with an empty body, [_get_metadata] changes nothing but the log of requests, and parses the empty text. *)
Theorem empty_metadata_is_not_persisted env self st m :
  metas st !! self = Some m ->
  _metadata_cache m = "" ->
  os_path_exists (get_metadata_cache_path (env_cwd env) (groupId m) (artifactId m)) st
    = (Ret false, st) ->
  remote env (_base_url m ++ "/maven-metadata.xml") = Body "" ->
  _get_metadata env self st
  = (match ET_fromstring env "" with
     | Some root => Ret root
     | None => Raise ParseError
     end,
     with_requests (requests st ++ [(_base_url m ++ "/maven-metadata.xml")%string]) st).
Proof.
  intros Hm Hcache Hex Hremote. unfold _get_metadata.
  rewrite (bind_Ret _ _ _ _ _ (get_meta_run _ _ _ Hm)).
  rewrite Hcache. change (0 <? PyStr.len "") with false. cbv iota.
  rewrite bind_assoc, (bind_Ret _ _ _ _ _ Hex). cbv iota.
  rewrite bind_assoc. unfold fetch_url at 1. rewrite bind_assoc.
  unfold bind at 1. unfold modify at 1. rewrite Hremote.
  unfold decode_utf8. change (PyStr.valid_utf8 "") with true. cbv iota.
  rewrite (bind_Ret _ _ _ "" _) by reflexivity.
  change (0 <? PyStr.len "") with false. cbv iota.
  rewrite (bind_Ret _ _ _ tt _) by reflexivity.
  unfold get_meta, parse_document, bind, ret, raise. cbn [metas with_requests].
  rewrite Hm, Hcache. by destruct (ET_fromstring env "").
Qed.

Lemma empty_metadata_of_blank_repository :
  _get_metadata Examples.blank_env 3 Scenarios.release_state
  = (Raise ParseError,
     with_requests ["https://repo.example/org/example/core/maven-metadata.xml"]
       Scenarios.release_state).
Proof.
  apply (empty_metadata_is_not_persisted Examples.blank_env 3 Scenarios.release_state
           Scenarios.core_meta); reflexivity.
Defined.

(** X9: for a parser that rejects the empty text, once [_get_metadata] has returned a document, calling it again returns the same document and changes nothing: no request, no file access. *)
Theorem metadata_is_parsed_from_memory env self st root st1 :
  ET_fromstring env "" = None ->
  _get_metadata env self st = (Ret root, st1) ->
  _get_metadata env self st1 = (Ret root, st1).
Proof.
  intros Hempty H. unfold _get_metadata in H.
  apply bind_inv in H as (m & st2 & _ & H).
  apply bind_inv in H as ([] & st3 & _ & H).
  apply bind_inv in H as (m' & st4 & Hm & H).
  apply get_meta_inv in Hm as [-> Hm].
  apply parse_document_inv in H as [-> Hparse].
  assert (_metadata_cache m' <> "") as Hne by (intros Heq; rewrite Heq in Hparse; congruence).
  unfold _get_metadata.
  rewrite (bind_Ret _ _ _ _ _ (get_meta_run _ _ _ Hm)).
  rewrite (nonempty_len _ Hne).
  rewrite (bind_Ret _ _ _ tt _) by reflexivity.
  rewrite (bind_Ret _ _ _ _ _ (get_meta_run _ _ _ Hm)).
  unfold parse_document. by rewrite Hparse.
Qed.

Lemma metadata_of_core_parsed_again :
  _get_metadata Scenarios.example_env 3
    (_get_metadata Scenarios.example_env 3 Scenarios.release_state).2
  = (Ret (Fixtures.metadata "1.0.0"),
     (_get_metadata Scenarios.example_env 3 Scenarios.release_state).2).
Proof.
  apply (metadata_is_parsed_from_memory Scenarios.example_env 3 Scenarios.release_state);
    [reflexivity | vm_compute; reflexivity].
Defined.

(** ** The version of a package *)

Lemma is_space_lower c : PyStr.is_space (PyStr.lower_char c) = PyStr.is_space c.
Proof. destruct c as [[] [] [] [] [] [] [] []]; reflexivity. Qed.

Lemma lower_eq_empty s : String.eqb (PyStr.lower s) "" = String.eqb s "".
Proof. by destruct s. Qed.

Lemma lstrip_lower s : PyStr.lstrip (PyStr.lower s) = PyStr.lower (PyStr.lstrip s).
Proof.
  induction s as [|c s IH]; [done|].
  cbn [PyStr.lower PyStr.lstrip]. rewrite is_space_lower.
  by destruct (PyStr.is_space c).
Qed.

Lemma rstrip_lower s : PyStr.rstrip (PyStr.lower s) = PyStr.lower (PyStr.rstrip s).
Proof.
  induction s as [|c s IH]; [done|].
  cbn [PyStr.lower PyStr.rstrip]. rewrite is_space_lower, IH, lower_eq_empty.
  by destruct (PyStr.is_space c && String.eqb (PyStr.rstrip s) "").
Qed.

Lemma strip_lower s : PyStr.strip (PyStr.lower s) = PyStr.lower (PyStr.strip s).
Proof. unfold PyStr.strip. by rewrite lstrip_lower, rstrip_lower. Qed.

Lemma not_symbolic_is_concrete v :
  version_is_symbolic (Some v) = false -> is_concrete_version v = true.
Proof.
  unfold version_is_symbolic, is_concrete_version, DEFAULT_VERSION.
  rewrite strip_lower. intros H.
  apply orb_false_iff in H as [H Hempty]. apply orb_false_iff in H as [H _].
  apply orb_false_iff in H as [Hlatest Hrelease].
  rewrite !andb_true_iff, !negb_true_iff. split; [split|].
  - apply Z.leb_gt. unfold PyStr.len.
    destruct (PyStr.strip v); [discriminate | simpl; lia].
  - destruct (String.eqb_spec v "latest") as [->|]; [discriminate | done].
  - destruct (String.eqb_spec v "release") as [->|]; [discriminate | done].
Qed.

(** X10: for a package whose version the constructor does not flag as unsure, [_get_version] returns the stored version and changes nothing. *)
Theorem sure_version_is_kept env st self p v :
  pkgs st !! self = Some p ->
  _version p = Some v ->
  version_is_symbolic (Some v) = false ->
  _get_version env self st = (Ret (Some v), st).
Proof.
  intros Hp Hv Hsure. apply (_get_version_concrete env st self p v Hp Hv).
  by apply not_symbolic_is_concrete.
Qed.

Lemma sure_version_of_core :
  _get_version (Fixtures.table_env []) 2 Scenarios.core_state
  = (Ret (Some "1.0.0"), Scenarios.core_state).
Proof.
  apply (sure_version_is_kept (Fixtures.table_env []) Scenarios.core_state 2
           Scenarios.core_pkg "1.0.0"); reflexivity.
Defined.

(** X11: when [_get_version] returns a version that is not blank and is neither [latest] nor [release], calling it again returns the same version and changes nothing: the resolution is stored in [_version]. *)
Theorem resolved_version_is_memoized env self st v st1 :
  _get_version env self st = (Ret (Some v), st1) ->
  is_concrete_version v = true ->
  _get_version env self st1 = (Ret (Some v), st1).
Proof.
  intros H Hc. apply _get_version_stored in H as (p & Hp & Hv).
  by apply (_get_version_concrete env st1 self p v).
Qed.

Lemma release_of_core_is_memoized :
  _get_version Scenarios.example_env 2
    (_get_version Scenarios.example_env 2 Scenarios.release_state).2
  = (Ret (Some "1.0.0"), (_get_version Scenarios.example_env 2 Scenarios.release_state).2).
Proof.
  apply (resolved_version_is_memoized Scenarios.example_env 2 Scenarios.release_state "1.0.0");
    [vm_compute; reflexivity | reflexivity].
Defined.

(** X12: when [_get_version] returns [None] (the metadata has no element for the marker), [_get_pom] and [cache_jar] raise [AttributeError] in the state that [_get_version] reached, before any file is looked up or fetched. *)
Theorem unresolved_version_raises env self st st1 p m postfix :
  pkgs st !! self = Some p ->
  metas st !! meta p = Some m ->
  _get_version env self st = (Ret None, st1) ->
  _get_pom env self st = (Raise AttributeError, st1) /\
  cache_jar env self postfix st = (Raise AttributeError, st1).
Proof.
  intros Hp Hm Hv. split.
  - unfold _get_pom.
    rewrite (bind_Ret _ _ _ _ _ (get_pkg_run _ _ _ Hp)).
    rewrite (bind_Ret _ _ _ _ _ (get_meta_run _ _ _ Hm)).
    rewrite (bind_Ret _ _ _ _ _ Hv). reflexivity.
  - unfold cache_jar.
    rewrite (bind_Ret _ _ _ _ _ (get_pkg_run _ _ _ Hp)).
    rewrite (bind_Ret _ _ _ _ _ (get_meta_run _ _ _ Hm)).
    rewrite (bind_Ret _ _ _ _ _ Hv). reflexivity.
Qed.

Lemma unreleased_core_raises :
  _get_pom Examples.unreleased_env 2 Scenarios.release_state
  = (Raise AttributeError, (_get_version Examples.unreleased_env 2 Scenarios.release_state).2) /\
  cache_jar Examples.unreleased_env 2 "" Scenarios.release_state
  = (Raise AttributeError, (_get_version Examples.unreleased_env 2 Scenarios.release_state).2).
Proof.
  apply (unresolved_version_raises Examples.unreleased_env 2 Scenarios.release_state
           (_get_version Examples.unreleased_env 2 Scenarios.release_state).2
           (mkPkg (Some "release") 3 "" true None) Scenarios.core_meta "");
    [reflexivity | reflexivity | vm_compute; reflexivity].
Defined.

(** ** The descriptor *)

(** X13: for a parser that rejects the empty text, once [_get_pom] has returned a document and the version of the package is resolved, calling it again returns the same document and changes nothing. *)
Theorem descriptor_is_parsed_from_memory env self st root st1 p1 m1 v :
  ET_fromstring env "" = None ->
  _get_pom env self st = (Ret root, st1) ->
  pkgs st1 !! self = Some p1 ->
  metas st1 !! meta p1 = Some m1 ->
  _version p1 = Some v ->
  is_concrete_version v = true ->
  _get_pom env self st1 = (Ret root, st1).
Proof.
  intros Hempty H Hp1 Hm1 Hv Hc. unfold _get_pom in H.
  apply bind_inv in H as (p & st2 & _ & H).
  apply bind_inv in H as (m & st3 & _ & H).
  apply bind_inv in H as (v0 & st4 & _ & H).
  apply bind_inv in H as (version & st5 & _ & H).
  apply bind_inv in H as (p0 & st6 & _ & H).
  apply bind_inv in H as ([] & st7 & _ & H).
  apply bind_inv in H as (p' & st8 & Hp & H).
  apply get_pkg_inv in Hp as [-> Hp].
  apply parse_document_inv in H as [-> Hparse].
  rewrite Hp1 in Hp. injection Hp as <-.
  assert (_pom_cache p1 <> "") as Hne by (intros Heq; rewrite Heq in Hparse; congruence).
  unfold _get_pom.
  rewrite (bind_Ret _ _ _ _ _ (get_pkg_run _ _ _ Hp1)).
  rewrite (bind_Ret _ _ _ _ _ (get_meta_run _ _ _ Hm1)).
  rewrite (bind_Ret _ _ _ _ _ (_get_version_concrete env _ _ _ v Hp1 Hv Hc)).
  rewrite (bind_Ret _ _ _ v _) by reflexivity.
  rewrite (bind_Ret _ _ _ _ _ (get_pkg_run _ _ _ Hp1)).
  rewrite (nonempty_len _ Hne).
  rewrite (bind_Ret _ _ _ tt _) by reflexivity.
  rewrite (bind_Ret _ _ _ _ _ (get_pkg_run _ _ _ Hp1)).
  unfold parse_document. by rewrite Hparse.
Qed.

Lemma descriptor_of_core_parsed_again :
  exists root,
    _get_pom Scenarios.example_env 2 Scenarios.core_state
    = (Ret root, (_get_pom Scenarios.example_env 2 Scenarios.core_state).2) /\
    _get_pom Scenarios.example_env 2 (_get_pom Scenarios.example_env 2 Scenarios.core_state).2
    = (Ret root, (_get_pom Scenarios.example_env 2 Scenarios.core_state).2).
Proof.
  eexists. split; [vm_compute; reflexivity|].
  apply (descriptor_is_parsed_from_memory Scenarios.example_env 2 Scenarios.core_state _ _
           (mkPkg (Some "1.0.0") 3 "https://repo.example/org/example/core/1.0.0/core-1.0.0.pom"
              false None)
           Scenarios.core_meta "1.0.0");
    [reflexivity | vm_compute; reflexivity | vm_compute; reflexivity | reflexivity
     | reflexivity | reflexivity].
Defined.

(** ** The property table *)

Lemma collect_properties_other props : forall init r k,
  collect_properties props init = Ret r ->
  Forall (fun prop => tag_strip_namespace (elem_tag prop) <> Ret k) props ->
  r !! k = init !! k.
Proof.
  induction props as [|prop props IH]; intros init r k H Hall.
  - cbn in H. by injection H as <-.
  - apply Forall_cons in Hall as [Hne Hall]. cbn [collect_properties] in H.
    destruct (tag_strip_namespace (elem_tag prop)) as [tag| |]; try discriminate.
    rewrite (IH _ _ _ H Hall). apply lookup_insert_ne. congruence.
Qed.

Lemma collect_properties_app pre : forall rest init r,
  collect_properties (pre ++ rest) init = Ret r ->
  exists mid, collect_properties pre init = Ret mid /\ collect_properties rest mid = Ret r.
Proof.
  induction pre as [|prop pre IH]; intros rest init r H.
  - by exists init.
  - cbn [app collect_properties] in *.
    destruct (tag_strip_namespace (elem_tag prop)) as [tag| |]; try discriminate.
    by apply IH.
Qed.

Lemma strip_default_text t :
  (if String.eqb t "" then "" else PyStr.strip t) = PyStr.strip t.
Proof. by destruct t. Qed.

(** X14: in the property table of [get_dependencies], a key that is the stripped tag of no element under [<properties>] (the block itself included) has the value of the implicit table, where [project.version], [project.groupId] and [project.artifactId] map to the stored version, the group and the artifact of the package. *)
Theorem implicit_properties_survive p m root table k :
  property_table p m root = Ret table ->
  (forall props, find_descendant "properties" root = Some props ->
     Forall (fun prop => tag_strip_namespace (elem_tag prop) <> Ret k) (elem_iter props)) ->
  table !! k = implicit_properties p m !! k /\
  implicit_properties p m !! "project.version" = Some (_version p) /\
  implicit_properties p m !! "project.groupId" = Some (Some (groupId m)) /\
  implicit_properties p m !! "project.artifactId" = Some (Some (artifactId m)).
Proof.
  intros H Hall. split.
  - unfold property_table in H. destruct (find_descendant "properties" root) as [props|].
    + eapply collect_properties_other; [exact H | by apply Hall].
    + by injection H as <-.
  - unfold implicit_properties. split; [|split].
    + rewrite !lookup_insert_ne by done. apply lookup_insert_eq.
    + rewrite lookup_insert_ne by done. apply lookup_insert_eq.
    + apply lookup_insert_eq.
Qed.

Lemma project_version_of_core_survives :
  property_table Scenarios.core_pkg Scenarios.core_meta Examples.redeclared_root
  = Ret Examples.redeclared_table /\
  Examples.redeclared_table !! "project.version" = Some (Some "1.0.0").
Proof.
  split; [vm_compute; reflexivity|].
  destruct (implicit_properties_survive Scenarios.core_pkg Scenarios.core_meta
              Examples.redeclared_root Examples.redeclared_table "project.version")
    as (Hk & Hv & _).
  - vm_compute. reflexivity.
  - intros props Hfind. vm_compute in Hfind. injection Hfind as <-.
    repeat constructor; intros Htag; vm_compute in Htag; discriminate Htag.
  - rewrite Hk. exact Hv.
Defined.

(** X15: in the property table of [get_dependencies], the value of a key is the stripped text (the empty string when there is no text) of the last element under [<properties>] whose stripped tag is that key. *)
Theorem declared_property_wins p m root props pre prop post table k :
  property_table p m root = Ret table ->
  find_descendant "properties" root = Some props ->
  elem_iter props = (pre ++ prop :: post)%list ->
  tag_strip_namespace (elem_tag prop) = Ret k ->
  Forall (fun later => tag_strip_namespace (elem_tag later) <> Ret k) post ->
  table !! k = Some (Some (PyStr.strip (default "" (elem_text prop)))).
Proof.
  intros H Hprops Hiter Htag Hpost. unfold property_table in H.
  rewrite Hprops, Hiter in H.
  apply collect_properties_app in H as (mid & _ & H).
  cbn [collect_properties] in H. rewrite Htag in H.
  rewrite (collect_properties_other _ _ _ _ H Hpost), lookup_insert_eq.
  destruct (elem_text prop) as [t|]; [|reflexivity].
  cbn [default]. by rewrite strip_default_text.
Qed.

Lemma second_declaration_wins :
  property_table Scenarios.core_pkg Scenarios.core_meta Examples.redeclared_root
  = Ret Examples.redeclared_table /\
  Examples.redeclared_table !! "lib.version" = Some (Some "3.0").
Proof.
  split; [vm_compute; reflexivity|].
  apply (declared_property_wins Scenarios.core_pkg Scenarios.core_meta
           Examples.redeclared_root Examples.properties_block
           [Examples.properties_block; Examples.first_declaration]
           Examples.second_declaration [] Examples.redeclared_table "lib.version");
    [vm_compute; reflexivity | reflexivity | reflexivity | reflexivity | constructor].
Defined.

(** ** The packages that [get_dependencies] builds *)

Lemma make_dependency_fields fuel properties parent_group parent_version parent_repo dep st pkg st' :
  make_dependency fuel properties parent_group parent_version parent_repo dep st = (Ret pkg, st') ->
  pkg = S (next_loc st) /\
  next_loc st' = S (S (next_loc st)) /\
  exists d md,
    pkgs st' = <[pkg := d]> (pkgs st) /\
    metas st' = <[next_loc st := md]> (metas st) /\
    meta d = next_loc st /\
    built_from fuel properties parent_repo dep d md.
Proof.
  unfold make_dependency. intros H.
  apply bind_inv in H as (g0 & st1 & Hg0 & H). apply child_text_inv in Hg0 as [-> Hg0].
  apply bind_inv in H as (g & st1 & Hg & H). apply substitute_inv in Hg as [-> (gtext & -> & Hg)].
  apply bind_inv in H as (a0 & st1 & Ha0 & H). apply child_text_inv in Ha0 as [-> Ha0].
  apply bind_inv in H as (a & st1 & Ha & H). apply substitute_inv in Ha as [-> (atext & -> & Ha)].
  apply bind_inv in H as (version & st1 & Hversion & H).
  assert (st1 = st /\ forall el, find_child "version" dep = Some el ->
            exists vtext v, elem_text el = Some vtext /\
                            parse_property_value fuel properties vtext = Ret v /\
                            version = Some v) as [-> Hver].
  { destruct (find_child "version" dep) as [el|].
    - apply bind_inv in Hversion as (v & st2 & Hv & Hret).
      apply substitute_inv in Hv as [-> (vtext & Hvt & Hv)]. unfold ret in Hret.
      injection Hret as <- <-. split; [done|]. intros el' [= <-]. eauto.
    - split; [|done].
      destruct (String.eqb g parent_group); unfold ret in Hversion; by injection Hversion. }
  revert H. unfold built_from, entry_scope, entry_optional.
  unfold MavenPackageMeta__init__, MavenDependencyPackage__init__, MavenPackage__init__,
    set_scope, set_optional, set_dep_attrs, fresh_loc, put_pkg, put_meta, get_pkg, modify,
    require_str.
  destruct (find_child "scope" dep) as [sc|];
    (destruct (find_child "optional" dep) as [op|]; [destruct (elem_text op) as [t|] eqn:Ht|]);
    unfold bind, ret, raise;
    cbn [pkgs metas with_pkgs with_metas with_next_loc next_loc];
    repeat (rewrite lookup_insert_eq;
            cbn [pkgs metas with_pkgs with_metas with_next_loc next_loc
                   _version meta _pom_cache _version_is_unsure dep_attrs]);
    try discriminate;
    intros [= <- <-];
    (split; [reflexivity|]); (split; [reflexivity|]);
    cbn [pkgs metas with_pkgs with_metas with_next_loc next_loc];
    rewrite !insert_insert_eq;
    eexists _, _; (split; [reflexivity|]); (split; [reflexivity|]); (split; [reflexivity|]);
    cbn [groupId artifactId repo _base_url _metadata_cache _version _pom_cache
           _version_is_unsure dep_attrs];
    repeat split; eauto; try done;
    try (intros ? [= <-]; rewrite Ht; by eexists).
Qed.

Lemma make_dependencies_fields fuel properties parent_group parent_version parent_repo entries :
  forall st deps st',
  make_dependencies fuel properties parent_group parent_version parent_repo entries st
  = (Ret deps, st') ->
  (next_loc st <= next_loc st')%nat /\
  (forall l, (l < next_loc st)%nat ->
     pkgs st' !! l = pkgs st !! l /\ metas st' !! l = metas st !! l) /\
  Forall2 (fun entry dep =>
             exists d md, pkgs st' !! dep = Some d /\ metas st' !! meta d = Some md /\
                          built_from fuel properties parent_repo entry d md)
    entries deps.
Proof.
  induction entries as [|entry entries IH]; intros st deps st' H.
  - cbn [make_dependencies] in H. unfold ret in H. injection H as <- <-.
    split; [lia|]. split; [done|]. constructor.
  - cbn [make_dependencies] in H.
    apply bind_inv in H as (pkg & st1 & Hone & H).
    apply bind_inv in H as (lst & st2 & Hrest & H).
    unfold ret in H. injection H as <- <-.
    apply make_dependency_fields in Hone
      as (-> & Hnext & d & md & Hpkgs & Hmetas & Hmeta & Hbuilt).
    apply IH in Hrest as (Hle & Hframe & Hall).
    split; [lia|]. split.
    + intros l Hl. destruct (Hframe l ltac:(lia)) as [-> ->].
      rewrite Hpkgs, Hmetas, !lookup_insert_ne by lia. done.
    + constructor; [|exact Hall]. exists d, md.
      destruct (Hframe (S (next_loc st)) ltac:(lia)) as [-> _].
      destruct (Hframe (next_loc st) ltac:(lia)) as [_ Hm].
      rewrite Hmeta, Hm, Hpkgs, Hmetas, !lookup_insert_eq. done.
Qed.

Lemma get_dependencies_built env fuel self st deps st' :
  get_dependencies env fuel self st = (Ret deps, st') ->
  exists root st1 p m properties,
    _get_pom env self st = (Ret root, st1) /\
    pkgs st1 !! self = Some p /\
    metas st1 !! meta p = Some m /\
    property_table p m root = Ret properties /\
    Forall2 (fun entry dep =>
               exists d md, pkgs st' !! dep = Some d /\ metas st' !! meta d = Some md /\
                            built_from fuel properties (repo m) entry d md)
      (iterfind_dependency_entries root) deps.
Proof.
  unfold get_dependencies. intros H.
  apply bind_inv in H as (root & st1 & Hpom & H).
  apply bind_inv in H as (p & st2 & Hp & H). apply get_pkg_inv in Hp as [-> Hp].
  apply bind_inv in H as (m & st2 & Hm & H). apply get_meta_inv in Hm as [-> Hm].
  apply bind_inv in H as (properties & st2 & Hprops & H).
  apply lift_inv in Hprops as [-> Hprops].
  apply make_dependencies_fields in H as (_ & _ & Hall).
  by exists root, st1, p, m, properties.
Qed.

(** X16: when [get_dependencies] returns, its result lists one package per dependency entry of the descriptor, in document order; the group and the artifact of each are the substituted texts of the entry, its repository is the one of the parent, its base URL is the page URL of these three, and an explicit version element gives the substituted text as the version. *)
Theorem dependency_coordinates_are_substituted env fuel self st deps st' :
  get_dependencies env fuel self st = (Ret deps, st') ->
  exists root st1 p m properties,
    _get_pom env self st = (Ret root, st1) /\
    pkgs st1 !! self = Some p /\
    metas st1 !! meta p = Some m /\
    property_table p m root = Ret properties /\
    Forall2 (fun entry dep =>
               exists d md gtext atext,
                 pkgs st' !! dep = Some d /\ metas st' !! meta d = Some md /\
                 elem_text <$> find_child "groupId" entry = Some (Some gtext) /\
                 parse_property_value fuel properties gtext = Ret (groupId md) /\
                 elem_text <$> find_child "artifactId" entry = Some (Some atext) /\
                 parse_property_value fuel properties atext = Ret (artifactId md) /\
                 repo md = repo m /\
                 _base_url md = get_package_page_url (repo m) (groupId md) (artifactId md) /\
                 (forall el, find_child "version" entry = Some el ->
                    exists vtext v, elem_text el = Some vtext /\
                                    parse_property_value fuel properties vtext = Ret v /\
                                    _version d = Some v))
      (iterfind_dependency_entries root) deps.
Proof.
  intros H. apply get_dependencies_built in H
    as (root & st1 & p & m & properties & Hpom & Hp & Hm & Hprops & Hall).
  exists root, st1, p, m, properties. repeat (split; [done|]).
  eapply Forall2_impl; [exact Hall|].
  intros entry dep (d & md & Hd & Hmd & (gtext & Hg0 & Hg) & (atext & Ha0 & Ha) & Hrepo & Hurl
                    & _ & Hver & _).
  exists d, md, gtext, atext. done.
Qed.

Lemma dependency_coordinates_of_core :
  exists root st1 p m properties,
    _get_pom Scenarios.example_env 2 Scenarios.release_state = (Ret root, st1) /\
    pkgs st1 !! 2%nat = Some p /\
    metas st1 !! meta p = Some m /\
    property_table p m root = Ret properties /\
    Forall2 (fun entry dep =>
               exists d md gtext atext,
                 pkgs (get_dependencies Scenarios.example_env 5 2 Scenarios.release_state).2
                   !! dep = Some d /\
                 metas (get_dependencies Scenarios.example_env 5 2 Scenarios.release_state).2
                   !! meta d = Some md /\
                 elem_text <$> find_child "groupId" entry = Some (Some gtext) /\
                 parse_property_value 5 properties gtext = Ret (groupId md) /\
                 elem_text <$> find_child "artifactId" entry = Some (Some atext) /\
                 parse_property_value 5 properties atext = Ret (artifactId md) /\
                 repo md = repo m /\
                 _base_url md = get_package_page_url (repo m) (groupId md) (artifactId md) /\
                 (forall el, find_child "version" entry = Some el ->
                    exists vtext v, elem_text el = Some vtext /\
                                    parse_property_value 5 properties vtext = Ret v /\
                                    _version d = Some v))
      (iterfind_dependency_entries root) [5; 7; 9]%nat.
Proof.
  apply (dependency_coordinates_are_substituted Scenarios.example_env 5 2
           Scenarios.release_state [5; 7; 9]%nat
           (get_dependencies Scenarios.example_env 5 2 Scenarios.release_state).2).
  vm_compute. reflexivity.
Defined.

(** X17: when [get_dependencies] returns, each package of the result holds the scope text of its entry, or [compile] when the entry has no scope element, and the optional flag that says whether the lowered text of the optional element is [true], or [False] when there is no such element; an optional element always has a text. *)
Theorem dependency_scope_and_optional env fuel self st deps st' :
  get_dependencies env fuel self st = (Ret deps, st') ->
  exists root st1,
    _get_pom env self st = (Ret root, st1) /\
    Forall2 (fun entry dep =>
               exists d,
                 pkgs st' !! dep = Some d /\
                 dep_attrs d
                 = Some (match find_child "scope" entry with
                         | Some el => elem_text el
                         | None => Some "compile"
                         end,
                         match find_child "optional" entry with
                         | Some el => match elem_text el with
                                      | Some t => String.eqb (PyStr.lower t) "true"
                                      | None => false
                                      end
                         | None => false
                         end) /\
                 (forall el, find_child "optional" entry = Some el -> is_Some (elem_text el)))
      (iterfind_dependency_entries root) deps.
Proof.
  intros H. apply get_dependencies_built in H
    as (root & st1 & p & m & properties & Hpom & Hp & Hm & Hprops & Hall).
  exists root, st1. split; [done|].
  eapply Forall2_impl; [exact Hall|].
  intros entry dep (d & md & Hd & _ & _ & _ & _ & _ & _ & _ & _ & _ & Hattrs & Hopt).
  exists d. done.
Qed.

Lemma dependency_scopes_of_core :
  exists root st1,
    _get_pom Scenarios.example_env 2 Scenarios.release_state = (Ret root, st1) /\
    Forall2 (fun entry dep =>
               exists d,
                 pkgs (get_dependencies Scenarios.example_env 5 2 Scenarios.release_state).2
                   !! dep = Some d /\
                 dep_attrs d
                 = Some (match find_child "scope" entry with
                         | Some el => elem_text el
                         | None => Some "compile"
                         end,
                         match find_child "optional" entry with
                         | Some el => match elem_text el with
                                      | Some t => String.eqb (PyStr.lower t) "true"
                                      | None => false
                                      end
                         | None => false
                         end) /\
                 (forall el, find_child "optional" entry = Some el -> is_Some (elem_text el)))
      (iterfind_dependency_entries root) [5; 7; 9]%nat.
Proof.
  apply (dependency_scope_and_optional Scenarios.example_env 5 2
           Scenarios.release_state [5; 7; 9]%nat
           (get_dependencies Scenarios.example_env 5 2 Scenarios.release_state).2).
  vm_compute. reflexivity.
Defined.

(** ** The jar cache *)

(** X18: for a package with a resolved version whose jar is not cached, when the request fails with an error that is not an HTTP status, [cache_jar] raises it: only [HTTPError] is turned into [False]; the request is logged and nothing is written. *)
Theorem cache_jar_transport_error_propagates env st self p m v postfix :
  pkgs st !! self = Some p ->
  metas st !! meta p = Some m ->
  _version p = Some v ->
  is_concrete_version v = true ->
  os_path_exists (get_jar_cache_path (env_cwd env) (groupId m) (artifactId m) v postfix) st
    = (Ret false, st) ->
  remote env (_base_url m ++ "/" ++ v ++ "/" ++ artifactId m ++ "-" ++ v ++ postfix ++ ".jar")
    = Unreachable ->
  cache_jar env self postfix st
  = (Raise URLError,
     with_requests (requests st
        ++ [(_base_url m ++ "/" ++ v ++ "/" ++ artifactId m ++ "-" ++ v ++ postfix ++ ".jar")%string]) st).
Proof.
  intros Hp Hm Hv Hc Hex Hremote.
  rewrite (cache_jar_steps env st self p m v postfix Hp Hm Hv Hc false Hex).
  cbn [negb]. unfold fetch_file, bind, modify. rewrite Hremote. reflexivity.
Qed.

Lemma cache_jar_of_core_offline :
  cache_jar Examples.offline_env 2 "" Scenarios.core_state
  = (Raise URLError, with_requests [Scenarios.core_jar_url] Scenarios.core_state).
Proof.
  apply (cache_jar_transport_error_propagates Examples.offline_env Scenarios.core_state 2
           Scenarios.core_pkg Scenarios.core_meta "1.0.0" ""); reflexivity.
Defined.

(** X19: for two packages with the same artifact and the same resolved version, whatever their groups: once [cache_jar] has returned [True] for the first, it returns [True] for the second without any request or write. *)
Theorem jar_cache_is_shared_across_groups env st k1 p1 m1 k2 p2 m2 v postfix st1 :
  pkgs st !! k1 = Some p1 -> metas st !! meta p1 = Some m1 ->
  pkgs st !! k2 = Some p2 -> metas st !! meta p2 = Some m2 ->
  _version p1 = Some v -> _version p2 = Some v ->
  is_concrete_version v = true ->
  artifactId m1 = artifactId m2 ->
  cache_jar env k1 postfix st = (Ret true, st1) ->
  cache_jar env k2 postfix st1 = (Ret true, st1).
Proof.
  intros Hp1 Hm1 Hp2 Hm2 Hv1 Hv2 Hc Hart Hfirst.
  destruct (cache_jar_true_cached env st k1 p1 m1 v postfix st1 Hp1 Hm1 Hv1 Hc Hfirst)
    as (Hex & Hpkgs & Hmetas).
  apply (cache_jar_cached env st1 k2 p2 m2 v postfix);
    [by rewrite Hpkgs | by rewrite Hmetas | done | done |].
  unfold get_jar_cache_path in *. by rewrite <- Hart.
Qed.

Lemma jar_of_other_core_is_not_fetched :
  cache_jar Scenarios.jar_env 4 ""
    (cache_jar Scenarios.jar_env 2 "" Examples.two_groups_state).2
  = (Ret true, (cache_jar Scenarios.jar_env 2 "" Examples.two_groups_state).2).
Proof.
  apply (jar_cache_is_shared_across_groups Scenarios.jar_env Examples.two_groups_state
           2 Scenarios.core_pkg Scenarios.core_meta
           4 Examples.other_core_pkg Examples.other_core_meta "1.0.0" "");
    [reflexivity.. | vm_compute; reflexivity].
Defined.

(** ** Sets of resolved packages *)

Lemma hash_settled env st k m v :
  settled st k m v ->
  MavenPackage__hash__ env k st
  = (Ret (int_hash (MavenPackageMeta__hash__ env m + str_hash env v)), st).
Proof.
  intros (p & Hp & Hm & Hv & Hc). unfold MavenPackage__hash__.
  rewrite (bind_Ret _ _ _ _ _ (get_pkg_run _ _ _ Hp)).
  rewrite (bind_Ret _ _ _ _ _ (get_meta_run _ _ _ Hm)).
  rewrite (bind_Ret _ _ _ _ _ (_get_version_concrete env _ _ _ v Hp Hv Hc)).
  reflexivity.
Qed.

Lemma eq_settled env st x mx vx y my vy :
  settled st x mx vx -> settled st y my vy ->
  MavenPackage__eq__ env x (PyPkg y) st
  = (Ret (MavenPackageMeta__eq__ mx my && bool_decide (Some vx = Some vy)), st).
Proof.
  intros (px & Hpx & Hmx & Hvx & Hcx) (py & Hpy & Hmy & Hvy & Hcy).
  unfold MavenPackage__eq__.
  rewrite (bind_Ret _ _ _ _ _ (get_pkg_run _ _ _ Hpx)).
  rewrite (bind_Ret _ _ _ _ _ (get_pkg_run _ _ _ Hpy)).
  unfold meta_equals.
  rewrite bind_assoc, (bind_Ret _ _ _ _ _ (get_meta_run _ _ _ Hmx)).
  rewrite bind_assoc, (bind_Ret _ _ _ _ _ (get_meta_run _ _ _ Hmy)).
  rewrite (bind_Ret _ _ st (MavenPackageMeta__eq__ mx my) st) by reflexivity.
  destruct (MavenPackageMeta__eq__ mx my); [|reflexivity].
  rewrite (bind_Ret _ _ _ _ _ (_get_version_concrete env _ _ _ vx Hpx Hvx Hcx)).
  rewrite (bind_Ret _ _ _ _ _ (_get_version_concrete env _ _ _ vy Hpy Hvy Hcy)).
  reflexivity.
Qed.

Lemma pkg_equals_settled env st x mx vx y my vy :
  settled st x mx vx -> settled st y my vy ->
  exists b, pkg_equals env x y st = (Ret b, st) /\
            (b = true -> MavenPackageMeta__eq__ mx my = true \/ MavenPackageMeta__eq__ my mx = true).
Proof.
  intros Hx Hy. unfold pkg_equals, is_dependency_package.
  destruct Hx as (px & Hpx & Hx). destruct Hy as (py & Hpy & Hy).
  rewrite bind_assoc, (bind_Ret _ _ _ _ _ (get_pkg_run _ _ _ Hpx)).
  rewrite (bind_Ret _ _ st _ st) by reflexivity.
  rewrite bind_assoc, (bind_Ret _ _ _ _ _ (get_pkg_run _ _ _ Hpy)).
  rewrite (bind_Ret _ _ st _ st) by reflexivity.
  destruct (negb _ && _).
  - rewrite (eq_settled env st y my vy x mx vx) by (eexists; eauto).
    eexists. split; [reflexivity|]. intros H. apply andb_true_iff in H as [H _]. by right.
  - rewrite (eq_settled env st x mx vx y my vy) by (eexists; eauto).
    eexists. split; [reflexivity|]. intros H. apply andb_true_iff in H as [H _]. by left.
Qed.

Lemma meta_eq_needs_group_artifact a b :
  MavenPackageMeta__eq__ a b = true -> artifactId a = groupId a.
Proof.
  unfold MavenPackageMeta__eq__. rewrite andb_true_iff, !String.eqb_eq.
  intros [-> ->]. reflexivity.
Qed.

Lemma set_lookup_distinct env st entries h key mk vk :
  settled st key mk vk ->
  artifactId mk <> groupId mk ->
  Forall (fun e => e.2 <> key /\
                   exists m v, settled st e.2 m v /\ artifactId m <> groupId m) entries ->
  set_lookup env entries h key st = (Ret false, st).
Proof.
  intros Hkey Hproper. induction 1 as [|[h' k'] entries [Hne (m & v & Hs & Hp)] _ IH];
    [reflexivity|].
  cbn [set_lookup]. cbn [snd] in *.
  destruct (h' =? h)%Z; [|exact IH].
  destruct (Nat.eqb_spec k' key) as [?|_]; [done|].
  destruct (pkg_equals_settled env st k' m v key mk vk Hs Hkey) as (b & Hrun & Hb).
  rewrite (bind_Ret _ _ _ _ _ Hrun).
  destruct b; [|exact IH].
  destruct (Hb eq_refl) as [H|H]; apply meta_eq_needs_group_artifact in H; done.
Qed.

(** X20: in a set of resolved packages whose artifacts differ from their groups, a resolved package of that kind that is not itself one of the members is not found by [in], whatever its coordinate: membership is object identity. *)
Theorem distinct_object_is_never_a_member env st s entries key mk vk :
  sets st !! s = Some entries ->
  settled st key mk vk ->
  artifactId mk <> groupId mk ->
  Forall (fun e => e.2 <> key /\
                   exists m v, settled st e.2 m v /\ artifactId m <> groupId m) entries ->
  set_contains env s key st = (Ret false, st).
Proof.
  intros Hs Hkey Hproper Hall. unfold set_contains.
  rewrite (bind_Ret _ _ _ _ _ (hash_settled env _ _ _ _ Hkey)).
  rewrite (bind_Ret _ _ _ _ _ (get_set_run _ _ _ Hs)).
  by eapply set_lookup_distinct.
Qed.

Lemma equal_coordinate_is_not_a_member :
  set_contains (Fixtures.table_env []) 6 4 Examples.one_member_state
  = (Ret false, Examples.one_member_state).
Proof.
  apply (distinct_object_is_never_a_member (Fixtures.table_env []) Examples.one_member_state
           6 [(2536, 2%nat)] 4 Examples.poi_meta "5.2.3").
  - reflexivity.
  - exists (Examples.poi_pkg 5). repeat split; reflexivity.
  - discriminate.
  - constructor; [|constructor]. split; [discriminate|].
    exists Examples.poi_meta, "5.2.3". split; [|discriminate].
    exists (Examples.poi_pkg 3). repeat split; reflexivity.
Defined.

Lemma set_lookup_settled env st entries h key mk vk :
  settled st key mk vk ->
  Forall (fun e => exists m v, settled st e.2 m v) entries ->
  exists b, set_lookup env entries h key st = (Ret b, st).
Proof.
  intros Hkey. induction 1 as [|[h' k'] entries (m & v & Hs) _ [b IH]];
    [by exists false|].
  cbn [set_lookup]. cbn [snd] in *.
  destruct (h' =? h)%Z; [|by exists b].
  destruct (k' =? key)%nat; [by exists true|].
  destruct (pkg_equals_settled env st k' m v key mk vk Hs Hkey) as (b' & Hrun & _).
  rewrite (bind_Ret _ _ _ _ _ Hrun).
  destruct b'; [by exists true | by exists b].
Qed.

Lemma set_lookup_last env st entries h key mk vk :
  settled st key mk vk ->
  Forall (fun e => exists m v, settled st e.2 m v) entries ->
  set_lookup env (entries ++ [(h, key)])%list h key st = (Ret true, st).
Proof.
  intros Hkey. induction 1 as [|[h' k'] entries (m & v & Hs) _ IH].
  - cbn [app set_lookup]. by rewrite Z.eqb_refl, Nat.eqb_refl.
  - cbn [app set_lookup]. cbn [snd] in *.
    destruct (h' =? h)%Z; [|exact IH].
    destruct (k' =? key)%nat; [reflexivity|].
    destruct (pkg_equals_settled env st k' m v key mk vk Hs Hkey) as (b' & Hrun & _).
    rewrite (bind_Ret _ _ _ _ _ Hrun).
    destruct b'; [reflexivity | exact IH].
Qed.

(** X21: for a set of resolved packages and a resolved package: after [add], the package is found by [in], and adding it once more changes nothing. *)
Theorem added_object_is_a_member env st s entries key mk vk :
  sets st !! s = Some entries ->
  settled st key mk vk ->
  Forall (fun e => exists m v, settled st e.2 m v) entries ->
  exists st1,
    set_add env s key st = (Ret tt, st1) /\
    set_contains env s key st1 = (Ret true, st1) /\
    set_add env s key st1 = (Ret tt, st1).
Proof.
  intros Hs Hkey Hall.
  destruct (set_lookup_settled env st entries
              (int_hash (MavenPackageMeta__hash__ env mk + str_hash env vk)) key mk vk Hkey Hall)
    as (b & Hlook).
  unfold set_add at 1.
  rewrite (bind_Ret _ _ _ _ _ (hash_settled env _ _ _ _ Hkey)).
  rewrite (bind_Ret _ _ _ _ _ (get_set_run _ _ _ Hs)).
  rewrite (bind_Ret _ _ _ _ _ Hlook).
  destruct b.
  - exists st. split; [reflexivity|]. unfold set_contains, set_add.
    rewrite !(bind_Ret _ _ _ _ _ (hash_settled env _ _ _ _ Hkey)).
    rewrite !(bind_Ret _ _ _ _ _ (get_set_run _ _ _ Hs)).
    rewrite !(bind_Ret _ _ _ _ _ Hlook). done.
  - eexists. split; [reflexivity|].
    set (h := int_hash _) in *.
    set (st1 := with_sets _ st).
    assert (settled st1 key mk vk) as Hkey1 by exact Hkey.
    assert (sets st1 !! s = Some (entries ++ [(h, key)])%list) as Hs1
      by apply lookup_insert_eq.
    assert (set_lookup env (entries ++ [(h, key)])%list h key st1 = (Ret true, st1)) as Hl1
      by (by eapply set_lookup_last).
    unfold set_contains, set_add.
    rewrite !(bind_Ret _ _ _ _ _ (hash_settled env _ _ _ _ Hkey1)).
    rewrite !(bind_Ret _ _ _ _ _ (get_set_run _ _ _ Hs1)). fold h.
    rewrite !(bind_Ret _ _ _ _ _ Hl1). done.
Qed.

Lemma added_package_is_a_member :
  exists st1,
    set_add (Fixtures.table_env []) 6 4 Examples.one_member_state = (Ret tt, st1) /\
    set_contains (Fixtures.table_env []) 6 4 st1 = (Ret true, st1) /\
    set_add (Fixtures.table_env []) 6 4 st1 = (Ret tt, st1).
Proof.
  apply (added_object_is_a_member (Fixtures.table_env []) Examples.one_member_state
           6 [(2536, 2%nat)] 4 Examples.poi_meta "5.2.3").
  - reflexivity.
  - exists (Examples.poi_pkg 5). repeat split; reflexivity.
  - constructor; [|constructor].
    exists Examples.poi_meta, "5.2.3", (Examples.poi_pkg 3). repeat split; reflexivity.
Defined.

(** ** Dependencies that the walk passes over *)

Lemma for_each_skip {A} (body : A -> M unit) xs st :
  Forall (fun x => body x st = (Ret tt, st)) xs ->
  for_each xs body st = (Ret tt, st).
Proof.
  induction 1 as [|x xs Hx _ IH]; [reflexivity|].
  cbn [for_each]. by rewrite (bind_Ret _ _ _ _ _ Hx).
Qed.

Lemma scope_run st dep d s o :
  pkgs st !! dep = Some d -> dep_attrs d = Some (s, o) -> scope dep st = (Ret s, st).
Proof.
  intros Hd Ha. unfold scope. rewrite (bind_Ret _ _ _ _ _ (get_pkg_run _ _ _ Hd)).
  by rewrite Ha.
Qed.

Lemma optional_run st dep d s o :
  pkgs st !! dep = Some d -> dep_attrs d = Some (s, o) -> optional dep st = (Ret o, st).
Proof.
  intros Hd Ha. unfold optional. rewrite (bind_Ret _ _ _ _ _ (get_pkg_run _ _ _ Hd)).
  by rewrite Ha.
Qed.

Lemma walkers_skip_ineligible env fuel pkg indent processed st deps st1 :
  get_dependencies env fuel pkg st = (Ret deps, st1) ->
  Forall (ineligible st1) deps ->
  dump_dependencies env (S fuel) pkg indent processed st = (Ret tt, st1) /\
  walk_dependencies env (S fuel) pkg indent processed st = (Ret tt, st1).
Proof.
  intros Hdeps Hall. split.
  - cbn [dump_dependencies]. rewrite (bind_Ret _ _ _ _ _ Hdeps). apply for_each_skip.
    eapply Forall_impl; [exact Hall|].
    intros dep (d & s & o & Hd & Ha & Hwhy).
    rewrite (bind_Ret _ _ _ _ _ (scope_run _ _ _ _ _ Hd Ha)).
    rewrite (bind_Ret _ _ st1 s st1) by reflexivity.
    destruct (String.eqb (PyStr.lower s) "compile") eqn:Hs; [|reflexivity].
    rewrite (bind_Ret _ _ _ _ _ (optional_run _ _ _ _ _ Hd Ha)).
    destruct Hwhy as [?| ->]; [discriminate | reflexivity].
  - cbn [walk_dependencies]. rewrite (bind_Ret _ _ _ _ _ Hdeps). apply for_each_skip.
    eapply Forall_impl; [exact Hall|].
    intros dep (d & s & o & Hd & Ha & Hwhy).
    rewrite (bind_Ret _ _ _ _ _ (scope_run _ _ _ _ _ Hd Ha)).
    rewrite (bind_Ret _ _ st1 s st1) by reflexivity.
    destruct (String.eqb (PyStr.lower s) "compile") eqn:Hs; [|reflexivity].
    rewrite (bind_Ret _ _ _ _ _ (optional_run _ _ _ _ _ Hd Ha)).
    destruct Hwhy as [?| ->]; [discriminate | reflexivity].
Qed.

Lemma walkers_raise_without_scope env fuel pkg indent processed st dep deps st1 d o :
  get_dependencies env fuel pkg st = (Ret (dep :: deps), st1) ->
  pkgs st1 !! dep = Some d ->
  dep_attrs d = Some (None, o) ->
  dump_dependencies env (S fuel) pkg indent processed st = (Raise AttributeError, st1) /\
  walk_dependencies env (S fuel) pkg indent processed st = (Raise AttributeError, st1).
Proof.
  intros Hdeps Hd Ha. split.
  - cbn [dump_dependencies]. rewrite (bind_Ret _ _ _ _ _ Hdeps). cbn [for_each].
    rewrite bind_assoc, (bind_Ret _ _ _ _ _ (scope_run _ _ _ _ _ Hd Ha)). reflexivity.
  - cbn [walk_dependencies]. rewrite (bind_Ret _ _ _ _ _ Hdeps). cbn [for_each].
    rewrite bind_assoc, (bind_Ret _ _ _ _ _ (scope_run _ _ _ _ _ Hd Ha)). reflexivity.
Qed.

Lemma get_dependencies_attrs env fuel self st deps st' root st0 :
  _get_pom env self st = (Ret root, st0) ->
  get_dependencies env fuel self st = (Ret deps, st') ->
  Forall2 (fun entry dep =>
             exists d, pkgs st' !! dep = Some d /\
                       dep_attrs d = Some (entry_scope entry, entry_optional entry))
    (iterfind_dependency_entries root) deps.
Proof.
  intros Hpom H.
  apply get_dependencies_built in H as (root' & st1 & p & m & properties & Hpom' & _ & _ & _ & Hall).
  rewrite Hpom in Hpom'. injection Hpom' as <- <-.
  eapply Forall2_impl; [exact Hall|].
  intros entry dep (d & md & Hd & _ & Hbuilt). exists d. split; [exact Hd|].
  apply Hbuilt.
Qed.

(** X22: when every dependency entry of the descriptor has a scope text other than [compile] (compared in lower case) or an optional element whose lowered text is [true], both walkers return in the state that [get_dependencies] reached: nothing is printed, nothing is added to a set, no dependency is expanded. *)
Theorem skipped_entries_are_not_walked env fuel pkg indent processed st root st0 deps st1 :
  _get_pom env pkg st = (Ret root, st0) ->
  get_dependencies env fuel pkg st = (Ret deps, st1) ->
  Forall (fun entry => entry_skipped entry = true) (iterfind_dependency_entries root) ->
  dump_dependencies env (S fuel) pkg indent processed st = (Ret tt, st1) /\
  walk_dependencies env (S fuel) pkg indent processed st = (Ret tt, st1).
Proof.
  intros Hpom Hdeps Hskip.
  apply (walkers_skip_ineligible env fuel pkg indent processed st deps st1 Hdeps).
  pose proof (get_dependencies_attrs _ _ _ _ _ _ _ _ Hpom Hdeps) as Hall.
  clear Hpom Hdeps. induction Hall as [|entry dep entries deps (d & Hd & Ha) _ IH].
  - constructor.
  - apply Forall_cons in Hskip as [Hentry Hskip].
    constructor; [|by apply IH].
    unfold entry_skipped in Hentry.
    destruct (entry_scope entry) as [s|] eqn:Hs; [|discriminate].
    exists d, s, (entry_optional entry). split; [exact Hd|]. split; [exact Ha|].
    apply orb_true_iff in Hentry as [Hentry|Hentry]; [left|by right].
    by apply negb_true_iff.
Qed.

Lemma skipped_dependencies_of_core :
  dump_dependencies Examples.skipped_env 6 2 0 dump_dependencies_default_processed
    Scenarios.core_state
  = (Ret tt, (get_dependencies Examples.skipped_env 5 2 Scenarios.core_state).2) /\
  walk_dependencies Examples.skipped_env 6 2 0 dump_dependencies_default_processed
    Scenarios.core_state
  = (Ret tt, (get_dependencies Examples.skipped_env 5 2 Scenarios.core_state).2).
Proof.
  apply (skipped_entries_are_not_walked Examples.skipped_env 5 2 0
           dump_dependencies_default_processed Scenarios.core_state Examples.skipped_root
           (_get_pom Examples.skipped_env 2 Scenarios.core_state).2 [5; 7; 9]%nat
           (get_dependencies Examples.skipped_env 5 2 Scenarios.core_state).2);
    [vm_compute; reflexivity | vm_compute; reflexivity |].
  repeat constructor.
Defined.

(** X23: when the first dependency entry of the descriptor has a scope element without text, both walkers raise [AttributeError] in the state that [get_dependencies] reached: the scope of the dependency is [None]. *)
Theorem empty_scope_element_raises env fuel pkg indent processed st root st0 deps st1
    entry rest el :
  _get_pom env pkg st = (Ret root, st0) ->
  get_dependencies env fuel pkg st = (Ret deps, st1) ->
  iterfind_dependency_entries root = entry :: rest ->
  find_child "scope" entry = Some el ->
  elem_text el = None ->
  dump_dependencies env (S fuel) pkg indent processed st = (Raise AttributeError, st1) /\
  walk_dependencies env (S fuel) pkg indent processed st = (Raise AttributeError, st1).
Proof.
  intros Hpom Hdeps Hentries Hscope Htext.
  pose proof (get_dependencies_attrs _ _ _ _ _ _ _ _ Hpom Hdeps) as Hall.
  rewrite Hentries in Hall.
  destruct deps as [|dep deps]; [by apply Forall2_cons_nil_inv in Hall|].
  apply Forall2_cons in Hall as [(d & Hd & Ha) _].
  unfold entry_scope in Ha. rewrite Hscope, Htext in Ha.
  exact (walkers_raise_without_scope env fuel pkg indent processed st dep deps st1 d _
           Hdeps Hd Ha).
Qed.

Lemma empty_scope_of_core_raises :
  dump_dependencies Examples.empty_scope_env 6 2 0 dump_dependencies_default_processed
    Scenarios.core_state
  = (Raise AttributeError,
     (get_dependencies Examples.empty_scope_env 5 2 Scenarios.core_state).2) /\
  walk_dependencies Examples.empty_scope_env 6 2 0 dump_dependencies_default_processed
    Scenarios.core_state
  = (Raise AttributeError,
     (get_dependencies Examples.empty_scope_env 5 2 Scenarios.core_state).2).
Proof.
  apply (empty_scope_element_raises Examples.empty_scope_env 5 2 0
           dump_dependencies_default_processed Scenarios.core_state Examples.empty_scope_root
           (_get_pom Examples.empty_scope_env 2 Scenarios.core_state).2 [5]%nat
           (get_dependencies Examples.empty_scope_env 5 2 Scenarios.core_state).2
           Examples.empty_scope_entry [] Examples.empty_scope);
    [vm_compute; reflexivity | vm_compute; reflexivity | reflexivity..].
Defined.
